(** * Singularity launchers for Boltz, Chai Lab and AlphaFold 3

    A shallow embedding of the three launcher scripts
    ([boltz/run_boltz_launcher.py], [chai_1/run_chailab_launcher.py],
    [run_alphafold3_launcher.py]) and of the parts of the Python runtime
    they call ([str] methods, [posixpath], [os]), followed by the
    properties of the bind-path resolver, of the command assembly and of
    whole runs. *)

From Stdlib Require Import String Ascii List Bool ZArith Lia PrimFloat.
From Stdlib Require DecimalString.
From Stdlib Require SpecFloat FloatAxioms.
Import ListNotations.

Local Open Scope list_scope.
Local Open Scope string_scope.
Set Warnings "-inexact-float".

(** ** Python [str] methods used by the launchers

    A Python [str] is modelled by [string]; the launchers only ever cut
    paths at the ASCII separator, so the encoding of other characters is
    immaterial. *)

Module Py.

Definition slash : ascii := "/"%char.

(** [s.startswith(p)] *)
Fixpoint startswith (s p : string) {struct p} : bool :=
  match p with
  | EmptyString => true
  | String c p' =>
      match s with
      | EmptyString => false
      | String d s' => Ascii.eqb d c && startswith s' p'
      end
  end.

(** [s.endswith("/")] *)
Fixpoint endswith_slash (s : string) : bool :=
  match s with
  | EmptyString => false
  | String c EmptyString => Ascii.eqb c slash
  | String _ r => endswith_slash r
  end.

(** [s == "/" * len(s)] *)
Fixpoint all_slashes (s : string) : bool :=
  match s with
  | EmptyString => true
  | String c r => Ascii.eqb c slash && all_slashes r
  end.

(** [s.rstrip("/")] *)
Fixpoint rstrip_slash (s : string) : string :=
  match s with
  | EmptyString => EmptyString
  | String c r =>
      match rstrip_slash r with
      | EmptyString => if Ascii.eqb c slash then EmptyString else String c EmptyString
      | r' => String c r'
      end
  end.

(** [s.split("/")]: never empty, the pieces hold no separator. *)
Fixpoint split_slash (s : string) : list string :=
  match s with
  | EmptyString => [EmptyString]
  | String c r =>
      if Ascii.eqb c slash then EmptyString :: split_slash r
      else match split_slash r with
           | h :: t => String c h :: t
           | [] => [String c EmptyString]
           end
  end.

(** ["/".join(l)] *)
Fixpoint join_slash (l : list string) : string :=
  match l with
  | [] => EmptyString
  | [x] => x
  | x :: r => x ++ "/" ++ join_slash r
  end.

(** The cut at the last separator: [rcut s = Some (a, b)] when
    [s = a ++ "/" ++ b] and [b] holds no separator, which is
    [s[:i-1], s[i:]] for [i = s.rfind("/") + 1]; [None] when [s] holds
    no separator ([rfind] gives [-1]). *)
Fixpoint rcut (s : string) : option (string * string) :=
  match s with
  | EmptyString => None
  | String c r =>
      match rcut r with
      | Some (a, b) => Some (String c a, b)
      | None => if Ascii.eqb c slash then Some (EmptyString, r) else None
      end
  end.

(** The cut at the first separator at index [>= 1]:
    [s[:i], s[i:]] for [i = s.find("/", 1)], or [(s, "")] when there is
    none ([i = len(s)]). Used on strings that start with a tilde. *)
Fixpoint cut_first (s : string) : string * string :=
  match s with
  | EmptyString => (EmptyString, EmptyString)
  | String c r =>
      if Ascii.eqb c slash then (EmptyString, s)
      else let '(a, b) := cut_first r in (String c a, b)
  end.

(** Truthiness of a [str]. *)
Definition truthy (s : string) : bool :=
  match s with EmptyString => false | _ => true end.

(** Truthiness of an optional [str] flag ([None] or a string). *)
Definition truthy_opt (o : option string) : bool :=
  match o with Some s => truthy s | None => false end.

(** [str(n)] for an [int]. *)
Definition str_int (n : Z) : string :=
  DecimalString.NilZero.string_of_int (Z.to_int n).

(** [str(b).lower()] for a [bool]. *)
Definition str_bool_lower (b : bool) : string :=
  if b then "true" else "false".

(** Lookup in a [dict] with [str] keys, kept as an association list. *)
Fixpoint assoc {A} (k : string) (l : list (string * A)) : option A :=
  match l with
  | [] => None
  | (k', v) :: r => if String.eqb k k' then Some v else assoc k r
  end.

End Py.

(** ** [posixpath] *)

Module posixpath.

Import Py.

Definition isabs (p : string) : bool := startswith p "/".

(** [os.path.join(a, b)] with one extra component. *)
Definition join (a b : string) : string :=
  if startswith b "/" then b
  else if negb (truthy a) || endswith_slash a then a ++ b
  else a ++ "/" ++ b.

(** [os.path.split(p)] *)
Definition split (p : string) : string * string :=
  match rcut p with
  | None => (EmptyString, p)
  | Some (a, tail) =>
      let head := a ++ "/" in
      (if all_slashes head then head else rstrip_slash head, tail)
  end.

Definition dirname (p : string) : string := fst (split p).
Definition basename (p : string) : string := snd (split p).

(** The loop of [normpath] over the components; [acc] is [new_comps]
    in reverse. *)
Fixpoint norm_comps (rooted : bool) (acc comps : list string) : list string :=
  match comps with
  | [] => rev acc
  | c :: r =>
      if String.eqb c "" || String.eqb c "." then norm_comps rooted acc r
      else if negb (String.eqb c "..") then norm_comps rooted (c :: acc) r
      else match acc with
           | [] => if rooted then norm_comps rooted acc r
                   else norm_comps rooted (c :: acc) r
           | last :: acc' =>
               if String.eqb last ".." then norm_comps rooted (c :: acc) r
               else norm_comps rooted acc' r
           end
  end.

(** The number of leading separators [normpath] keeps: two when the
    path starts with exactly two, one when it starts with one or with
    three or more. *)
Definition initial_slashes (p : string) : string :=
  if startswith p "/" then
    if startswith p "//" && negb (startswith p "///") then "//" else "/"
  else "".

Definition normpath (p : string) : string :=
  if negb (truthy p) then "."
  else
    let ini := initial_slashes p in
    let path := ini ++ join_slash (norm_comps (truthy ini) [] (split_slash p)) in
    if truthy path then path else ".".

(** [os.path.abspath(p)] in the working directory [cwd]. *)
Definition abspath (cwd p : string) : string :=
  normpath (if isabs p then p else join cwd p).

End posixpath.

(** ** The host: file system, environment, clock and container runtime *)

Module os.

Import Py.

(** What a path names: a regular file, a directory, or a symbolic link
    with its target. *)
Inductive kind := KFile | KDir | KLink (target : string).

(** The file system: the kind of every entry, keyed by its canonical
    path (the names from the root down, none of them ["."], [".."] or
    empty). The root [[]] is a directory and has no entry. *)
Definition fs := list (list string * kind).

Fixpoint path_eqb (a b : list string) : bool :=
  match a, b with
  | [], [] => true
  | x :: a', y :: b' => String.eqb x y && path_eqb a' b'
  | _, _ => false
  end.

Fixpoint lookup (p : list string) (m : fs) : option kind :=
  match m with
  | [] => None
  | (q, k) :: r => if path_eqb p q then Some k else lookup p r
  end.

Definition kind_at (m : fs) (p : list string) : option kind :=
  match p with
  | [] => Some KDir
  | _ => lookup p m
  end.

Inductive errno := EEXIST | ENOENT | ENOTDIR | ELOOP | ENOTEMPTY.

Inductive res (A : Type) := Ok (a : A) | Err (e : errno).
Arguments Ok {A} a.
Arguments Err {A} e.

(** The kernel follows at most this many symbolic links in one
    resolution. *)
Definition MAXSYMLINKS : nat := 40.

(** Path resolution: from the directory [cur], walk the components
    [comps], following every symbolic link met (the last one too), and
    give the canonical path reached, with the number of links that may
    still be followed. *)
Fixpoint walk (links : nat) (m : fs) (cur comps : list string) {struct links}
  : res (nat * list string) :=
  (fix go (cur comps : list string) {struct comps} : res (nat * list string) :=
     match comps with
     | [] => Ok (links, cur)
     | c :: rest =>
         match kind_at m cur with
         | Some KDir =>
             if String.eqb c "" || String.eqb c "." then go cur rest
             else if String.eqb c ".." then go (removelast cur) rest
             else
               match kind_at m (cur ++ [c])%list with
               | None => Err ENOENT
               | Some (KLink t) =>
                   match links with
                   | O => Err ELOOP
                   | S links' =>
                       if truthy t then
                         walk links' m
                              (if Py.startswith t "/" then [] else cur)
                              (split_slash t ++ rest)%list
                       else Err ENOENT
                   end
               | Some _ => go (cur ++ [c])%list rest
               end
         | Some _ => Err ENOTDIR
         | None => Err ENOENT
         end
     end) cur comps.

Record datetime := {
  year : Z; month : Z; day : Z; hour : Z; minute : Z; second : Z }.

(** [Client.execute] and [Client.load] of [spython] are outside the
    repository: what they do is read from the host. *)
Inductive event :=
| EvPrint (line : string)
| EvLogError (msg : string)
| EvLogWarning (msg : string)
| EvCreateBind (mount_point_name host_path : string) (is_dir : bool)
| EvLoad (image : string)
| EvExecute (image : string) (command options : list string) (nv : bool).

Record host := {
  files : fs;
  cwd : string;                       (* [os.getcwd()], canonical *)
  environ : list (string * string);   (* [os.environ] *)
  pw_self : option string;            (* [pwd.getpwuid(os.getuid()).pw_dir] *)
  pw_dirs : list (string * string);   (* [pwd.getpwnam(name).pw_dir] *)
  now : datetime;                     (* [datetime.datetime.now()] *)
  cpu_count : Z;                      (* [multiprocessing.cpu_count()] *)
  spython : bool;                     (* [from spython.main import Client] succeeds *)
  image_loads : string -> bool;       (* [Client.load] returns *)
  container_lines : list string;      (* what the container writes *)
  container_fails : bool;             (* [Client.execute] raises *)
  container_writes : fs -> fs;        (* the files the container leaves, from
                                         those it is started on: it writes
                                         through its binds *)
  trace : list event                  (* what has happened so far, oldest first;
                                         [EvCreateBind] records each entry into
                                         [_create_bind] *)
}.

Definition with_files (h : host) (m : fs) : host :=
  {| files := m; cwd := cwd h; environ := environ h; pw_self := pw_self h;
     pw_dirs := pw_dirs h; now := now h; cpu_count := cpu_count h;
     spython := spython h; image_loads := image_loads h;
     container_lines := container_lines h;
     container_fails := container_fails h;
     container_writes := container_writes h; trace := trace h |}.

Definition with_event (h : host) (e : event) : host :=
  {| files := files h; cwd := cwd h; environ := environ h; pw_self := pw_self h;
     pw_dirs := pw_dirs h; now := now h; cpu_count := cpu_count h;
     spython := spython h; image_loads := image_loads h;
     container_lines := container_lines h;
     container_fails := container_fails h;
     container_writes := container_writes h; trace := (trace h ++ [e])%list |}.

(** A path given to a system call, as components from the root: a
    relative path starts in the working directory. *)
Definition from_root (h : host) (p : string) : list string :=
  if Py.startswith p "/" then split_slash p
  else (split_slash (cwd h) ++ split_slash p)%list.

(** [stat(p)]: the canonical path and the kind of what [p] names, links
    followed. The empty path names nothing. *)
Definition stat (h : host) (p : string) : res (list string * kind) :=
  if truthy p then
    match walk MAXSYMLINKS (files h) [] (from_root h p) with
    | Ok (_, q) => match kind_at (files h) q with
              | Some k => Ok (q, k)
              | None => Err ENOENT
              end
    | Err e => Err e
    end
  else Err ENOENT.

(** [os.path.exists], [os.path.isdir], [os.path.isfile] *)
Definition exists_ (h : host) (p : string) : bool :=
  match stat h p with Ok _ => true | Err _ => false end.

Definition isdir (h : host) (p : string) : bool :=
  match stat h p with Ok (_, KDir) => true | _ => false end.

Definition isfile (h : host) (p : string) : bool :=
  match stat h p with Ok (_, KFile) => true | _ => false end.

(** The names in the directory at the canonical path [d]. *)
Fixpoint children (d : list string) (m : fs) : list string :=
  match m with
  | [] => []
  | (q, _) :: r =>
      match rev q with
      | n :: qd => if path_eqb (rev qd) d then n :: children d r
                   else children d r
      | [] => children d r
      end
  end.

(** [os.listdir(p)] *)
Definition listdir (h : host) (p : string) : res (list string) :=
  match stat h p with
  | Ok (q, KDir) => Ok (children q (files h))
  | Ok _ => Err ENOTDIR
  | Err e => Err e
  end.

(** Trailing empty components (trailing separators) do not count in
    the name of a directory to make or remove. *)
Fixpoint drop_trailing_empty (comps : list string) : list string :=
  match comps with
  | [] => []
  | c :: r =>
      match drop_trailing_empty r with
      | [] => if String.eqb c "" then [] else [c]
      | r' => c :: r'
      end
  end.

(** Where a new entry named by [p] would go: the canonical path of the
    parent and the last name. *)
Definition parent_and_name (h : host) (p : string)
  : res (list string * string) :=
  if truthy p then
    match rev (drop_trailing_empty (from_root h p)) with
    | [] => Err EEXIST
    | b :: rinit =>
        match walk MAXSYMLINKS (files h) [] (rev rinit) with
        | Ok (_, q) =>
            match kind_at (files h) q with
            | Some KDir =>
                if String.eqb b "." || String.eqb b ".." then Err EEXIST
                else Ok (q, b)
            | Some _ => Err ENOTDIR
            | None => Err ENOENT
            end
        | Err e => Err e
        end
    end
  else Err ENOENT.

(** [os.mkdir(p)]: the new file system, or the error. *)
Definition mkdir (h : host) (p : string) : res fs :=
  match parent_and_name h p with
  | Ok (q, b) =>
      match kind_at (files h) (q ++ [b])%list with
      | Some _ => Err EEXIST
      | None => Ok (((q ++ [b])%list, KDir) :: files h)
      end
  | Err e => Err e
  end.

(** [os.rmdir(p)] *)
Definition rmdir (h : host) (p : string) : res fs :=
  match parent_and_name h p with
  | Ok (q, b) =>
      let d := (q ++ [b])%list in
      match kind_at (files h) d with
      | Some KDir =>
          match children d (files h) with
          | [] => Ok (filter (fun e => negb (path_eqb (fst e) d)) (files h))
          | _ => Err ENOTEMPTY
          end
      | Some _ => Err ENOTDIR
      | None => Err ENOENT
      end
  | Err e => Err e
  end.

End os.

(** ** Running a script: state, [sys.exit] and exceptions *)

Module Run.

Import os.

Inductive exn :=
| OSError (e : errno)
| UsageError (msg : string)      (* [absl.app.UsageError] *)
| RecursionError
| Exception (msg : string).      (* what [spython] raises *)

Inductive outcome (A : Type) :=
| Return (a : A)
| Exit (code : Z)                (* [sys.exit(code)] *)
| Raise (e : exn).
Arguments Return {A} a.
Arguments Exit {A} code.
Arguments Raise {A} e.

Definition M (A : Type) : Type := host -> outcome A * host.

Definition ret {A} (a : A) : M A := fun h => (Return a, h).

Definition bind {A B} (m : M A) (k : A -> M B) : M B :=
  fun h =>
    match m h with
    | (Return a, h') => k a h'
    | (Exit c, h') => (Exit c, h')
    | (Raise e, h') => (Raise e, h')
    end.

Definition sys_exit {A} (code : Z) : M A := fun h => (Exit code, h).
Definition raise {A} (e : exn) : M A := fun h => (Raise e, h).
Definition get : M host := fun h => (Return h, h).
Definition emit (e : event) : M unit := fun h => (Return tt, with_event h e).
Definition set_files (m : fs) : M unit := fun h => (Return tt, with_files h m).

(** [try: body except <those of handler>: handler]; [sys.exit] is not
    an [Exception] and passes through. *)
Definition try_except {A} (body : M A) (handler : exn -> option (M A)) : M A :=
  fun h =>
    match body h with
    | (Raise e, h') =>
        match handler e with
        | Some k => k h'
        | None => (Raise e, h')
        end
    | r => r
    end.

(** A system call that may fail with an [OSError]. *)
Definition syscall {A} (r : res A) : M A :=
  match r with
  | Ok a => ret a
  | Err e => raise (OSError e)
  end.

End Run.

Notation "x <- m ;; k" := (Run.bind m (fun x => k))
  (at level 61, m at next level, right associativity).
Notation "m ;;; k" := (Run.bind m (fun _ => k))
  (at level 61, right associativity).

(** ** [os.makedirs], [os.path.expanduser] and [os.path.abspath] on the host *)

Module os_py.

Import Py os Run.

(** [os.makedirs(name, exist_ok=exist_ok)]. The recursion is on the
    head of [name], which is shorter than [name]: [fuel] bounds its
    depth. *)
Fixpoint makedirs_rec (fuel : nat) (name : string) (exist_ok : bool) : M unit :=
  match fuel with
  | O => raise RecursionError
  | S fuel' =>
      let '(head, tail) := posixpath.split name in
      let '(head, tail) :=
        if truthy tail then (head, tail) else posixpath.split head in
      h <- get ;;
      done <-
        (if truthy head && truthy tail && negb (exists_ h head) then
           try_except (makedirs_rec fuel' head exist_ok)
             (fun e => match e with
                       | OSError EEXIST => Some (ret tt)
                       | _ => None
                       end) ;;;
           ret (String.eqb tail ".")
         else ret false) ;;
      if done : bool then ret tt
      else
        h <- get ;;
        match mkdir h name with
        | Ok m => set_files m
        | Err e =>
            if negb exist_ok || negb (isdir h name) then raise (OSError e)
            else ret tt
        end
  end.

Definition makedirs (name : string) (exist_ok : bool) : M unit :=
  makedirs_rec (S (String.length name)) name exist_ok.

(** [os.path.expanduser(path)] *)
Definition expanduser (h : host) (path : string) : string :=
  if negb (startswith path "~") then path
  else
    let '(user, rest) := cut_first path in
    let userhome :=
      if String.eqb user "~" then
        match assoc "HOME" (environ h) with
        | Some home => Some home
        | None => pw_self h
        end
      else
        match user with
        | String _ name => assoc name (pw_dirs h)
        | EmptyString => None
        end in
    match userhome with
    | None => path
    | Some home =>
        let r := rstrip_slash home ++ rest in
        if truthy r then r else "/"
    end.

(** [os.path.abspath(p)] *)
Definition abspath (h : host) (p : string) : string :=
  posixpath.abspath (cwd h) p.

Definition pad (width : nat) (n : Z) : string :=
  let s := str_int n in
  String.concat "" (repeat "0" (width - String.length s)) ++ s.

(** [d.strftime('%Y-%m-%d_%H-%M-%S')] *)
Definition strftime_stamp (d : datetime) : string :=
  pad 4 (year d) ++ "-" ++ pad 2 (month d) ++ "-" ++ pad 2 (day d) ++ "_" ++
  pad 2 (hour d) ++ "-" ++ pad 2 (minute d) ++ "-" ++ pad 2 (second d).

End os_py.

Notation "' pat <- m ;; k" :=
  (Run.bind m (fun x => match x with pat => k end))
  (at level 61, pat pattern, m at next level, right associativity).

(** ** The container client ([spython.main.Client]) *)

Module Client.

Import os Run.

(** [Client.load(image)] *)
Definition load (image : string) : M unit :=
  emit (EvLoad image) ;;;
  h <- get ;;
  if image_loads h image then ret tt
  else raise (Exception "load").

(** [for line in Client.execute(image, command, nv=nv, options=options,
    stream=True): print(line, end='')]: the container runs, writing to
    the host through its binds, and its lines are printed. *)
Definition execute_and_print (image : string) (command : list string)
           (nv : bool) (options : list string) : M unit :=
  emit (EvExecute image command options nv) ;;;
  h <- get ;;
  set_files (container_writes h (files h)) ;;;
  (fix each (lines : list string) : M unit :=
     match lines with
     | [] => ret tt
     | l :: r => emit (EvPrint l) ;;; each r
     end) (container_lines h) ;;;
  if container_fails h then raise (Exception "execute") else ret tt.

End Client.

(** [l.append(x)] *)
Definition append {A} (l : list A) (x : A) : list A := (l ++ [x])%list.

(** [",".join(binds)] *)
Definition join_comma (l : list string) : string := String.concat "," l.

(** [absl.app.run(main)] after the flags are parsed: [required] tells
    whether the flags marked as required are all given (the parser ends
    the process with status 1 otherwise); a [UsageError] of [main] ends
    it with status 1 too. *)
Definition app_run (required : bool) (main : Run.M unit) : Run.M unit :=
  if required then
    Run.try_except main
      (fun e => match e with
                | Run.UsageError _ => Some (Run.sys_exit 1)
                | _ => None
                end)
  else Run.sys_exit 1.

(** The status the process ends with. *)
Definition exit_status {A} (o : Run.outcome A) : Z :=
  match o with
  | Run.Return _ => 0
  | Run.Exit c => c
  | Run.Raise _ => 1
  end.

(** The launcher when the import of [spython] fails. *)
Definition import_spython : Run.M unit :=
  h <- Run.get ;;
  if os.spython h then Run.ret tt
  else
    Run.emit (os.EvPrint
      "Error: spython library not found. Please install it: pip install spython") ;;;
    Run.sys_exit 1.

(** ** Reading an argument list *)

(** How often the token [t] occurs in [l]. *)
Definition count_tok (t : string) (l : list string) : nat :=
  length (filter (String.eqb t) l).

(** Whether [l] holds a token [--name=...]. *)
Definition emits (name : string) (l : list string) : bool :=
  existsb (fun t => Py.startswith t ("--" ++ name ++ "=")) l.

(** A boolean flag that is always written, as one of two tokens. *)
Record toggle (F : Type) := {
  toggle_value : F -> bool;
  enabled_token : string;
  disabled_token : string
}.
Arguments toggle_value {F} t.
Arguments enabled_token {F} t.
Arguments disabled_token {F} t.

(** A boolean flag that is written, as one token, only when it is not at
    [switch_default]. *)
Record switch (F : Type) := {
  switch_value : F -> bool;
  switch_default : bool;
  switch_token : string
}.
Arguments switch_value {F} s.
Arguments switch_default {F} s.
Arguments switch_token {F} s.

(** The value of a scalar flag. *)
Inductive value :=
| VNone
| VInt (n : Z)
| VFloat (x : float)
| VStr (s : string).

(** A scalar flag of a launcher: its name on the command line of the
    tool, its value, and the condition under which the launcher looks at
    it at all. *)
Record scalar (F : Type) := {
  scalar_name : string;
  scalar_value : F -> value;
  scalar_gate : F -> bool
}.
Arguments scalar_name {F} s.
Arguments scalar_value {F} s.
Arguments scalar_gate {F} s.

(** ** [boltz/run_boltz_launcher.py] *)

Module Boltz.

Import Py os Run.

Inductive accelerator_t := gpu | cpu | tpu.
Inductive output_format_t := pdb | mmcif.
Inductive pairing_t := greedy | complete.

Definition str_accelerator (a : accelerator_t) : string :=
  match a with gpu => "gpu" | cpu => "cpu" | tpu => "tpu" end.
Definition str_output_format (f : output_format_t) : string :=
  match f with pdb => "pdb" | mmcif => "mmcif" end.
Definition str_pairing (p : pairing_t) : string :=
  match p with greedy => "greedy" | complete => "complete" end.

Record flags := {
  sif_path : option string;
  input_data : option string;
  out_dir : string;
  boltz_cache_dir : string;
  checkpoint : option string;
  use_gpu : bool;
  gpu_devices : string;
  devices : Z;
  accelerator : accelerator_t;
  recycling_steps : Z;
  sampling_steps : Z;
  diffusion_samples : Z;
  step_scale : float;
  write_full_pae : bool;
  write_full_pde : bool;
  output_format : output_format_t;
  num_workers : Z;
  override : bool;
  seed : option Z;
  use_msa_server : bool;
  msa_server_url : string;
  msa_pairing_strategy : pairing_t;
  enable_potentials : bool
}.

(** The module-level configuration. *)
Definition _BOLTZ_SIF_PATH (h : host) : string :=
  match assoc "BOLTZ_SIF" (environ h) with
  | Some p => p
  | None => "/path/to/your/boltz.sif"
  end.

Definition _BOLTZ_CACHE_DEFAULT (h : host) : string :=
  match assoc "BOLTZ_CACHE" (environ h) with
  | Some p => p
  | None => os_py.expanduser h "~/.boltz"
  end.

Definition tmp_dir_host (h : host) : string :=
  match assoc "TMP" (environ h) with
  | Some p => p
  | None => match assoc "TMPDIR" (environ h) with
            | Some p => p
            | None => "/tmp"
            end
  end.

Definition output_dir_default (h : host) : string :=
  posixpath.join (cwd h) "boltz_output".

Definition _ROOT_MOUNT_DIRECTORY : string := "/mnt_launcher/".

(** The mounts whose host directory the launcher makes. *)
Definition makes_dir (mount_point_name : string) : bool :=
  startswith mount_point_name "output" || String.eqb mount_point_name "tmp"
  || String.eqb mount_point_name "boltz_cache".

Definition _create_bind (mount_point_name host_path : string)
           (is_dir read_only : bool) : M (string * string) :=
  emit (EvCreateBind mount_point_name host_path is_dir) ;;;
  h <- get ;;
  let host_path := os_py.abspath h (os_py.expanduser h host_path) in
  let target_base := posixpath.join _ROOT_MOUNT_DIRECTORY mount_point_name in
  let '(source_path, target_path_container) :=
    if is_dir then (host_path, target_base)
    else (posixpath.dirname host_path,
          posixpath.join target_base (posixpath.basename host_path)) in
  (if makes_dir mount_point_name then os_py.makedirs host_path true
   else
     h <- get ;;
     if negb (exists_ h source_path) then
       emit (EvLogError ("Host path for binding does not exist: " ++ source_path
                         ++ " (for mount " ++ mount_point_name ++ ")")) ;;;
       sys_exit 1
     else ret tt) ;;;
  let actual_bind_target := target_base in
  let bind_spec := source_path ++ ":" ++ actual_bind_target in
  let bind_spec := if read_only then bind_spec ++ ":ro" else bind_spec in
  ret (bind_spec, target_path_container).

Section Assembly.

(** [str(x)] for a [float], as the f-string prints it. *)
Variable str_float : float -> string.

(** A flag written [--name=value] when [emit] holds. *)
Definition opt (emit : bool) (name value : string) : list string :=
  if emit then ["--" ++ name ++ "=" ++ value] else [].

(** The tokens that depend on the flags alone, in the order [main]
    appends them. *)
Definition flag_args (F : flags) : list string :=
  ([if write_full_pae F then "--write_full_pae" else "--no-write-full-pae"]
   ++ [if write_full_pde F then "--write_full_pde" else "--no-write-full-pde"]
   ++ [if override F then "--override" else "--no-override"]
   ++ [if use_msa_server F then "--use_msa_server" else "--no-use-msa-server"]
   ++ [if enable_potentials F then "--potentials" else "--no_potentials"]
   ++ opt (negb (devices F =? 1)%Z) "devices" (str_int (devices F))
   ++ opt (match accelerator F with gpu => false | _ => true end)
          "accelerator" (str_accelerator (accelerator F))
   ++ opt (negb (recycling_steps F =? 3)%Z) "recycling_steps"
          (str_int (recycling_steps F))
   ++ opt (negb (sampling_steps F =? 200)%Z) "sampling_steps"
          (str_int (sampling_steps F))
   ++ opt (negb (diffusion_samples F =? 1)%Z) "diffusion_samples"
          (str_int (diffusion_samples F))
   ++ opt (PrimFloat.ltb 1e-6 (PrimFloat.abs (PrimFloat.sub (step_scale F) 1.638)))
          "step_scale" (str_float (step_scale F))
   ++ opt (match output_format F with mmcif => false | _ => true end)
          "output_format" (str_output_format (output_format F))
   ++ opt (negb (num_workers F =? 2)%Z) "num_workers" (str_int (num_workers F))
   ++ match seed F with
      | Some s => opt true "seed" (str_int s)
      | None => []
      end
   ++ (if use_msa_server F then
         opt (negb (String.eqb (msa_server_url F) "https://api.colabfold.com"))
             "msa_server_url" (msa_server_url F)
         ++ opt (match msa_pairing_strategy F with greedy => false | _ => true end)
                "msa_pairing_strategy" (str_pairing (msa_pairing_strategy F))
       else []))%list.

Definition main (F : flags) (argv : list string) : M unit :=
  if (1 <? length argv)%nat then
    raise (UsageError "Too many command-line arguments.")
  else
    h <- get ;;
    let sif_path :=
      match sif_path F with
      | Some p => if truthy p then p else _BOLTZ_SIF_PATH h
      | None => _BOLTZ_SIF_PATH h
      end in
    (if negb (exists_ h sif_path) then
       emit (EvPrint ("Error: Singularity image not found at '" ++ sif_path ++ "'.")) ;;;
       emit (EvPrint "Please set BOLTZ_SIF, update _BOLTZ_SIF_PATH, or use --sif_path.") ;;;
       sys_exit 1
     else ret tt) ;;;
    try_except (Client.load sif_path)
      (fun e =>
         Some (emit (EvPrint ("Error loading Singularity image '" ++ sif_path ++ "'")) ;;;
               sys_exit 1)) ;;;
    match input_data F with
    | None => raise (UsageError "Missing required argument: --input_data")
    | Some input =>
    if negb (truthy input) then
      raise (UsageError "Missing required argument: --input_data")
    else
    (* Input data: a file or a directory. *)
    h <- get ;;
    let is_input_data_dir := isdir h input in
    '(bind_spec, container_input_data) <-
      _create_bind "input_data" input is_input_data_dir true ;;
    let binds := [bind_spec] in
    let boltz_args : list string := [] in
    (* Output directory. *)
    let actual_output_dir := out_dir F in
    os_py.makedirs actual_output_dir true ;;;
    '(bind_spec, container_output_dir) <-
      _create_bind "output" actual_output_dir true false ;;
    let binds := append binds bind_spec in
    let boltz_args := append boltz_args ("--out_dir=" ++ container_output_dir) in
    (* Cache directory. *)
    let actual_boltz_cache_dir := boltz_cache_dir F in
    os_py.makedirs actual_boltz_cache_dir true ;;;
    '(bind_spec, container_boltz_cache) <-
      _create_bind "boltz_cache" actual_boltz_cache_dir true false ;;
    let binds := append binds bind_spec in
    let boltz_args := append boltz_args ("--cache=" ++ container_boltz_cache) in
    (* Checkpoint file. *)
    '(binds, boltz_args) <-
      (if truthy_opt (checkpoint F) then
         let ckpt := match checkpoint F with Some c => c | None => "" end in
         h <- get ;;
         if negb (isfile h ckpt) then
           emit (EvLogError ("Checkpoint file not found: " ++ ckpt)) ;;;
           sys_exit 1
         else
           '(bind_spec, container_checkpoint) <-
             _create_bind "checkpoint_file" ckpt false true ;;
           ret (append binds bind_spec,
                append boltz_args ("--checkpoint=" ++ container_checkpoint))
       else ret (binds, boltz_args)) ;;
    (* Temporary directory. *)
    h <- get ;;
    '(bind_spec, container_tmp_dir) <-
      _create_bind "tmp" (tmp_dir_host h) true false ;;
    let binds := append binds bind_spec in
    let boltz_exec_command := ["boltz"; "predict"; container_input_data] in
    let boltz_args := (boltz_args ++ flag_args F)%list in
    let full_boltz_command := (boltz_exec_command ++ boltz_args)%list in
    let singularity_options :=
      ["--bind"; join_comma binds;
       "--env"; "NVIDIA_VISIBLE_DEVICES=" ++ gpu_devices F;
       "--env"; "BOLTZ_CACHE=" ++ container_boltz_cache] in
    let singularity_options :=
      if truthy container_tmp_dir then
        (singularity_options ++ ["--env"; ("TMPDIR=" ++ container_tmp_dir)%string])%list
      else singularity_options in
    try_except
      (Client.execute_and_print sif_path full_boltz_command (use_gpu F)
                                singularity_options)
      (fun e =>
         Some (emit (EvLogError "Error executing Singularity command") ;;;
               sys_exit 1))
    end.

(** The script: the import of [spython], then [app.run(main)] with
    [input_data] marked as required. *)
Definition launcher (F : flags) (argv : list string) : M unit :=
  import_spython ;;;
  app_run (match input_data F with Some _ => true | None => false end)
          (main F argv).

End Assembly.

(** The flags as [flags.DEFINE_*] declares them. *)
Definition default_flags (h : host) : flags :=
  {| sif_path := None; input_data := None;
     out_dir := output_dir_default h;
     boltz_cache_dir := _BOLTZ_CACHE_DEFAULT h;
     checkpoint := None; use_gpu := true; gpu_devices := "all";
     devices := 1; accelerator := gpu; recycling_steps := 3;
     sampling_steps := 200; diffusion_samples := 1; step_scale := 1.638;
     write_full_pae := false; write_full_pde := false;
     output_format := mmcif; num_workers := 2; override := false;
     seed := None; use_msa_server := false;
     msa_server_url := "https://api.colabfold.com";
     msa_pairing_strategy := greedy; enable_potentials := true |}.

(** The boolean flags of the command and their two tokens. *)
Definition toggles : list (toggle flags) :=
  [ {| toggle_value := write_full_pae;
       enabled_token := "--write_full_pae"; disabled_token := "--no-write-full-pae" |};
    {| toggle_value := write_full_pde;
       enabled_token := "--write_full_pde"; disabled_token := "--no-write-full-pde" |};
    {| toggle_value := override;
       enabled_token := "--override"; disabled_token := "--no-override" |};
    {| toggle_value := use_msa_server;
       enabled_token := "--use_msa_server"; disabled_token := "--no-use-msa-server" |};
    {| toggle_value := enable_potentials;
       enabled_token := "--potentials"; disabled_token := "--no_potentials" |} ].

Definition always (F : flags) : bool := true.

(** The scalar flags of the command. *)
Definition scalars : list (scalar flags) :=
  [ {| scalar_name := "devices"; scalar_value := fun F => VInt (devices F);
       scalar_gate := always |};
    {| scalar_name := "accelerator";
       scalar_value := fun F => VStr (str_accelerator (accelerator F));
       scalar_gate := always |};
    {| scalar_name := "recycling_steps";
       scalar_value := fun F => VInt (recycling_steps F); scalar_gate := always |};
    {| scalar_name := "sampling_steps";
       scalar_value := fun F => VInt (sampling_steps F); scalar_gate := always |};
    {| scalar_name := "diffusion_samples";
       scalar_value := fun F => VInt (diffusion_samples F); scalar_gate := always |};
    {| scalar_name := "step_scale";
       scalar_value := fun F => VFloat (step_scale F); scalar_gate := always |};
    {| scalar_name := "output_format";
       scalar_value := fun F => VStr (str_output_format (output_format F));
       scalar_gate := always |};
    {| scalar_name := "num_workers";
       scalar_value := fun F => VInt (num_workers F); scalar_gate := always |};
    {| scalar_name := "seed";
       scalar_value := fun F => match seed F with Some s => VInt s | None => VNone end;
       scalar_gate := always |};
    {| scalar_name := "msa_server_url";
       scalar_value := fun F => VStr (msa_server_url F);
       scalar_gate := use_msa_server |};
    {| scalar_name := "msa_pairing_strategy";
       scalar_value := fun F => VStr (str_pairing (msa_pairing_strategy F));
       scalar_gate := use_msa_server |} ].

End Boltz.

(** ** [chai_1/run_chailab_launcher.py] *)

Module Chai.

Import Py os Run.

Record flags := {
  sif_path : option string;
  fasta_file : option string;
  output_dir : string;
  force_output_dir : bool;
  use_gpu : bool;
  gpu_devices : string;
  use_esm_embeddings : bool;
  use_msa_server : bool;
  msa_server_url : string;
  msa_directory : option string;
  constraint_path : option string;
  use_templates_server : bool;
  template_hits_path : option string;
  recycle_msa_subsample : Z;
  num_trunk_recycles : Z;
  num_diffn_timesteps : Z;
  num_diffn_samples : Z;
  num_trunk_samples : Z;
  seed : option Z;
  device : option string;
  low_memory : bool
}.

Definition _CHAI_SIF_PATH (h : host) : string :=
  match assoc "CHAI_SIF" (environ h) with
  | Some p => p
  | None => "/path/to/your/chai_lab.sif"
  end.

Definition tmp_dir (h : host) : string :=
  match assoc "TMP" (environ h) with
  | Some p => p
  | None => match assoc "TMPDIR" (environ h) with
            | Some p => p
            | None => "/tmp"
            end
  end.

Definition output_dir_default (h : host) : string :=
  posixpath.join (cwd h) "chailab_output".

Definition _ROOT_MOUNT_DIRECTORY : string := "/mnt/".

Definition makes_dir (mount_point_name : string) : bool :=
  startswith mount_point_name "output" || String.eqb mount_point_name "tmp".

Definition _create_bind (mount_point_name host_path : string) (is_dir : bool)
  : M (string * string) :=
  emit (EvCreateBind mount_point_name host_path is_dir) ;;;
  h <- get ;;
  let host_path := os_py.abspath h host_path in
  let target_base := posixpath.join _ROOT_MOUNT_DIRECTORY mount_point_name in
  let '(source_path, target_path, container_path) :=
    if is_dir then (host_path, target_base, target_base)
    else (posixpath.dirname host_path, target_base,
          posixpath.join target_base (posixpath.basename host_path)) in
  (if makes_dir mount_point_name then os_py.makedirs source_path true
   else
     h <- get ;;
     if negb (exists_ h source_path) then
       emit (EvLogError ("Host path for binding does not exist: " ++ source_path
                         ++ " (for mount " ++ mount_point_name ++ ")")) ;;;
       sys_exit 1
     else ret tt) ;;;
  let bind_spec := source_path ++ ":" ++ target_path in
  ret (bind_spec, container_path).

Definition opt (emit : bool) (name value : string) : list string :=
  if emit then ["--" ++ name ++ "=" ++ value] else [].

(** A token written as it stands when [emit] holds. *)
Definition tok (emit : bool) (token : string) : list string :=
  if emit then [token] else [].

(** The output directory of the run. *)
Definition choose_output_dir (F : flags) : M string :=
  let actual_output_dir := output_dir F in
  h <- get ;;
  nonempty <-
    (if exists_ h actual_output_dir then
       names <- syscall (listdir h actual_output_dir) ;;
       ret (match names with [] => false | _ => true end)
     else ret false) ;;
  if (nonempty : bool) && negb (force_output_dir F) then
    let timestamp := os_py.strftime_stamp (now h) in
    let actual_output_dir' :=
      posixpath.join actual_output_dir ("run_" ++ timestamp) in
    emit (EvLogWarning ("Output directory " ++ output_dir F
                        ++ " is not empty. Using timestamped subdirectory: "
                        ++ actual_output_dir')) ;;;
    ret actual_output_dir'
  else ret actual_output_dir.

(** The tokens that depend on the flags alone, in the order [main]
    appends them. *)
Definition flag_args (F : flags) : list string :=
  (tok (negb (use_esm_embeddings F)) "--use-esm-embeddings=false"
   ++ tok (use_msa_server F) "--use-msa-server"
   ++ tok (use_templates_server F) "--use-templates-server"
   ++ tok (negb (low_memory F)) "--low-memory=false"
   ++ opt (negb (String.eqb (msa_server_url F) "https://api.colabfold.com"))
          "msa-server-url" (msa_server_url F)
   ++ opt (negb (recycle_msa_subsample F =? 0)%Z) "recycle-msa-subsample"
          (str_int (recycle_msa_subsample F))
   ++ opt (negb (num_trunk_recycles F =? 3)%Z) "num-trunk-recycles"
          (str_int (num_trunk_recycles F))
   ++ opt (negb (num_diffn_timesteps F =? 200)%Z) "num-diffn-timesteps"
          (str_int (num_diffn_timesteps F))
   ++ opt (negb (num_diffn_samples F =? 5)%Z) "num-diffn-samples"
          (str_int (num_diffn_samples F))
   ++ opt (negb (num_trunk_samples F =? 1)%Z) "num-trunk-samples"
          (str_int (num_trunk_samples F))
   ++ match seed F with
      | Some s => opt true "seed" (str_int s)
      | None => []
      end
   ++ match device F with
      | Some d => opt (truthy d) "device" d
      | None => []
      end)%list.

(** An optional path flag: bound under [mount] and passed as
    [--name=<container path>] when it is given. *)
Definition bind_optional (path : option string) (mount name : string)
           (is_dir : bool) (acc : list string * list string)
  : M (list string * list string) :=
  let '(binds, chai_command_args) := acc in
  match path with
  | Some p =>
      if truthy p then
        '(bind_spec, container_path) <- _create_bind mount p is_dir ;;
        ret (append binds bind_spec,
             append chai_command_args ("--" ++ name ++ "=" ++ container_path))
      else ret acc
  | None => ret acc
  end.

Definition main (F : flags) (argv : list string) : M unit :=
  if (1 <? length argv)%nat then
    raise (UsageError "Too many command-line arguments.")
  else
    h <- get ;;
    let sif_path :=
      match sif_path F with
      | Some p => if truthy p then p else _CHAI_SIF_PATH h
      | None => _CHAI_SIF_PATH h
      end in
    (if negb (exists_ h sif_path) then
       emit (EvPrint ("Error: Singularity image not found at '" ++ sif_path ++ "'.")) ;;;
       emit (EvPrint "Please set the CHAI_SIF environment variable, update the _CHAI_SIF_PATH in this script, or use the --sif_path flag.") ;;;
       sys_exit 1
     else ret tt) ;;;
    try_except (Client.load sif_path)
      (fun e =>
         Some (emit (EvPrint ("Error loading Singularity image '" ++ sif_path ++ "'")) ;;;
               sys_exit 1)) ;;;
    if negb (truthy_opt (fasta_file F)) then
      raise (UsageError "Missing required argument: --fasta_file")
    else if negb (truthy (output_dir F)) then
      raise (UsageError "Missing required argument: --output_dir")
    else
      let fasta := match fasta_file F with Some f => f | None => "" end in
      '(bind_spec, container_fasta_file) <- _create_bind "fasta" fasta false ;;
      let binds := [bind_spec] in
      let chai_command_args : list string := [] in
      actual_output_dir <- choose_output_dir F ;;
      os_py.makedirs actual_output_dir true ;;;
      '(bind_spec, container_output_dir) <-
        _create_bind "output" actual_output_dir true ;;
      let binds := append binds bind_spec in
      acc <- bind_optional (msa_directory F) "msa_dir" "msa-directory" true
               (binds, chai_command_args) ;;
      acc <- bind_optional (constraint_path F) "constraints" "constraint-path"
               false acc ;;
      '(binds, chai_command_args) <-
        bind_optional (template_hits_path F) "template_hits" "template-hits-path"
                      false acc ;;
      h <- get ;;
      '(bind_spec, container_tmp_dir) <- _create_bind "tmp" (tmp_dir h) true ;;
      let binds := append binds bind_spec in
      let chai_exec_command :=
        ["chai-lab"; "fold"; container_fasta_file; container_output_dir] in
      let chai_command_args := (chai_command_args ++ flag_args F)%list in
      let full_chai_command := (chai_exec_command ++ chai_command_args)%list in
      let singularity_options :=
        ["--bind"; join_comma binds;
         "--env"; "NVIDIA_VISIBLE_DEVICES=" ++ gpu_devices F] in
      let singularity_options :=
        if truthy container_tmp_dir then
          (singularity_options ++ ["--env"; ("TMPDIR=" ++ container_tmp_dir)%string])%list
        else singularity_options in
      try_except
        (Client.execute_and_print sif_path full_chai_command (use_gpu F)
                                  singularity_options)
        (fun e =>
           Some (emit (EvLogError "Error executing Singularity command") ;;;
                 sys_exit 1)).

Definition launcher (F : flags) (argv : list string) : M unit :=
  import_spython ;;;
  app_run (match fasta_file F with Some _ => true | None => false end)
          (main F argv).

(** The flags as [flags.DEFINE_*] declares them. *)
Definition default_flags (h : host) : flags :=
  {| sif_path := None; fasta_file := None;
     output_dir := output_dir_default h; force_output_dir := false;
     use_gpu := true; gpu_devices := "all";
     use_esm_embeddings := true; use_msa_server := false;
     msa_server_url := "https://api.colabfold.com";
     msa_directory := None; constraint_path := None;
     use_templates_server := false; template_hits_path := None;
     recycle_msa_subsample := 0; num_trunk_recycles := 3;
     num_diffn_timesteps := 200; num_diffn_samples := 5;
     num_trunk_samples := 1; seed := None; device := None;
     low_memory := true |}.

(** The boolean flags of the command, each with its one token. *)
Definition switches : list (switch flags) :=
  [ {| switch_value := use_esm_embeddings; switch_default := true;
       switch_token := "--use-esm-embeddings=false" |};
    {| switch_value := use_msa_server; switch_default := false;
       switch_token := "--use-msa-server" |};
    {| switch_value := use_templates_server; switch_default := false;
       switch_token := "--use-templates-server" |};
    {| switch_value := low_memory; switch_default := true;
       switch_token := "--low-memory=false" |} ].

Definition always (F : flags) : bool := true.

(** The scalar flags of the command. *)
Definition scalars : list (scalar flags) :=
  [ {| scalar_name := "msa-server-url";
       scalar_value := fun F => VStr (msa_server_url F); scalar_gate := always |};
    {| scalar_name := "recycle-msa-subsample";
       scalar_value := fun F => VInt (recycle_msa_subsample F);
       scalar_gate := always |};
    {| scalar_name := "num-trunk-recycles";
       scalar_value := fun F => VInt (num_trunk_recycles F); scalar_gate := always |};
    {| scalar_name := "num-diffn-timesteps";
       scalar_value := fun F => VInt (num_diffn_timesteps F); scalar_gate := always |};
    {| scalar_name := "num-diffn-samples";
       scalar_value := fun F => VInt (num_diffn_samples F); scalar_gate := always |};
    {| scalar_name := "num-trunk-samples";
       scalar_value := fun F => VInt (num_trunk_samples F); scalar_gate := always |};
    {| scalar_name := "seed";
       scalar_value := fun F => match seed F with Some s => VInt s | None => VNone end;
       scalar_gate := always |};
    {| scalar_name := "device";
       scalar_value := fun F => match device F with Some d => VStr d | None => VNone end;
       scalar_gate := fun F => truthy_opt (device F) |} ].

End Chai.

(** ** [run_alphafold3_launcher.py] *)

Module AlphaFold3.

Import Py os Run.

Inductive flash_attention_t := triton | cudnn | xla.

Definition str_flash_attention (f : flash_attention_t) : string :=
  match f with triton => "triton" | cudnn => "cudnn" | xla => "xla" end.

Record flags := {
  json_path : option string;
  input_dir : option string;
  output_dir : string;
  force_output_dir : bool;
  model_dir : option string;
  db_dir : option (list string);
  use_gpu : bool;
  gpu_devices : string;
  run_data_pipeline : bool;
  run_inference : bool;
  jackhmmer_n_cpu : Z;
  nhmmer_n_cpu : Z;
  max_template_date : string;
  conformer_max_iterations : Z;
  num_recycles : Z;
  num_diffusion_samples : Z;
  num_seeds : option Z;
  flash_attention_implementation : flash_attention_t;
  save_embeddings : bool
}.

Definition _ALPHAFOLD3_SIF_PATH (h : host) : string :=
  match assoc "ALPHAFOLD3_SIF" (environ h) with
  | Some p => p
  | None => "/path/to/your/alphafold3.sif"
  end.

Definition tmp_dir (h : host) : string :=
  match assoc "TMP" (environ h) with
  | Some p => p
  | None => match assoc "TMPDIR" (environ h) with
            | Some p => p
            | None => "/tmp"
            end
  end.

Definition output_dir_default (h : host) : string :=
  posixpath.join (cwd h) "alphafold3_output".

Definition _ROOT_MOUNT_DIRECTORY : string := "/mnt/".

Definition makes_dir (mount_point_name : string) : bool :=
  startswith mount_point_name "output" || String.eqb mount_point_name "tmp".

Definition _create_bind (mount_point_name host_path : string) (is_dir : bool)
  : M (string * string) :=
  emit (EvCreateBind mount_point_name host_path is_dir) ;;;
  h <- get ;;
  let host_path := os_py.abspath h host_path in
  let target_base := posixpath.join _ROOT_MOUNT_DIRECTORY mount_point_name in
  let '(source_path, target_path, container_path) :=
    if is_dir then (host_path, target_base, target_base)
    else (posixpath.dirname host_path, target_base,
          posixpath.join target_base (posixpath.basename host_path)) in
  (if makes_dir mount_point_name then os_py.makedirs source_path true
   else ret tt) ;;;
  let bind_spec := source_path ++ ":" ++ target_path in
  ret (bind_spec, container_path).

(** The tokens that depend on the flags alone, in the order [main]
    appends them. *)
Definition flag_args (F : flags) : list string :=
  (["--run_data_pipeline=" ++ str_bool_lower (run_data_pipeline F);
    "--run_inference=" ++ str_bool_lower (run_inference F);
    "--conformer_max_iterations=" ++ str_int (conformer_max_iterations F);
    "--jackhmmer_n_cpu=" ++ str_int (jackhmmer_n_cpu F);
    "--nhmmer_n_cpu=" ++ str_int (nhmmer_n_cpu F);
    "--max_template_date=" ++ max_template_date F;
    "--num_recycles=" ++ str_int (num_recycles F);
    "--num_diffusion_samples=" ++ str_int (num_diffusion_samples F);
    "--flash_attention_implementation="
      ++ str_flash_attention (flash_attention_implementation F);
    "--save_embeddings=" ++ str_bool_lower (save_embeddings F);
    "--force_output_dir=" ++ str_bool_lower (force_output_dir F);
    "--logtostderr"]%string
   ++ match num_seeds F with
      | Some n => [("--num_seeds=" ++ str_int n)%string]
      | None => []
      end)%list.

(** [for i, db_path in enumerate(FLAGS.db_dir): ...] from index [i]. *)
Fixpoint bind_db_dirs (i : nat) (dbs : list string)
         (acc : list string * list string) : M (list string * list string) :=
  match dbs with
  | [] => ret acc
  | db_path :: rest =>
      let '(binds, command_args) := acc in
      '(bind_spec, container_db_path) <-
        _create_bind ("db_" ++ str_int (Z.of_nat i)) db_path true ;;
      bind_db_dirs (S i) rest
        (append binds bind_spec,
         append command_args ("--db_dir=" ++ container_db_path))
  end.

Definition main (F : flags) (argv : list string) : M unit :=
  if (1 <? length argv)%nat then
    raise (UsageError "Too many command-line arguments.")
  else if negb (truthy_opt (json_path F)) && negb (truthy_opt (input_dir F)) then
    raise (UsageError "Either --json_path or --input_dir must be specified.")
  else
    (if truthy_opt (json_path F) && truthy_opt (input_dir F) then
       emit (EvLogWarning "--input_dir specified, ignoring --json_path.")
     else ret tt) ;;;
    if negb (truthy_opt (model_dir F)) then
      raise (UsageError "--model_dir must be specified.")
    else
    match db_dir F with
    | None | Some [] =>
        raise (UsageError "--db_dir must be specified (can be provided multiple times).")
    | Some dbs =>
      let binds : list string := [] in
      let command_args : list string := [] in
      '(binds, command_args) <-
        (if truthy_opt (input_dir F) then
           let d := match input_dir F with Some d => d | None => "" end in
           '(bind_spec, container_input_dir) <- _create_bind "input_dir" d true ;;
           ret (append binds bind_spec,
                append command_args ("--input_dir=" ++ container_input_dir))
         else if truthy_opt (json_path F) then
           let j := match json_path F with Some j => j | None => "" end in
           '(bind_spec, container_json_path) <- _create_bind "json_input" j false ;;
           ret (append binds bind_spec,
                append command_args ("--json_path=" ++ container_json_path))
         else ret (binds, command_args)) ;;
      '(bind_spec, container_output_dir) <- _create_bind "output" (output_dir F) true ;;
      let binds := append binds bind_spec in
      let command_args := append command_args ("--output_dir=" ++ container_output_dir) in
      let model := match model_dir F with Some m => m | None => "" end in
      '(bind_spec, container_model_dir) <- _create_bind "models" model true ;;
      let binds := append binds bind_spec in
      let command_args := append command_args ("--model_dir=" ++ container_model_dir) in
      '(binds, command_args) <- bind_db_dirs 0 dbs (binds, command_args) ;;
      h <- get ;;
      '(bind_spec, container_tmp_dir) <- _create_bind "tmp" (tmp_dir h) true ;;
      let binds := append binds bind_spec in
      let command_args := (command_args ++ flag_args F)%list in
      let run_script_path := "/app/run_alphafold.py" in
      let full_command := (["python"; run_script_path] ++ command_args)%list in
      let options :=
        ["--bind"; join_comma binds;
         "--env"; "NVIDIA_VISIBLE_DEVICES=" ++ gpu_devices F] in
      try_except
        (Client.execute_and_print (_ALPHAFOLD3_SIF_PATH h) full_command (use_gpu F)
                                  options)
        (fun e =>
           Some (emit (EvLogError "Error executing Singularity command") ;;;
                 try_except
                   (h <- get ;;
                    if String.eqb (output_dir F) (output_dir_default h)
                       && exists_ h (output_dir_default h) then
                      names <- syscall (listdir h (output_dir_default h)) ;;
                      match names with
                      | [] =>
                          m <- syscall (rmdir h (output_dir_default h)) ;;
                          set_files m
                      | _ => ret tt
                      end
                    else ret tt)
                   (fun e => match e with
                             | OSError _ =>
                                 Some (emit (EvLogWarning
                                         "Could not remove default output directory"))
                             | _ => None
                             end) ;;;
                 sys_exit 1))
    end.

(** The script: the module level (the import of [spython], the check
    and the load of the image), then [app.run(main)] with [model_dir]
    and [db_dir] marked as required. *)
Definition launcher (F : flags) (argv : list string) : M unit :=
  import_spython ;;;
  h <- get ;;
  let sif := _ALPHAFOLD3_SIF_PATH h in
  (if negb (exists_ h sif) then
     emit (EvPrint ("Error: Singularity image not found at '" ++ sif ++ "'.")) ;;;
     emit (EvPrint "Please set the ALPHAFOLD3_SIF environment variable or update the _ALPHAFOLD3_SIF_PATH in this script.") ;;;
     sys_exit 1
   else ret tt) ;;;
  try_except (Client.load sif)
    (fun e =>
       Some (emit (EvPrint ("Error loading Singularity image '" ++ sif ++ "'")) ;;;
             sys_exit 1)) ;;;
  app_run (match model_dir F, db_dir F with
           | Some _, Some _ => true
           | _, _ => false
           end)
          (main F argv).

(** The flags as [flags.DEFINE_*] declares them. *)
Definition default_flags (h : host) : flags :=
  {| json_path := None; input_dir := None;
     output_dir := output_dir_default h; force_output_dir := false;
     model_dir := None; db_dir := None; use_gpu := true; gpu_devices := "all";
     run_data_pipeline := true; run_inference := true;
     jackhmmer_n_cpu := Z.min (cpu_count h) 8;
     nhmmer_n_cpu := Z.min (cpu_count h) 8;
     max_template_date := "2021-09-30"; conformer_max_iterations := 10000;
     num_recycles := 10; num_diffusion_samples := 5; num_seeds := None;
     flash_attention_implementation := triton; save_embeddings := false |}.

(** The boolean flags of the command and their two tokens. *)
Definition toggles : list (toggle flags) :=
  [ {| toggle_value := run_data_pipeline;
       enabled_token := "--run_data_pipeline=true";
       disabled_token := "--run_data_pipeline=false" |};
    {| toggle_value := run_inference;
       enabled_token := "--run_inference=true";
       disabled_token := "--run_inference=false" |};
    {| toggle_value := save_embeddings;
       enabled_token := "--save_embeddings=true";
       disabled_token := "--save_embeddings=false" |};
    {| toggle_value := force_output_dir;
       enabled_token := "--force_output_dir=true";
       disabled_token := "--force_output_dir=false" |} ].

Definition always (F : flags) : bool := true.

(** The scalar flags of the command. *)
Definition scalars : list (scalar flags) :=
  [ {| scalar_name := "conformer_max_iterations";
       scalar_value := fun F => VInt (conformer_max_iterations F);
       scalar_gate := always |};
    {| scalar_name := "jackhmmer_n_cpu";
       scalar_value := fun F => VInt (jackhmmer_n_cpu F); scalar_gate := always |};
    {| scalar_name := "nhmmer_n_cpu";
       scalar_value := fun F => VInt (nhmmer_n_cpu F); scalar_gate := always |};
    {| scalar_name := "max_template_date";
       scalar_value := fun F => VStr (max_template_date F); scalar_gate := always |};
    {| scalar_name := "num_recycles";
       scalar_value := fun F => VInt (num_recycles F); scalar_gate := always |};
    {| scalar_name := "num_diffusion_samples";
       scalar_value := fun F => VInt (num_diffusion_samples F);
       scalar_gate := always |};
    {| scalar_name := "flash_attention_implementation";
       scalar_value :=
         fun F => VStr (str_flash_attention (flash_attention_implementation F));
       scalar_gate := always |} ].

End AlphaFold3.

(** ** The three launchers side by side *)

Inductive launcher_id := LBoltz | LChai | LAlphaFold3.

Section Launchers.

Import Py os Run.

(** [str(x)] for a [float]. *)
Variable str_float : float -> string.

Definition flags_of (L : launcher_id) : Type :=
  match L with
  | LBoltz => Boltz.flags
  | LChai => Chai.flags
  | LAlphaFold3 => AlphaFold3.flags
  end.

Definition launcher (L : launcher_id) : flags_of L -> list string -> M unit :=
  match L with
  | LBoltz => Boltz.launcher str_float
  | LChai => Chai.launcher
  | LAlphaFold3 => AlphaFold3.launcher
  end.

(** The bind-path resolver of each launcher; only that of Boltz takes
    [read_only]. *)
Definition create_bind (L : launcher_id) (mount_point_name host_path : string)
           (is_dir read_only : bool) : M (string * string) :=
  match L with
  | LBoltz => Boltz._create_bind mount_point_name host_path is_dir read_only
  | LChai => Chai._create_bind mount_point_name host_path is_dir
  | LAlphaFold3 => AlphaFold3._create_bind mount_point_name host_path is_dir
  end.

Definition root_mount (L : launcher_id) : string :=
  match L with
  | LBoltz => Boltz._ROOT_MOUNT_DIRECTORY
  | LChai => Chai._ROOT_MOUNT_DIRECTORY
  | LAlphaFold3 => AlphaFold3._ROOT_MOUNT_DIRECTORY
  end.

Definition makes_dir (L : launcher_id) : string -> bool :=
  match L with
  | LBoltz => Boltz.makes_dir
  | LChai => Chai.makes_dir
  | LAlphaFold3 => AlphaFold3.makes_dir
  end.

(** The image-path flag (AlphaFold 3 has none), the environment
    variable and the path written in the script. *)
Definition image_flag (L : launcher_id) : flags_of L -> option string :=
  match L with
  | LBoltz => Boltz.sif_path
  | LChai => Chai.sif_path
  | LAlphaFold3 => fun _ => None
  end.

Definition image_variable (L : launcher_id) : string :=
  match L with
  | LBoltz => "BOLTZ_SIF"
  | LChai => "CHAI_SIF"
  | LAlphaFold3 => "ALPHAFOLD3_SIF"
  end.

Definition image_fallback (L : launcher_id) : string :=
  match L with
  | LBoltz => "/path/to/your/boltz.sif"
  | LChai => "/path/to/your/chai_lab.sif"
  | LAlphaFold3 => "/path/to/your/alphafold3.sif"
  end.

Definition flag_args (L : launcher_id) : flags_of L -> list string :=
  match L with
  | LBoltz => Boltz.flag_args str_float
  | LChai => Chai.flag_args
  | LAlphaFold3 => AlphaFold3.flag_args
  end.

End Launchers.

(** What the trace says of bind resolution and of the container. *)
Definition is_create_bind (e : os.event) : bool :=
  match e with os.EvCreateBind _ _ _ => true | _ => false end.

Definition is_execute (e : os.event) : bool :=
  match e with os.EvExecute _ _ _ _ => true | _ => false end.

Definition bind_calls (h : os.host) : list os.event :=
  filter is_create_bind (os.trace h).

Definition executions (h : os.host) : list os.event :=
  filter is_execute (os.trace h).

(** ** The suppression rule of the specification

    "emits [--name=value] only when [value != flagDefaults[name]], using
    exact equality for integers/enums/strings and an epsilon-tolerant
    comparison (tolerance 1e-6) for floating-point defaults". *)

Module Spec.

(** Equal values of a flag: exact equality for integers, enums and
    strings; for floats, a difference of no more than 1e-6. *)
Definition same_value (v d : value) : bool :=
  match v, d with
  | VNone, VNone => true
  | VInt a, VInt b => (a =? b)%Z
  | VStr a, VStr b => String.eqb a b
  | VFloat a, VFloat b =>
      PrimFloat.leb (PrimFloat.abs (PrimFloat.sub a b)) 1e-6
  | _, _ => false
  end.

(** Whether the flag [s] differs in [F] from what it is in [D], the
    flags at their defaults. *)
Definition differs {F : Type} (s : scalar F) (D f : F) : bool :=
  negb (same_value (scalar_value s f) (scalar_value s D)).

(** Exactly one of the two tokens of a boolean flag, the one of its
    value. *)
Definition exactly_one (args : list string) (b : bool) (enabled disabled : string)
  : Prop :=
  count_tok enabled args = (if b then 1 else 0)%nat
  /\ count_tok disabled args = (if b then 0 else 1)%nat.

(** A value as it is written in a token. *)
Definition render (str_float : float -> string) (v : value) : string :=
  match v with
  | VNone => ""
  | VInt n => Py.str_int n
  | VFloat x => str_float x
  | VStr s => s
  end.

(** The token [--name=value] of the flag [s]. *)
Definition token (str_float : float -> string) {F : Type} (s : scalar F) (f : F)
  : string :=
  "--" ++ scalar_name s ++ "=" ++ render str_float (scalar_value s f).

(** The tokens of [l] that set the flag [name], in order. *)
Definition named (name : string) (l : list string) : list string :=
  filter (fun t => Py.startswith t ("--" ++ name ++ "=")) l.

(** The flag [s] is held back at its default: no token of [args] sets
    it, or one token does, [--name=value] with the value of the flag,
    and then the launcher looks at the flag and its value differs from
    the default. *)
Definition held_back (str_float : float -> string) {F : Type} (s : scalar F)
           (D f : F) (args : list string) : Prop :=
  named (scalar_name s) args = []
  \/ (named (scalar_name s) args = [token str_float s f]
      /\ scalar_gate s f = true /\ differs s D f = true).

(** The flag [s] is passed on: one token of [args] sets it, [--name=value]
    with the value of the flag. *)
Definition passed_on (str_float : float -> string) {F : Type} (s : scalar F)
           (f : F) (args : list string) : Prop :=
  named (scalar_name s) args = [token str_float s f].

End Spec.

(** ** What the bind-path resolver computes

    The local variables of [_create_bind], as functions of the host and
    of the arguments. *)

Section Resolver.

Import Py os Run.

(** [host_path] after the first line of [_create_bind]. *)
Definition host_path_of (L : launcher_id) (h : host) (host_path : string)
  : string :=
  match L with
  | LBoltz => os_py.abspath h (os_py.expanduser h host_path)
  | LChai | LAlphaFold3 => os_py.abspath h host_path
  end.

(** [source_path] *)
Definition bind_source (L : launcher_id) (h : host) (host_path : string)
           (is_dir : bool) : string :=
  if is_dir then host_path_of L h host_path
  else posixpath.dirname (host_path_of L h host_path).

(** [target_base] *)
Definition bind_target (L : launcher_id) (mount_point_name : string) : string :=
  posixpath.join (root_mount L) mount_point_name.

(** The container path returned. *)
Definition container_path (L : launcher_id) (h : host)
           (mount_point_name host_path : string) (is_dir : bool) : string :=
  if is_dir then bind_target L mount_point_name
  else posixpath.join (bind_target L mount_point_name)
                      (posixpath.basename (host_path_of L h host_path)).

(** The bind string returned. *)
Definition bind_spec (L : launcher_id) (h : host)
           (mount_point_name host_path : string) (is_dir read_only : bool)
  : string :=
  let spec := bind_source L h host_path is_dir ++ ":"
              ++ bind_target L mount_point_name in
  match L with
  | LBoltz => if read_only then spec ++ ":ro" else spec
  | LChai | LAlphaFold3 => spec
  end.

(** The directory made for the mounts of [makes_dir]. *)
Definition made_dir (L : launcher_id) (h : host) (host_path : string)
           (is_dir : bool) : string :=
  match L with
  | LBoltz => host_path_of L h host_path
  | LChai | LAlphaFold3 => bind_source L h host_path is_dir
  end.

(** Whether the resolver looks for the source of the other mounts. *)
Definition checks_source (L : launcher_id) : bool :=
  match L with
  | LBoltz | LChai => true
  | LAlphaFold3 => false
  end.

(** The suffix of the bind string: only the resolver of Boltz marks a
    bind as read-only. *)
Definition ro_suffix (L : launcher_id) (read_only : bool) : string :=
  match L with
  | LBoltz => if read_only then ":ro" else ""
  | LChai | LAlphaFold3 => ""
  end.

(** What the resolver logs before it gives up. *)
Definition missing_source_error (source_path mount_point_name : string) : event :=
  EvLogError ("Host path for binding does not exist: " ++ source_path
              ++ " (for mount " ++ mount_point_name ++ ")").

End Resolver.

(** ** Notions about paths used in the proofs *)

(** [k] separators. *)
Fixpoint slashes (k : nat) : string :=
  match k with O => "" | S k' => String Py.slash (slashes k') end.

Fixpoint noslash (s : string) : bool :=
  match s with
  | EmptyString => true
  | String c r => negb (Ascii.eqb c Py.slash) && noslash r
  end.

(** A path is plain when none of its components is a dot, or when it is
    the dot alone. *)
Definition plain (p : string) : Prop :=
  ~ In "." (Py.split_slash p) \/ p = ".".

(** The head and the tail [makedirs] works with. *)
Definition makedirs_cut (name : string) : string * string :=
  let '(head, tail) := posixpath.split name in
  if Py.truthy tail then (head, tail) else posixpath.split head.

(** The last step of [makedirs]. *)
Definition makedirs_last (name : string) (exist_ok : bool) : Run.M unit :=
  fun h =>
    match os.mkdir h name with
    | os.Ok m => (Run.Return tt, os.with_files h m)
    | os.Err e =>
        if negb exist_ok || negb (os.isdir h name)
        then (Run.Raise (Run.OSError e), h)
        else (Run.Return tt, h)
    end.

(** ** Parent directory and base name, as the specification speaks of them *)

Module SpecBind.

(** The path of the entry [name] of the directory [dir]. *)
Definition child (dir name : string) : string :=
  (if negb (Py.truthy dir) || Py.endswith_slash dir then dir else dir ++ "/")
  ++ name.

(** How a host path [hp] is mounted on [target]: [source] is what is
    bound and [inside] is where the path is found in the container. A
    directory is bound itself and found at the target. A file is the
    entry [base] of its parent directory, a name that is not empty and
    holds no separator: the parent is bound, written without a trailing
    separator unless it is a root, and the file is found as the entry
    [base] of the target. A root has no parent: it is bound itself. *)
Definition mounted_from (hp : string) (is_dir : bool)
           (source target inside : string) : Prop :=
  if is_dir then source = hp /\ inside = target
  else if Py.all_slashes hp then source = hp /\ inside = child target ""
  else exists base,
      Py.truthy base = true /\ noslash base = true
      /\ hp = child source base
      /\ (Py.endswith_slash source = true -> Py.all_slashes source = true)
      /\ inside = child target base.

End SpecBind.

(** ** Symbolic links, as the specification speaks of them

    "Normalizes hostPath to an absolute, symlink-expanded form": a path
    is symlink-expanded on a host when it is the canonical path of what
    it names, that is, when resolving it follows no link. *)

Module SpecLinks.

Import Py os.

(** The canonical path of what [p] names, as a string. *)
Definition realpath (h : host) (p : string) : option string :=
  match stat h p with
  | Ok (q, _) => Some ("/" ++ String.concat "/" q)
  | Err _ => None
  end.

(** [p] is absolute and symlink-expanded on [h]. *)
Definition symlink_expanded (h : host) (p : string) : bool :=
  match realpath h p with
  | Some q => String.eqb p q
  | None => false
  end.

End SpecLinks.

(** ** Sample hosts *)

Module Sample.

Import os.

Definition files0 : fs :=
  [ (["data"], KDir);
    (["data"; "protein.fasta"], KFile);
    (["data"; "fold_input.json"], KFile);
    (["models"], KDir);
    (["db"], KDir);
    (["tmp"], KDir);
    (["home"], KDir);
    (["home"; "user"], KDir);
    (["images"], KDir);
    (["images"; "tool.sif"], KFile);
    (["results"], KDir);
    (["results"; "old.cif"], KFile);
    (["empty"], KDir);
    (["link"], KLink "/data") ].

Definition clock0 : datetime :=
  {| year := 2025; month := 3; day := 7; hour := 9; minute := 5; second := 1 |}.

(** A host with the three images configured in the environment. *)
Definition host0 : host :=
  {| files := files0;
     cwd := "/home/user";
     environ := [("HOME", "/home/user");
                 ("BOLTZ_SIF", "/images/tool.sif");
                 ("CHAI_SIF", "/images/tool.sif");
                 ("ALPHAFOLD3_SIF", "/images/tool.sif")];
     pw_self := Some "/home/user";
     pw_dirs := [];
     now := clock0;
     cpu_count := 16;
     spython := true;
     image_loads := fun _ => true;
     container_lines := ["done"];
     container_fails := false;
     container_writes := fun m => m;
     trace := [] |}.

(** The same host with no image configured. *)
Definition bare : host :=
  {| files := files0;
     cwd := "/home/user";
     environ := [("HOME", "/home/user")];
     pw_self := Some "/home/user";
     pw_dirs := [];
     now := clock0;
     cpu_count := 16;
     spython := true;
     image_loads := fun _ => true;
     container_lines := ["done"];
     container_fails := false;
     container_writes := fun m => m;
     trace := [] |}.

(** The same host as [host0] with images that cannot be loaded, and a
    container that fails. *)
Definition unloadable : host :=
  {| files := files0;
     cwd := "/home/user";
     environ := [("HOME", "/home/user");
                 ("BOLTZ_SIF", "/images/tool.sif");
                 ("CHAI_SIF", "/images/tool.sif");
                 ("ALPHAFOLD3_SIF", "/images/tool.sif")];
     pw_self := Some "/home/user";
     pw_dirs := [];
     now := clock0;
     cpu_count := 16;
     spython := true;
     image_loads := fun _ => false;
     container_lines := [];
     container_fails := true;
     container_writes := fun m => m;
     trace := [] |}.

(** The same host as [host0] with a container that writes a prediction
    into [/out]. *)
Definition writing : host :=
  {| files := files0;
     cwd := "/home/user";
     environ := [("HOME", "/home/user");
                 ("BOLTZ_SIF", "/images/tool.sif");
                 ("CHAI_SIF", "/images/tool.sif");
                 ("ALPHAFOLD3_SIF", "/images/tool.sif")];
     pw_self := Some "/home/user";
     pw_dirs := [];
     now := clock0;
     cpu_count := 16;
     spython := true;
     image_loads := fun _ => true;
     container_lines := ["done"];
     container_fails := false;
     container_writes := fun m => (["out"; "prediction.cif"], KFile) :: m;
     trace := [] |}.


(** The same host as [host0] with a container that fails before it
    writes anything. *)
Definition crashing : host :=
  {| files := files0;
     cwd := "/home/user";
     environ := [("HOME", "/home/user");
                 ("BOLTZ_SIF", "/images/tool.sif");
                 ("CHAI_SIF", "/images/tool.sif");
                 ("ALPHAFOLD3_SIF", "/images/tool.sif")];
     pw_self := Some "/home/user";
     pw_dirs := [];
     now := clock0;
     cpu_count := 16;
     spython := true;
     image_loads := fun _ => true;
     container_lines := [];
     container_fails := true;
     container_writes := fun m => m;
     trace := [] |}.

(** The same host as [host0] with a container that fails after it has
    written a ranking into the default output directory of AlphaFold 3. *)
Definition crashing_late : host :=
  {| files := files0;
     cwd := "/home/user";
     environ := [("HOME", "/home/user");
                 ("BOLTZ_SIF", "/images/tool.sif");
                 ("CHAI_SIF", "/images/tool.sif");
                 ("ALPHAFOLD3_SIF", "/images/tool.sif")];
     pw_self := Some "/home/user";
     pw_dirs := [];
     now := clock0;
     cpu_count := 16;
     spython := true;
     image_loads := fun _ => true;
     container_lines := [];
     container_fails := true;
     container_writes := fun m =>
       (m ++ [(["home"; "user"; "alphafold3_output"; "ranking.csv"], KFile)])%list;
     trace := [] |}.

(** A printer of floats for the samples. *)
Definition str_float (x : float) : string := "1.638".

(** [--input_data=/data/protein.fasta --out_dir=/out] *)
Definition boltz_flags : Boltz.flags :=
  {| Boltz.sif_path := None;
     Boltz.input_data := Some "/data/protein.fasta";
     Boltz.out_dir := "/out";
     Boltz.boltz_cache_dir := "/home/user/.boltz";
     Boltz.checkpoint := None; Boltz.use_gpu := true;
     Boltz.gpu_devices := "all"; Boltz.devices := 1;
     Boltz.accelerator := Boltz.gpu; Boltz.recycling_steps := 3;
     Boltz.sampling_steps := 200; Boltz.diffusion_samples := 1;
     Boltz.step_scale := 1.638; Boltz.write_full_pae := false;
     Boltz.write_full_pde := false; Boltz.output_format := Boltz.mmcif;
     Boltz.num_workers := 2; Boltz.override := false; Boltz.seed := None;
     Boltz.use_msa_server := false;
     Boltz.msa_server_url := "http://localhost:8080";
     Boltz.msa_pairing_strategy := Boltz.complete;
     Boltz.enable_potentials := true |}.

(** [--fasta_file=/data/protein.fasta --output_dir=/results
    --msa_server_url=http://localhost:8080] *)
Definition chai_flags : Chai.flags :=
  {| Chai.sif_path := None;
     Chai.fasta_file := Some "/data/protein.fasta";
     Chai.output_dir := "/results"; Chai.force_output_dir := false;
     Chai.use_gpu := true; Chai.gpu_devices := "all";
     Chai.use_esm_embeddings := true; Chai.use_msa_server := false;
     Chai.msa_server_url := "http://localhost:8080";
     Chai.msa_directory := None; Chai.constraint_path := None;
     Chai.use_templates_server := false; Chai.template_hits_path := None;
     Chai.recycle_msa_subsample := 0; Chai.num_trunk_recycles := 3;
     Chai.num_diffn_timesteps := 200; Chai.num_diffn_samples := 5;
     Chai.num_trunk_samples := 1; Chai.seed := None; Chai.device := None;
     Chai.low_memory := true |}.

(** [--fasta_file=/data/protein.fasta --output_dir=/out], every other
    flag at its default. *)
Definition chai_plain_flags : Chai.flags :=
  {| Chai.sif_path := None;
     Chai.fasta_file := Some "/data/protein.fasta";
     Chai.output_dir := "/out"; Chai.force_output_dir := false;
     Chai.use_gpu := true; Chai.gpu_devices := "all";
     Chai.use_esm_embeddings := true; Chai.use_msa_server := false;
     Chai.msa_server_url := "https://api.colabfold.com";
     Chai.msa_directory := None; Chai.constraint_path := None;
     Chai.use_templates_server := false; Chai.template_hits_path := None;
     Chai.recycle_msa_subsample := 0; Chai.num_trunk_recycles := 3;
     Chai.num_diffn_timesteps := 200; Chai.num_diffn_samples := 5;
     Chai.num_trunk_samples := 1; Chai.seed := None; Chai.device := None;
     Chai.low_memory := true |}.

(** [--json_path=/data/fold_input.json --output_dir=/out
    --model_dir=/nonexistent/models --db_dir=/db] *)
Definition alphafold3_flags : AlphaFold3.flags :=
  {| AlphaFold3.json_path := Some "/data/fold_input.json";
     AlphaFold3.input_dir := None;
     AlphaFold3.output_dir := "/out"; AlphaFold3.force_output_dir := false;
     AlphaFold3.model_dir := Some "/nonexistent/models";
     AlphaFold3.db_dir := Some ["/db"];
     AlphaFold3.use_gpu := true; AlphaFold3.gpu_devices := "all";
     AlphaFold3.run_data_pipeline := true; AlphaFold3.run_inference := true;
     AlphaFold3.jackhmmer_n_cpu := 8; AlphaFold3.nhmmer_n_cpu := 8;
     AlphaFold3.max_template_date := "2021-09-30";
     AlphaFold3.conformer_max_iterations := 10000;
     AlphaFold3.num_recycles := 10; AlphaFold3.num_diffusion_samples := 5;
     AlphaFold3.num_seeds := None;
     AlphaFold3.flash_attention_implementation := AlphaFold3.triton;
     AlphaFold3.save_embeddings := false |}.

(** [--json_path=/data/fold_input.json --model_dir=/models --db_dir=/db],
    the output directory at its default. *)
Definition alphafold3_default_output : AlphaFold3.flags :=
  {| AlphaFold3.json_path := Some "/data/fold_input.json";
     AlphaFold3.input_dir := None;
     AlphaFold3.output_dir := "/home/user/alphafold3_output";
     AlphaFold3.force_output_dir := false;
     AlphaFold3.model_dir := Some "/models";
     AlphaFold3.db_dir := Some ["/db"];
     AlphaFold3.use_gpu := true; AlphaFold3.gpu_devices := "all";
     AlphaFold3.run_data_pipeline := true; AlphaFold3.run_inference := true;
     AlphaFold3.jackhmmer_n_cpu := 8; AlphaFold3.nhmmer_n_cpu := 8;
     AlphaFold3.max_template_date := "2021-09-30";
     AlphaFold3.conformer_max_iterations := 10000;
     AlphaFold3.num_recycles := 10; AlphaFold3.num_diffusion_samples := 5;
     AlphaFold3.num_seeds := None;
     AlphaFold3.flash_attention_implementation := AlphaFold3.triton;
     AlphaFold3.save_embeddings := false |}.

(** [--fasta_file=/nodata/protein.fasta --output_dir=/out]: the
    directory of the FASTA file does not exist. *)
Definition chai_stray_flags : Chai.flags :=
  {| Chai.sif_path := None;
     Chai.fasta_file := Some "/nodata/protein.fasta";
     Chai.output_dir := "/out"; Chai.force_output_dir := false;
     Chai.use_gpu := true; Chai.gpu_devices := "all";
     Chai.use_esm_embeddings := true; Chai.use_msa_server := false;
     Chai.msa_server_url := "https://api.colabfold.com";
     Chai.msa_directory := None; Chai.constraint_path := None;
     Chai.use_templates_server := false; Chai.template_hits_path := None;
     Chai.recycle_msa_subsample := 0; Chai.num_trunk_recycles := 3;
     Chai.num_diffn_timesteps := 200; Chai.num_diffn_samples := 5;
     Chai.num_trunk_samples := 1; Chai.seed := None; Chai.device := None;
     Chai.low_memory := true |}.

End Sample.


(** ** The commands a run starts *)

(** The commands given to [Client.execute] in a list of events. *)
Fixpoint commands (evs : list os.event) : list (list string) :=
  match evs with
  | [] => []
  | os.EvExecute _ command _ _ :: r => command :: commands r
  | _ :: r => commands r
  end.

(** The commands started between the host [h] and the later host [h']. *)
Definition commands_run (h h' : os.host) : list (list string) :=
  commands (skipn (length (os.trace h)) (os.trace h')).

(** [m] only starts commands that satisfy [good], and what it returns
    satisfies [post]. *)
Definition starts_only {A} (good : list string -> Prop) (post : A -> Prop)
           (m : Run.M A) : Prop :=
  forall h : os.host,
    (exists evs, os.trace (snd (m h)) = (os.trace h ++ evs)%list
                 /\ Forall good (commands evs))
    /\ match fst (m h) with
       | Run.Return a => post a
       | _ => True
       end.

(** The arguments that come before the flags: the words of the command,
    the container paths and the path flags. *)
Definition command_words (L : launcher_id) : list string :=
  match L with
  | LBoltz => ["boltz"; "predict"]
  | LChai => ["chai-lab"; "fold"]
  | LAlphaFold3 => ["python"]
  end.

Definition path_prefixes (L : launcher_id) : list string :=
  "/" ::
  match L with
  | LBoltz => ["--out_dir="; "--cache="; "--checkpoint="]
  | LChai => ["--msa-directory="; "--constraint-path="; "--template-hits-path="]
  | LAlphaFold3 =>
      ["--input_dir="; "--json_path="; "--output_dir="; "--model_dir="; "--db_dir="]
  end.

Definition path_arg (L : launcher_id) (t : string) : bool :=
  existsb (fun p => Py.startswith t p) (path_prefixes L)
  || existsb (String.eqb t) (command_words L).

(** No path argument of [L] starts with [q]. *)
Definition apart (L : launcher_id) (q : string) : bool :=
  forallb (fun p => negb (Py.startswith p q) && negb (Py.startswith q p))
          (path_prefixes L)
  && forallb (fun w => negb (Py.startswith w q)) (command_words L).

(** A command of the launcher [L] for the flags [F]: path arguments,
    then the tokens of the flags. *)
Definition command_shape (str_float : float -> string) (L : launcher_id)
           (F : flags_of L) (command : list string) : Prop :=
  exists pre, command = (pre ++ flag_args str_float L F)%list
              /\ Forall (fun t => path_arg L t = true) pre.

(** [holds] is true of the tokens of the flags and of every command the
    launcher starts in a run from the host [h]. *)
Definition every_command (str_float : float -> string) (L : launcher_id)
           (F : flags_of L) (argv : list string) (h : os.host)
           (holds : list string -> Prop) : Prop :=
  holds (flag_args str_float L F)
  /\ Forall holds (commands_run h (snd (launcher str_float L F argv h))).

(** ** Notions for the properties of a whole run *)

(** The file system [m'] holds every entry of [m], with its kind. *)
Definition grows (m m' : os.fs) : Prop :=
  forall x k, os.kind_at m x = Some k -> os.kind_at m' x = Some k.

(** The host [h] with the files and the trace of [h']: what a run can
    make of [h]. *)
Definition rebase (h h' : os.host) : os.host :=
  {| os.files := os.files h'; os.cwd := os.cwd h; os.environ := os.environ h;
     os.pw_self := os.pw_self h; os.pw_dirs := os.pw_dirs h; os.now := os.now h;
     os.cpu_count := os.cpu_count h; os.spython := os.spython h;
     os.image_loads := os.image_loads h;
     os.container_lines := os.container_lines h;
     os.container_fails := os.container_fails h;
     os.container_writes := os.container_writes h; os.trace := os.trace h' |}.

(** The components of a normalised path: none empty, none with a
    separator. *)
Definition clean_comps (cs : list string) : Prop :=
  Forall (fun c => noslash c = true /\ Py.truthy c = true) cs.

(** The value of an optional [str] flag when it is truthy. *)
Definition given (o : option string) : option string :=
  match o with
  | Some p => if Py.truthy p then Some p else None
  | None => None
  end.

(** The image a launcher uses. *)
Definition image_path (L : launcher_id) : flags_of L -> os.host -> string :=
  match L with
  | LBoltz => fun F h => match given (Boltz.sif_path F) with
                         | Some p => p
                         | None => Boltz._BOLTZ_SIF_PATH h
                         end
  | LChai => fun F h => match given (Chai.sif_path F) with
                        | Some p => p
                        | None => Chai._CHAI_SIF_PATH h
                        end
  | LAlphaFold3 => fun _ h => AlphaFold3._ALPHAFOLD3_SIF_PATH h
  end.

(** Whether [main] raises a usage error for the flags alone. *)
Definition usage_error (L : launcher_id) : flags_of L -> bool :=
  match L with
  | LBoltz => fun F => negb (Py.truthy_opt (Boltz.input_data F))
  | LChai => fun F => negb (Py.truthy_opt (Chai.fasta_file F))
                      || negb (Py.truthy (Chai.output_dir F))
  | LAlphaFold3 =>
      fun F => negb (Py.truthy_opt (AlphaFold3.json_path F))
               && negb (Py.truthy_opt (AlphaFold3.input_dir F))
               || negb (Py.truthy_opt (AlphaFold3.model_dir F))
               || match AlphaFold3.db_dir F with
                  | None | Some [] => true
                  | Some _ => false
                  end
  end.

(** What a launcher does when [Client.execute] raises: the [except]
    clause at the end of [main]. *)
Definition on_failure (L : launcher_id) : flags_of L -> Run.exn -> option (Run.M unit) :=
  match L with
  | LBoltz | LChai =>
      fun _ _ =>
        Some (Run.emit (os.EvLogError "Error executing Singularity command") ;;;
              Run.sys_exit 1)
  | LAlphaFold3 =>
      fun F _ =>
        Some (Run.emit (os.EvLogError "Error executing Singularity command") ;;;
              Run.try_except
                (h <- Run.get ;;
                 if String.eqb (AlphaFold3.output_dir F) (AlphaFold3.output_dir_default h)
                    && os.exists_ h (AlphaFold3.output_dir_default h) then
                   names <- Run.syscall (os.listdir h (AlphaFold3.output_dir_default h)) ;;
                   match names with
                   | [] =>
                       m <- Run.syscall (os.rmdir h (AlphaFold3.output_dir_default h)) ;;
                       Run.set_files m
                   | _ => Run.ret tt
                   end
                 else Run.ret tt)
                (fun e => match e with
                          | Run.OSError _ =>
                              Some (Run.emit (os.EvLogWarning
                                      "Could not remove default output directory"))
                          | _ => None
                          end) ;;;
              Run.sys_exit 1)
  end.

(** The last step of [main]: the container is started, and a failure is
    handled. *)
Definition finish (L : launcher_id) (F : flags_of L) (image : string)
           (command options : list string) (nv : bool) : Run.M unit :=
  Run.try_except (Client.execute_and_print image command nv options)
                 (on_failure L F).

(** The lines printed in a list of events. *)
Fixpoint printed (evs : list os.event) : list string :=
  match evs with
  | [] => []
  | os.EvPrint line :: r => line :: printed r
  | _ :: r => printed r
  end.

(** The events of a run between the host [h] and the later host [h']. *)
Definition new_events (h h' : os.host) : list os.event :=
  skipn (length (os.trace h)) (os.trace h').

(** The events of the setup of a run that goes on to start the
    container. *)
Definition setup_event (e : os.event) : Prop :=
  match e with
  | os.EvLoad _ | os.EvCreateBind _ _ _ | os.EvLogWarning _ => True
  | _ => False
  end.

(** What holds on the host [h] of an event of the setup of a run of the
    launcher [L] started on [h0]: the image loaded exists, the directory
    of a mount the resolver makes is there, the source of another mount
    exists where the resolver looks for it. *)
Definition settled (L : launcher_id) (h0 h : os.host) (e : os.event) : Prop :=
  match e with
  | os.EvLoad image => os.exists_ h image = true /\ os.image_loads h0 image = true
  | os.EvCreateBind name path is_dir =>
      if makes_dir L name then os.isdir h (made_dir L h0 path is_dir) = true
      else if checks_source L then os.exists_ h (bind_source L h0 path is_dir) = true
      else True
  | _ => True
  end.

(** The host [h] comes after [h0] in a run: only files and trace differ,
    no entry is lost, no command has been started. *)
Definition after (h0 h : os.host) : Prop :=
  rebase h0 h = h /\ grows (os.files h0) (os.files h)
  /\ exists evs, os.trace h = (os.trace h0 ++ evs)%list /\ commands evs = [].

(** The host [h] comes after [h0] in the setup of a run that goes on;
    with [fresh], the files are still those of [h0]. *)
Definition going (L : launcher_id) (fresh : bool) (h0 h : os.host) : Prop :=
  rebase h0 h = h /\ grows (os.files h0) (os.files h)
  /\ (fresh = true -> os.files h = os.files h0)
  /\ exists evs, os.trace h = (os.trace h0 ++ evs)%list
                 /\ Forall setup_event evs /\ Forall (settled L h0 h) evs.

(** A computation that ends the run with status 1 and starts no
    command. *)
Definition fails {A} (h0 : os.host) (m : Run.M A) : Prop :=
  forall h, after h0 h ->
    after h0 (snd (m h)) /\ exit_status (fst (m h)) = 1%Z
    /\ forall a, fst (m h) <> Run.Return a.

(** The result of a step of the setup: it has started no command and
    lost no entry; when it returns the run goes on and [post] holds of
    what it returns; otherwise the run ends with status 1. *)
Definition stepped {A} (L : launcher_id) (h0 : os.host) (b' : bool)
           (post : A -> Prop) (r : Run.outcome A * os.host) : Prop :=
  after h0 (snd r)
  /\ match fst r with
     | Run.Return a => going L b' h0 (snd r) /\ post a
     | o => exit_status o = 1%Z
     end.

(** The result of a computation that ends the setup with status 1, or
    goes on to [finish] with the start [plan]. *)
Definition reached (L : launcher_id) (F : flags_of L) (h0 : os.host)
           (plan : os.event) (r : Run.outcome unit * os.host) : Prop :=
  (after h0 (snd r) /\ exit_status (fst r) = 1%Z /\ fst r <> Run.Return tt)
  \/ (exists h1 image command options nv,
        going L false h0 h1
        /\ plan = os.EvExecute image command options nv
        /\ r = finish L F image command options nv h1).

(** The host after a list of events. *)
Definition with_events (h : os.host) (evs : list os.event) : os.host :=
  fold_left os.with_event evs h.

(** The host after the container, started on [h] by the event [e], has
    run: the event, what the container wrote, the lines printed. *)
Definition after_container (h : os.host) (e : os.event) : os.host :=
  with_events
    (os.with_files (os.with_event h e) (os.container_writes h (os.files h)))
    (map os.EvPrint (os.container_lines h)).

(** The events of the handling of a failure. *)
Definition log_event (e : os.event) : Prop :=
  match e with
  | os.EvLogError _ | os.EvLogWarning _ => True
  | _ => False
  end.

(** What the handling of a failure does to the files of [h] when it
    changes them: only AlphaFold 3 does, with [os.rmdir] on an output
    directory that is the default one and lists as empty. *)
Definition cleaned (L : launcher_id) : flags_of L -> os.host -> os.fs -> Prop :=
  match L with
  | LBoltz | LChai => fun _ _ _ => False
  | LAlphaFold3 =>
      fun F h m =>
        AlphaFold3.output_dir F = AlphaFold3.output_dir_default h
        /\ os.listdir h (AlphaFold3.output_dir_default h) = os.Ok []
        /\ os.rmdir h (AlphaFold3.output_dir_default h) = os.Ok m
  end.

(** ** The start of the container, in closed form

    What each [main] hands to [Client.execute] when it gets that far, as
    a function of the flags and of the host the run starts on. *)

Section Plans.

Import Py os Run.

Variable str_float : float -> string.

(** The directory [choose_output_dir] returns. *)
Definition chai_output (F : Chai.flags) (h : host) : string :=
  let requested := Chai.output_dir F in
  if exists_ h requested
     && match listdir h requested with Ok (_ :: _) => true | _ => false end
     && negb (Chai.force_output_dir F)
  then posixpath.join requested ("run_" ++ os_py.strftime_stamp (now h))
  else requested.

Definition boltz_start (F : Boltz.flags) (h : host) : event :=
  let input := match Boltz.input_data F with Some i => i | None => "" end in
  let d := isdir h input in
  let bind := bind_spec LBoltz h in
  EvExecute (image_path LBoltz F h)
    (["boltz"; "predict"; container_path LBoltz h "input_data" input d;
      "--out_dir=/mnt_launcher/output"; "--cache=/mnt_launcher/boltz_cache"]
     ++ match given (Boltz.checkpoint F) with
        | Some c => [("--checkpoint="
                      ++ container_path LBoltz h "checkpoint_file" c false)%string]
        | None => []
        end
     ++ Boltz.flag_args str_float F)%list
    ["--bind";
     join_comma ([bind "input_data" input d true;
                  bind "output" (Boltz.out_dir F) true false;
                  bind "boltz_cache" (Boltz.boltz_cache_dir F) true false]
                 ++ match given (Boltz.checkpoint F) with
                    | Some c => [bind "checkpoint_file" c false true]
                    | None => []
                    end
                 ++ [bind "tmp" (Boltz.tmp_dir_host h) true false])%list;
     "--env"; "NVIDIA_VISIBLE_DEVICES=" ++ Boltz.gpu_devices F;
     "--env"; "BOLTZ_CACHE=/mnt_launcher/boltz_cache";
     "--env"; "TMPDIR=/mnt_launcher/tmp"]
    (Boltz.use_gpu F).

(** The bind and the argument of an optional path of Chai. *)
Definition chai_optional (h : host) (path : option string) (mount name : string)
           (is_dir : bool) : list (string * string) :=
  match given path with
  | Some p => [(bind_spec LChai h mount p is_dir false,
                "--" ++ name ++ "=" ++ container_path LChai h mount p is_dir)]
  | None => []
  end.

Definition chai_start (F : Chai.flags) (h : host) : event :=
  let fasta := match Chai.fasta_file F with Some f => f | None => "" end in
  let bind := bind_spec LChai h in
  let optional :=
    (chai_optional h (Chai.msa_directory F) "msa_dir" "msa-directory" true
     ++ chai_optional h (Chai.constraint_path F) "constraints" "constraint-path" false
     ++ chai_optional h (Chai.template_hits_path F) "template_hits"
                      "template-hits-path" false)%list in
  EvExecute (image_path LChai F h)
    (["chai-lab"; "fold"; container_path LChai h "fasta" fasta false; "/mnt/output"]
     ++ map snd optional ++ Chai.flag_args F)%list
    ["--bind";
     join_comma ([bind "fasta" fasta false false;
                  bind "output" (chai_output F h) true false]
                 ++ map fst optional
                 ++ [bind "tmp" (Chai.tmp_dir h) true false])%list;
     "--env"; "NVIDIA_VISIBLE_DEVICES=" ++ Chai.gpu_devices F;
     "--env"; "TMPDIR=/mnt/tmp"]
    (Chai.use_gpu F).

(** The binds and the arguments of the database directories of
    AlphaFold 3, from index [i]. *)
Fixpoint db_mounts (h : host) (i : nat) (dbs : list string)
  : list (string * string) :=
  match dbs with
  | [] => []
  | db_path :: rest =>
      (bind_spec LAlphaFold3 h ("db_" ++ str_int (Z.of_nat i)) db_path true false,
       "--db_dir=/mnt/db_" ++ str_int (Z.of_nat i)) :: db_mounts h (S i) rest
  end.

Definition alphafold3_start (F : AlphaFold3.flags) (h : host) : event :=
  let bind := bind_spec LAlphaFold3 h in
  let input :=
    match given (AlphaFold3.input_dir F), given (AlphaFold3.json_path F) with
    | Some d, _ => [(bind "input_dir" d true false, "--input_dir=/mnt/input_dir")]
    | None, Some j => [(bind "json_input" j false false,
                        ("--json_path="
                         ++ container_path LAlphaFold3 h "json_input" j false)%string)]
    | None, None => []
    end in
  let model := match AlphaFold3.model_dir F with Some m => m | None => "" end in
  let db := db_mounts h 0 (match AlphaFold3.db_dir F with
                           | Some dbs => dbs
                           | None => []
                           end) in
  EvExecute (image_path LAlphaFold3 F h)
    (["python"; "/app/run_alphafold.py"]
     ++ map snd input
     ++ ["--output_dir=/mnt/output"; "--model_dir=/mnt/models"]
     ++ map snd db ++ AlphaFold3.flag_args F)%list
    ["--bind";
     join_comma (map fst input
                 ++ [bind "output" (AlphaFold3.output_dir F) true false;
                     bind "models" model true false]
                 ++ map fst db
                 ++ [bind "tmp" (AlphaFold3.tmp_dir h) true false])%list;
     "--env"; "NVIDIA_VISIBLE_DEVICES=" ++ AlphaFold3.gpu_devices F]
    (AlphaFold3.use_gpu F).

Definition planned_start (L : launcher_id) : flags_of L -> host -> event :=
  match L with
  | LBoltz => boltz_start
  | LChai => chai_start
  | LAlphaFold3 => alphafold3_start
  end.

End Plans.

(** The first mount of a run of Boltz or of Chai: the input, with its
    name, its host path and whether it is bound as a directory. *)
Definition first_mount (L : launcher_id)
  : flags_of L -> os.host -> option (string * string * bool) :=
  match L with
  | LBoltz => fun F h => match given (Boltz.input_data F) with
                         | Some p => Some ("input_data", p, os.isdir h p)
                         | None => None
                         end
  | LChai => fun F _ => match given (Chai.fasta_file F) with
                        | Some p => Some ("fasta", p, false)
                        | None => None
                        end
  | LAlphaFold3 => fun _ _ => None
  end.

(** * Properties *)

Import Py os Run.

(** ** Strings and paths *)



Section Strings.

Lemma append_nil_r s : s ++ "" = s.
Proof. induction s; simpl; congruence. Qed.

Lemma append_assoc' (a b c : string) : (a ++ b) ++ c = a ++ b ++ c.
Proof. induction a; simpl; congruence. Qed.

Lemma split_slash_cons s : exists x r, split_slash s = x :: r.
Proof.
  induction s as [|c s [x [r IH]]]; simpl; eauto.
  destruct (Ascii.eqb c slash); eauto. rewrite IH. eauto.
Qed.

Lemma split_slash_noslash s : noslash s = true -> split_slash s = [s].
Proof.
  induction s as [|c s IH]; simpl; [reflexivity|].
  intros H. apply andb_true_iff in H as [Hc Hs].
  apply negb_true_iff in Hc. rewrite Hc, (IH Hs). reflexivity.
Qed.

(** Splitting around a separator. *)
Lemma split_slash_app a b :
  split_slash (a ++ String slash b) = (split_slash a ++ split_slash b)%list.
Proof.
  induction a as [|c a IH]; simpl.
  - unfold slash. reflexivity.
  - destruct (Ascii.eqb c slash).
    + now rewrite IH.
    + rewrite IH. destruct (split_slash_cons a) as [x [r ->]]. reflexivity.
Qed.

Lemma split_slash_slashes a k :
  split_slash (a ++ slashes k) = (split_slash a ++ repeat "" k)%list.
Proof.
  revert a; induction k as [|k IH]; intros a; simpl.
  - now rewrite append_nil_r, app_nil_r.
  - rewrite split_slash_app.
    specialize (IH ""). simpl in IH. rewrite IH.
    simpl. reflexivity.
Qed.

Lemma rcut_spec p a t :
  rcut p = Some (a, t) -> p = a ++ String slash t /\ noslash t = true.
Proof.
  revert a t; induction p as [|c p IH]; intros a t; simpl; [discriminate|].
  destruct (rcut p) as [[a' t']|] eqn:E.
  - intros H; injection H as <- <-. destruct (IH _ _ eq_refl) as [-> Ht].
    split; [reflexivity|exact Ht].
  - destruct (Ascii.eqb c slash) eqn:Ec; [|discriminate].
    apply Ascii.eqb_eq in Ec. subst c.
    intros H; injection H as <- <-. split; [reflexivity|].
    clear IH. induction p as [|d p IHp]; simpl in *; [reflexivity|].
    destruct (rcut p) as [[? ?]|]; [discriminate|].
    destruct (Ascii.eqb d slash); [discriminate|]. simpl. now apply IHp.
Qed.

Lemma rcut_none p : rcut p = None -> noslash p = true.
Proof.
  induction p as [|d p IHp]; simpl in *; [reflexivity|].
  destruct (rcut p) as [[? ?]|]; [discriminate|].
  destruct (Ascii.eqb d slash); [discriminate|]. simpl. now apply IHp.
Qed.

Lemma split_slash_rcut p a t :
  rcut p = Some (a, t) -> split_slash p = (split_slash a ++ [t])%list.
Proof.
  intros H. destruct (rcut_spec _ _ _ H) as [-> Ht].
  now rewrite split_slash_app, (split_slash_noslash _ Ht).
Qed.

(** [rstrip] takes separators off the end. *)
Lemma rstrip_slash_spec x : exists k, x = rstrip_slash x ++ slashes k.
Proof.
  induction x as [|c x [k IH]]; simpl.
  - exists 0%nat. reflexivity.
  - destruct (rstrip_slash x) as [|d r] eqn:E.
    + destruct (Ascii.eqb c slash) eqn:Ec.
      * apply Ascii.eqb_eq in Ec. subst c. exists (S k). simpl in *. congruence.
      * exists k. simpl in *. congruence.
    + exists k. simpl in *. congruence.
Qed.

Lemma all_slashes_rstrip x : all_slashes x = false -> truthy (rstrip_slash x) = true.
Proof.
  induction x as [|c x IH]; simpl; [discriminate|].
  destruct (Ascii.eqb c slash) eqn:Ec; simpl.
  - intros H. specialize (IH H). destruct (rstrip_slash x); [discriminate|reflexivity].
  - intros _. destruct (rstrip_slash x); reflexivity.
Qed.

Lemma startswith_app s t p :
  truthy s = true -> startswith (s ++ t) (String p "") = startswith s (String p "").
Proof. destruct s; [discriminate|reflexivity]. Qed.

(** The head and the tail that [os.path.split] gives. *)
Lemma split_spec p head tail :
  posixpath.split p = (head, tail) ->
  (rcut p = None /\ head = "" /\ tail = p)
  \/ (exists a k, rcut p = Some (a, tail)
                 /\ a ++ String slash "" = head ++ slashes k
                 /\ truthy head = true).
Proof.
  unfold posixpath.split. destruct (rcut p) as [[a t]|] eqn:E.
  - intros H; injection H as <- <-. right. exists a.
    destruct (all_slashes (a ++ "/")) eqn:Ea.
    + exists 0%nat. simpl. rewrite append_nil_r. repeat split; auto.
      destruct a; reflexivity.
    + destruct (rstrip_slash_spec (a ++ "/")) as [k Hk]. exists k.
      repeat split; auto. now apply all_slashes_rstrip.
  - intros H; injection H as <- <-. now left.
Qed.

Lemma split_slash_pieces x : Forall (fun c => noslash c = true) (split_slash x).
Proof.
  induction x as [|c x IH]; simpl.
  - repeat constructor.
  - destruct (Ascii.eqb c slash) eqn:Ec.
    + constructor; [reflexivity|exact IH].
    + destruct (split_slash x) as [|h t]; [repeat constructor; simpl; now rewrite Ec|].
      inversion IH; subst. constructor; [simpl; now rewrite Ec|assumption].
Qed.

Lemma split_slash_join cs :
  Forall (fun c => noslash c = true) cs -> cs <> [] ->
  split_slash (join_slash cs) = cs.
Proof.
  induction cs as [|x [|y r] IH]; intros H Hne; [congruence| |].
  - inversion H; subst. simpl. now apply split_slash_noslash.
  - inversion H; subst.
    change (join_slash (x :: y :: r)) with (x ++ String slash (join_slash (y :: r))).
    rewrite split_slash_app, IH by (auto; discriminate).
    now rewrite split_slash_noslash.
Qed.

(** What [normpath] keeps comes from the path and is neither empty nor
    a dot. *)
Lemma norm_comps_in rooted c : forall comps acc,
  In c (posixpath.norm_comps rooted acc comps) ->
  In c acc \/ (In c comps /\ c <> "" /\ c <> ".").
Proof.
  induction comps as [|d r IH]; intros acc; simpl.
  - intros H. left. now apply in_rev.
  - destruct (String.eqb d "") eqn:E1; simpl.
    { intros H. destruct (IH _ H) as [?|(? & ? & ?)]; auto. }
    destruct (String.eqb d ".") eqn:E2; simpl.
    { intros H. destruct (IH _ H) as [?|(? & ? & ?)]; auto. }
    apply String.eqb_neq in E1, E2.
    assert (Hpush : In c (posixpath.norm_comps rooted (d :: acc) r) ->
                    In c acc \/ ((d = c \/ In c r) /\ c <> "" /\ c <> ".")).
    { intros H. destruct (IH _ H) as [[->|?]|(? & ? & ?)]; auto. }
    destruct (String.eqb d ".."); simpl; [|exact Hpush].
    destruct acc as [|l acc'].
    + destruct rooted; [|exact Hpush].
      intros H. destruct (IH _ H) as [?|(? & ? & ?)]; auto.
    + destruct (String.eqb l ".."); [exact Hpush|].
      intros H. destruct (IH _ H) as [?|(? & ? & ?)]; simpl; auto.
Qed.

Lemma normpath_plain x : plain (posixpath.normpath x).
Proof.
  unfold posixpath.normpath, plain.
  destruct (truthy x); simpl; [|now right].
  set (ini := posixpath.initial_slashes x).
  set (cs := posixpath.norm_comps (truthy ini) [] (split_slash x)).
  destruct (truthy (ini ++ join_slash cs)); [|now right].
  left. intros H.
  assert (Hcs : ~ In "." (split_slash (join_slash cs))).
  { destruct cs as [|c0 cs0] eqn:Ecs; [simpl; intros [?|[]]; discriminate|].
    rewrite split_slash_join; [| |discriminate].
    - rewrite <- Ecs. intros Hin. apply norm_comps_in in Hin as [[]|(_ & _ & Hd)].
      now apply Hd.
    - rewrite <- Ecs. apply Forall_forall. intros c Hin.
      apply norm_comps_in in Hin as [[]|(Hin & _ & _)].
      eapply Forall_forall in Hin; [exact Hin|apply split_slash_pieces]. }
  apply Hcs. clear Hcs.
  unfold ini, posixpath.initial_slashes in H.
  destruct (startswith x "/"); [|exact H].
  destruct (startswith x "//" && negb (startswith x "///")); simpl in H.
  - destruct H as [H|[H|H]]; try discriminate. exact H.
  - destruct H as [H|H]; try discriminate. exact H.
Qed.

(** The directory part of a plain path is plain. *)
Lemma dirname_plain p : plain p -> plain (posixpath.dirname p).
Proof.
  intros Hp. unfold posixpath.dirname.
  destruct (posixpath.split p) as [head tail] eqn:E. simpl.
  destruct (split_spec _ _ _ E) as [(_ & -> & _)|(a & k & Hr & Hh & _)].
  - left. simpl. intros [?|[]]. discriminate.
  - destruct Hp as [Hp| ->]; [|discriminate].
    left. intros Hin. apply Hp.
    rewrite (split_slash_rcut _ _ _ Hr). apply in_or_app. left.
    assert (Hs : In "." (split_slash (a ++ String slash ""))).
    { rewrite Hh, split_slash_slashes. apply in_or_app. now left. }
    rewrite split_slash_app in Hs. apply in_app_or in Hs as [Hs|Hs]; [exact Hs|].
    simpl in Hs. destruct Hs as [?|[]]. discriminate.
Qed.

End Strings.

(** ** The file system *)



Section FileSystem.

Local Open Scope list_scope.


Lemma path_eqb_eq a b : path_eqb a b = true <-> a = b.
Proof.
  revert b; induction a as [|x a IH]; intros [|y b]; simpl; split;
    try congruence; try reflexivity.
  - intros H. apply andb_true_iff in H as [H1 H2].
    apply String.eqb_eq in H1. apply IH in H2. congruence.
  - intros H. injection H as -> ->. rewrite String.eqb_refl. simpl. now apply IH.
Qed.

Lemma path_eqb_refl a : path_eqb a a = true.
Proof. now apply path_eqb_eq. Qed.

Arguments walk : simpl never.

(** One step of [walk], as an equation. *)
Lemma walk_nil links m cur : walk links m cur [] = Ok (links, cur).
Proof. destruct links; reflexivity. Qed.

Lemma walk_cons links m cur c rest :
  walk links m cur (c :: rest) =
  match kind_at m cur with
  | Some KDir =>
      if String.eqb c "" || String.eqb c "." then walk links m cur rest
      else if String.eqb c ".." then walk links m (removelast cur) rest
      else
        match kind_at m (cur ++ [c]) with
        | None => Err ENOENT
        | Some (KLink t) =>
            match links with
            | O => Err ELOOP
            | S links' =>
                if truthy t then
                  walk links' m (if Py.startswith t "/" then [] else cur)
                       (split_slash t ++ rest)
                else Err ENOENT
            end
        | Some _ => walk links m (cur ++ [c]) rest
        end
  | Some _ => Err ENOTDIR
  | None => Err ENOENT
  end.
Proof. destruct links; reflexivity. Qed.



(** Walking [a ++ b] is walking [a], then [b] from where [a] leads. *)
Lemma walk_app m b : forall links a cur,
  walk links m cur (a ++ b) =
  match walk links m cur a with
  | Ok (links', q) => walk links' m q b
  | Err e => Err e
  end.
Proof.
  induction links as [|links IHl]; induction a as [|c a IHa]; intros cur.
  - cbn [app]. now rewrite walk_nil.
  - cbn [app]. rewrite !walk_cons.
    destruct (kind_at m cur) as [[| |t]|]; try reflexivity.
    destruct (_ || _); [apply IHa|].
    destruct (String.eqb _ ".."); [apply IHa|].
    destruct (kind_at m (cur ++ [c])) as [[| |t]|]; try reflexivity; apply IHa.
  - cbn [app]. now rewrite walk_nil.
  - cbn [app]. rewrite !walk_cons.
    destruct (kind_at m cur) as [[| |t]|]; try reflexivity.
    destruct (_ || _); [apply IHa|].
    destruct (String.eqb _ ".."); [apply IHa|].
    destruct (kind_at m (cur ++ [c])) as [[| |t]|]; try reflexivity; try apply IHa.
    destruct (truthy t); [|reflexivity].
    rewrite app_assoc. apply IHl.
Qed.

(** A walk that succeeds still succeeds, and leads to the same place,
    when entries are added. *)
Lemma walk_mono m m' :
  (forall x k, kind_at m x = Some k -> kind_at m' x = Some k) ->
  forall links comps cur r,
    walk links m cur comps = Ok r -> walk links m' cur comps = Ok r.
Proof.
  intros Hm.
  induction links as [|links IHl]; induction comps as [|c a IHa]; intros cur r;
    rewrite ?walk_nil; try congruence; rewrite !walk_cons.
  - destruct (kind_at m cur) as [[| |t]|] eqn:Hc; try discriminate.
    rewrite (Hm _ _ Hc).
    destruct (_ || _); [apply IHa|].
    destruct (String.eqb _ ".."); [apply IHa|].
    destruct (kind_at m (cur ++ [c])) as [[| |t]|] eqn:Hk; try discriminate;
      rewrite (Hm _ _ Hk); try apply IHa; auto.
  - destruct (kind_at m cur) as [[| |t]|] eqn:Hc; try discriminate.
    rewrite (Hm _ _ Hc).
    destruct (_ || _); [apply IHa|].
    destruct (String.eqb _ ".."); [apply IHa|].
    destruct (kind_at m (cur ++ [c])) as [[| |t]|] eqn:Hk; try discriminate;
      rewrite (Hm _ _ Hk); try apply IHa.
    destruct (truthy t); [apply IHl|auto].
Qed.

(** Empty components after a directory change nothing. *)
Lemma walk_empties m links q k :
  kind_at m q = Some KDir ->
  walk links m q (repeat "" k) = Ok (links, q).
Proof.
  intros Hq. induction k as [|k IH]; simpl.
  - apply walk_nil.
  - rewrite walk_cons, Hq. cbn [String.eqb orb]. exact IH.
Qed.

(** A walk goes on only from a directory. *)
Lemma walk_from_dir m links q c rest r :
  walk links m q (c :: rest) = Ok r -> kind_at m q = Some KDir.
Proof.
  rewrite walk_cons. destruct (kind_at m q) as [[| |t]|]; congruence.
Qed.

Lemma drop_trailing_empty_spec comps :
  exists k, comps = drop_trailing_empty comps ++ repeat "" k.
Proof.
  induction comps as [|c r [k IH]]; simpl.
  - exists 0%nat. reflexivity.
  - destruct (drop_trailing_empty r) as [|d r'] eqn:E.
    + destruct (String.eqb c "") eqn:Ec.
      * apply String.eqb_eq in Ec. subst c. exists (S k). simpl in *. now rewrite IH at 1.
      * exists k. simpl in *. now rewrite IH at 1.
    + exists k. simpl in *. now rewrite IH at 1.
Qed.

Lemma drop_trailing_empty_last comps init b :
  drop_trailing_empty comps = init ++ [b] -> String.eqb b "" = false.
Proof.
  revert init; induction comps as [|c r IH]; intros init; simpl.
  - destruct init; discriminate.
  - destruct (drop_trailing_empty r) as [|d r'] eqn:E.
    + destruct (String.eqb c "") eqn:Ec.
      * destruct init; discriminate.
      * destruct init as [|i [|? ?]]; simpl; try discriminate. congruence.
    + destruct init as [|i init]; simpl.
      * discriminate.
      * intros H. injection H as -> H. eapply IH. exact H.
Qed.

(** What [parent_and_name] finds. *)
Lemma parent_and_name_inv h p q b :
  parent_and_name h p = Ok (q, b) ->
  exists init links k,
    truthy p = true
    /\ from_root h p = init ++ [b] ++ repeat "" k
    /\ walk MAXSYMLINKS (files h) [] init = Ok (links, q)
    /\ kind_at (files h) q = Some KDir
    /\ String.eqb b "" = false /\ String.eqb b "." = false
    /\ String.eqb b ".." = false.
Proof.
  unfold parent_and_name. destruct (truthy p) eqn:Hp; [|discriminate].
  destruct (rev (drop_trailing_empty (from_root h p))) as [|b' rinit] eqn:Hr;
    [discriminate|].
  destruct (walk _ _ _ _) as [[links q']|] eqn:Hw; [|discriminate].
  destruct (kind_at _ q') as [[| |t]|] eqn:Hk; try discriminate.
  destruct (String.eqb b' ".") eqn:E1; [discriminate|].
  destruct (String.eqb b' "..") eqn:E2; [discriminate|]. simpl.
  intros H; injection H as -> ->.
  assert (Hd : drop_trailing_empty (from_root h p) = rev rinit ++ [b]).
  { rewrite <- (rev_involutive (drop_trailing_empty _)), Hr. reflexivity. }
  destruct (drop_trailing_empty_spec (from_root h p)) as [k Hk'].
  exists (rev rinit), links, k. repeat split; auto.
  - rewrite Hk' at 1. rewrite Hd, <- app_assoc. reflexivity.
  - eapply drop_trailing_empty_last; eauto.
Qed.

Lemma kind_at_cons m d x :
  kind_at m d = None ->
  forall k, kind_at m x = Some k -> kind_at ((d, KDir) :: m) x = Some k.
Proof.
  intros Hd k Hx. destruct x as [|x0 x]; [exact Hx|].
  cbn [kind_at lookup]. destruct (path_eqb (x0 :: x) d) eqn:E; [|exact Hx].
  apply path_eqb_eq in E. congruence.
Qed.

Lemma kind_at_new m q b : kind_at ((q ++ [b], KDir) :: m) (q ++ [b]) = Some KDir.
Proof.
  destruct (q ++ [b]) as [|x0 x] eqn:E; [reflexivity|].
  cbn [kind_at lookup]. now rewrite path_eqb_refl.
Qed.

(** After [mkdir], the directory is there. *)
Lemma mkdir_isdir h p m :
  mkdir h p = Ok m -> isdir (with_files h m) p = true.
Proof.
  unfold mkdir. destruct (parent_and_name h p) as [[q b]|] eqn:Hp; [|discriminate].
  destruct (kind_at (files h) (q ++ [b])) eqn:Hk; [discriminate|].
  intros H; injection H as <-.
  destruct (parent_and_name_inv _ _ _ _ Hp)
    as (init & links & k & Ht & Hfr & Hw & Hq & Hb1 & Hb2 & Hb3).
  unfold isdir, stat. rewrite Ht.
  change (from_root (with_files h _) p) with (from_root h p). rewrite Hfr.
  cbn [files with_files].
  set (m' := (q ++ [b], KDir) :: files h).
  assert (Hm : forall x k, kind_at (files h) x = Some k -> kind_at m' x = Some k)
    by (intros; now apply kind_at_cons).
  rewrite walk_app, (walk_mono _ _ Hm _ _ _ _ Hw).
  simpl app. rewrite walk_cons, (Hm _ _ Hq), Hb1, Hb2, Hb3. simpl.
  unfold m' at 1. rewrite kind_at_new. fold m'.
  rewrite walk_empties by apply kind_at_new.
  unfold m'. now rewrite kind_at_new.
Qed.

(** [mkdir] fails on what is there already. *)
Lemma mkdir_exists h p :
  exists_ h p = true -> exists e, mkdir h p = Err e.
Proof.
  unfold mkdir. destruct (parent_and_name h p) as [[q b]|e] eqn:Hp; [|eauto].
  destruct (kind_at (files h) (q ++ [b])) eqn:Hk; [eauto|].
  destruct (parent_and_name_inv _ _ _ _ Hp)
    as (init & links & k & Ht & Hfr & Hw & Hq & Hb1 & Hb2 & Hb3).
  unfold exists_, stat. rewrite Ht, Hfr, walk_app, Hw.
  simpl app. rewrite walk_cons, Hq, Hb1, Hb2, Hb3, Hk. simpl. discriminate.
Qed.

End FileSystem.

(** ** [os.makedirs] *)

Section Makedirs.

Local Open Scope list_scope.

(** A successful walk to [xs] and one more component shows a directory
    at [ys], which is [xs] up to empty components at the end. *)
Lemma walk_prefix_dir m links cur xs t rest r ys k :
  walk links m cur (xs ++ t :: rest) = Ok r ->
  xs ++ [""%string] = ys ++ repeat ""%string k ->
  exists l1 q1, walk links m cur ys = Ok (l1, q1) /\ kind_at m q1 = Some KDir.
Proof.
  intros Hw Hxy. rewrite walk_app in Hw.
  destruct (walk links m cur xs) as [[l q]|] eqn:Hx; [|discriminate].
  pose proof (walk_from_dir _ _ _ _ _ _ Hw) as Hq.
  assert (Hx' : walk links m cur (xs ++ [""%string]) = Ok (l, q)).
  { rewrite walk_app, Hx, walk_cons, Hq. cbn [String.eqb orb]. apply walk_nil. }
  rewrite Hxy, walk_app in Hx'.
  destruct (walk links m cur ys) as [[l1 q1]|] eqn:Hy; [|discriminate].
  exists l1, q1. split; [reflexivity|].
  destruct k as [|k]; simpl in Hx'.
  - rewrite walk_nil in Hx'. congruence.
  - eapply walk_from_dir; eauto.
Qed.

Lemma from_root_split h p :
  from_root h p =
  (if startswith p "/" then [] else split_slash (cwd h)) ++ split_slash p.
Proof. unfold from_root. destruct (startswith p "/"); reflexivity. Qed.

(** The head of a path that exists is a directory. *)
Lemma isdir_head h p head tail :
  exists_ h p = true -> posixpath.split p = (head, tail) ->
  truthy head = true -> isdir h head = true.
Proof.
  intros He Hs Hh.
  destruct (split_spec _ _ _ Hs) as [(_ & -> & _)|(a & k & Hr & Hak & _)];
    [discriminate|].
  destruct (rcut_spec _ _ _ Hr) as [Hp _].
  unfold exists_, stat in He. destruct (truthy p); [|discriminate].
  destruct (walk _ _ _ _) as [[l q]|] eqn:Hw; [|discriminate]. clear He.
  assert (Habs : startswith p "/" = startswith head "/").
  { rewrite Hp. change (a ++ String slash tail)%string
      with (a ++ (String slash "" ++ tail))%string.
    rewrite <- append_assoc', Hak, append_assoc'. now apply startswith_app. }
  rewrite from_root_split, (split_slash_rcut _ _ _ Hr), app_assoc in Hw.
  destruct (walk_prefix_dir _ _ _ _ _ _ _
              ((if startswith p "/" then [] else split_slash (cwd h))
               ++ split_slash head) k Hw) as (l1 & q1 & H1 & H2).
  - rewrite <- !app_assoc. f_equal.
    rewrite <- split_slash_slashes, <- Hak, split_slash_app. reflexivity.
  - unfold isdir, stat. rewrite Hh, from_root_split, <- Habs, H1, H2. reflexivity.
Qed.

Lemma isdir_exists h p : isdir h p = true -> exists_ h p = true.
Proof.
  unfold isdir, exists_. destruct (stat h p) as [[q [| |]]|]; congruence.
Qed.

Lemma makedirs_cut_isdir h p head tail :
  exists_ h p = true -> makedirs_cut p = (head, tail) ->
  truthy head = true -> isdir h head = true.
Proof.
  unfold makedirs_cut. intros He.
  destruct (posixpath.split p) as [h1 t1] eqn:E1.
  destruct (truthy t1).
  - intros H; injection H as <- <-. eapply isdir_head; eauto.
  - intros E2 Hh. destruct (truthy h1) eqn:Hh1.
    + eapply isdir_head; [|exact E2|exact Hh].
      apply isdir_exists. eapply isdir_head; eauto.
    + destruct h1; [|discriminate]. cbv in E2. injection E2 as <- <-. discriminate.
Qed.

Lemma split_tail_plain p head tail :
  plain p -> posixpath.split p = (head, tail) ->
  String.eqb tail "." = false \/ head = ""%string.
Proof.
  intros Hp Hs.
  destruct (split_spec _ _ _ Hs) as [(Hn & -> & ->)|(a & k & Hr & _ & _)];
    [now right|].
  left. apply String.eqb_neq. intros ->.
  destruct Hp as [Hp| ->]; [|discriminate].
  apply Hp. rewrite (split_slash_rcut _ _ _ Hr). apply in_or_app. right. now left.
Qed.

Lemma makedirs_cut_plain p head tail :
  plain p -> makedirs_cut p = (head, tail) ->
  String.eqb tail "." = false \/ head = ""%string.
Proof.
  unfold makedirs_cut. intros Hp.
  destruct (posixpath.split p) as [h1 t1] eqn:E1.
  destruct (truthy t1).
  - intros H; injection H as <- <-. eapply split_tail_plain; eauto.
  - intros E2. eapply split_tail_plain; [|exact E2].
    pose proof (dirname_plain _ Hp) as Hd. unfold posixpath.dirname in Hd.
    now rewrite E1 in Hd.
Qed.

Lemma makedirs_rec_eq fuel name exist_ok h :
  os_py.makedirs_rec (S fuel) name exist_ok h =
  let '(head, tail) := makedirs_cut name in
  if truthy head && truthy tail && negb (exists_ h head) then
    match os_py.makedirs_rec fuel head exist_ok h with
    | (Return _, h1) | (Raise (OSError EEXIST), h1) =>
        if String.eqb tail "." then (Return tt, h1)
        else makedirs_last name exist_ok h1
    | (Exit c, h1) => (Exit c, h1)
    | (Raise e, h1) => (Raise e, h1)
    end
  else makedirs_last name exist_ok h.
Proof.
  cbn [os_py.makedirs_rec]. unfold makedirs_cut, makedirs_last.
  destruct (posixpath.split name) as [h1 t1].
  destruct (if truthy t1 then (h1, t1) else posixpath.split h1) as [head tail].
  unfold bind at 1, get at 1.
  destruct (truthy head && truthy tail && negb (exists_ h head)).
  - unfold bind at 1. unfold bind at 1. unfold try_except.
    destruct (os_py.makedirs_rec fuel head exist_ok h) as [[[]|c|[[]| | |]] h'];
      try reflexivity; unfold ret;
      destruct (String.eqb tail "."); try reflexivity;
      unfold bind, get; destruct (mkdir h' name); try reflexivity;
      destruct (negb exist_ok || negb (isdir h' name)); reflexivity.
  - unfold bind, ret, get. destruct (mkdir h name); try reflexivity.
    destruct (negb exist_ok || negb (isdir h name)); reflexivity.
Qed.

(** When [makedirs] returns, the directory is there. *)
Lemma makedirs_last_isdir name h h' :
  makedirs_last name true h = (Return tt, h') -> isdir h' name = true.
Proof.
  unfold makedirs_last. destruct (mkdir h name) as [m|e] eqn:E.
  - intros H; injection H as <-. now apply mkdir_isdir.
  - simpl. destruct (isdir h name) eqn:Ed; simpl; [|discriminate].
    intros H; injection H as <-. exact Ed.
Qed.

Lemma makedirs_rec_isdir fuel name h h' :
  plain name ->
  os_py.makedirs_rec fuel name true h = (Return tt, h') -> isdir h' name = true.
Proof.
  intros Hp. destruct fuel as [|fuel]; [discriminate|].
  rewrite makedirs_rec_eq.
  destruct (makedirs_cut name) as [head tail] eqn:Ec.
  destruct (makedirs_cut_plain _ _ _ Hp Ec) as [Ht| ->].
  - rewrite Ht.
    destruct (truthy head && truthy tail && negb (exists_ h head));
      [|apply makedirs_last_isdir].
    destruct (os_py.makedirs_rec fuel head true h) as [[[]|c|[[]| | |]] h1];
      try discriminate; apply makedirs_last_isdir.
  - simpl. apply makedirs_last_isdir.
Qed.

(** On a directory that is there, [makedirs] returns and changes
    nothing. *)
Lemma makedirs_rec_isdir_noop fuel name h :
  isdir h name = true ->
  os_py.makedirs_rec (S fuel) name true h = (Return tt, h).
Proof.
  intros Hd. rewrite makedirs_rec_eq.
  destruct (makedirs_cut name) as [head tail] eqn:Ec.
  assert (Hc : truthy head && truthy tail && negb (exists_ h head) = false).
  { destruct (truthy head) eqn:Hh; [|reflexivity].
    rewrite (isdir_exists _ _ (makedirs_cut_isdir _ _ _ _ (isdir_exists _ _ Hd) Ec Hh)).
    now rewrite andb_false_r. }
  rewrite Hc. unfold makedirs_last.
  destruct (mkdir_exists _ _ (isdir_exists _ _ Hd)) as [e ->].
  now rewrite Hd.
Qed.

Lemma makedirs_twice name h h' :
  plain name ->
  os_py.makedirs name true h = (Return tt, h') ->
  forall e, os_py.makedirs name true (with_event h' e) = (Return tt, with_event h' e).
Proof.
  intros Hp H e. unfold os_py.makedirs in *.
  apply makedirs_rec_isdir_noop.
  change (isdir (with_event h' e) name) with (isdir h' name).
  eapply makedirs_rec_isdir; eauto.
Qed.

End Makedirs.

(** ** The bind-path resolver *)

(** [_create_bind] in one equation, for the three launchers. *)
Lemma create_bind_eq L name host is_dir ro h :
  create_bind L name host is_dir ro h =
  let h0 := with_event h (EvCreateBind name host is_dir) in
  let r := (bind_spec L h name host is_dir ro, container_path L h name host is_dir) in
  if makes_dir L name then
    match os_py.makedirs (made_dir L h host is_dir) true h0 with
    | (Return _, h1) => (Return r, h1)
    | (Exit c, h1) => (Exit c, h1)
    | (Raise e, h1) => (Raise e, h1)
    end
  else if checks_source L && negb (exists_ h (bind_source L h host is_dir)) then
    (Exit 1, with_event h0 (missing_source_error (bind_source L h host is_dir) name))
  else (Return r, h0).
Proof.
  destruct L; cbn [create_bind makes_dir checks_source andb];
    unfold Boltz._create_bind, Chai._create_bind, AlphaFold3._create_bind;
    unfold bind at 1; unfold emit at 1; unfold bind at 1; unfold get at 1;
    unfold bind_spec, container_path, made_dir, bind_source, bind_target,
      host_path_of, missing_source_error; cbn [root_mount];
    change (os_py.abspath (with_event h ?e)) with (os_py.abspath h);
    change (os_py.expanduser (with_event h ?e)) with (os_py.expanduser h).
  - destruct is_dir; unfold bind at 1;
      (destruct (Boltz.makes_dir name);
       [ destruct (os_py.makedirs _ _ _) as [[[]|c|e] h1]; destruct ro; reflexivity
       | unfold bind at 1; unfold get at 1;
         change (exists_ (with_event h ?e)) with (exists_ h);
         destruct (exists_ h _); destruct ro; reflexivity ]).
  - destruct is_dir; unfold bind at 1;
      (destruct (Chai.makes_dir name);
       [ destruct (os_py.makedirs _ _ _) as [[[]|c|e] h1]; reflexivity
       | unfold bind at 1; unfold get at 1;
         change (exists_ (with_event h ?e)) with (exists_ h);
         destruct (exists_ h _); reflexivity ]).
  - destruct is_dir; unfold bind at 1;
      (destruct (AlphaFold3.makes_dir name);
       [ destruct (os_py.makedirs _ _ _) as [[[]|c|e] h1]; reflexivity
       | reflexivity ]).
Qed.

(** What the resolver returns, when it returns. *)
Lemma create_bind_returned L name host is_dir ro h r :
  fst (create_bind L name host is_dir ro h) = Return r ->
  r = (bind_spec L h name host is_dir ro, container_path L h name host is_dir).
Proof.
  rewrite create_bind_eq. cbv zeta.
  destruct (makes_dir L name).
  - destruct (os_py.makedirs _ _ _) as [[[]|c|e] h1]; simpl; congruence.
  - destruct (_ && _); simpl; congruence.
Qed.

Lemma with_files_id h : with_files h (files h) = h.
Proof. destruct h; reflexivity. Qed.

(** [makedirs] changes the files only. *)
Lemma makedirs_last_frame p ok h o h' :
  makedirs_last p ok h = (o, h') -> h' = with_files h (files h').
Proof.
  unfold makedirs_last. destruct (mkdir h p).
  - intros H; injection H as <- <-. reflexivity.
  - destruct (_ || _); intros H; injection H as <- <-; now rewrite with_files_id.
Qed.

Lemma makedirs_rec_frame ok : forall fuel p h o h',
  os_py.makedirs_rec fuel p ok h = (o, h') -> h' = with_files h (files h').
Proof.
  induction fuel as [|fuel IH]; intros p h o h'.
  - intros H; injection H as <- <-. now rewrite with_files_id.
  - rewrite makedirs_rec_eq. destruct (makedirs_cut p) as [head tail].
    destruct (_ && _); [|apply makedirs_last_frame].
    destruct (os_py.makedirs_rec fuel head ok h) as [o1 h1] eqn:E.
    apply IH in E.
    assert (Hl : forall o h', makedirs_last p ok h1 = (o, h') ->
                              h' = with_files h (files h')).
    { intros o2 h2 H2. apply makedirs_last_frame in H2. rewrite H2, E. reflexivity. }
    destruct o1 as [[]|c|[[]| | |]];
      try (intros H; injection H as <- <-; exact E);
      (destruct (String.eqb tail "."); [intros H; injection H as <- <-; exact E|apply Hl]).
Qed.

Lemma length_append (a b : string) :
  String.length (a ++ b) = String.length a + String.length b.
Proof. induction a; simpl; congruence. Qed.

(** The recursion of [makedirs] ends within its fuel. *)
Lemma split_length p head tail :
  posixpath.split p = (head, tail) ->
  String.length head + String.length tail <= String.length p.
Proof.
  intros Hs.
  destruct (split_spec _ _ _ Hs) as [(_ & -> & ->)|(a & k & Hr & Hak & _)];
    [simpl; lia|].
  destruct (rcut_spec _ _ _ Hr) as [-> _].
  apply (f_equal String.length) in Hak.
  rewrite !length_append in *. simpl in *. lia.
Qed.

Lemma makedirs_cut_length p head tail :
  makedirs_cut p = (head, tail) -> truthy tail = true ->
  String.length head < String.length p.
Proof.
  unfold makedirs_cut. destruct (posixpath.split p) as [h1 t1] eqn:E1.
  pose proof (split_length _ _ _ E1) as L1.
  destruct (truthy t1) eqn:Ht1.
  - intros H; injection H as <- <-. intros _. destruct t1; [discriminate|simpl in *; lia].
  - intros E2 Ht. pose proof (split_length _ _ _ E2) as L2.
    destruct tail; [discriminate|simpl in *; lia].
Qed.

Lemma makedirs_rec_fuel ok : forall fuel p h,
  String.length p < fuel ->
  fst (os_py.makedirs_rec fuel p ok h) <> Raise RecursionError.
Proof.
  induction fuel as [|fuel IH]; intros p h Hl; [lia|].
  rewrite makedirs_rec_eq. destruct (makedirs_cut p) as [head tail] eqn:Ec.
  assert (Hlast : forall h, fst (makedirs_last p ok h) <> Raise RecursionError).
  { intros h1. unfold makedirs_last. destruct (mkdir h1 p); [discriminate|].
    destruct (_ || _); discriminate. }
  destruct (truthy head && truthy tail && negb (exists_ h head)) eqn:Hc; [|apply Hlast].
  apply andb_true_iff in Hc as [Hc _]. apply andb_true_iff in Hc as [_ Ht].
  pose proof (makedirs_cut_length _ _ _ Ec Ht) as Hlen.
  specialize (IH head h ltac:(lia)).
  destruct (os_py.makedirs_rec fuel head ok h) as [[[]|c|[[]| | |]] h1]; simpl in *;
    try discriminate; try congruence;
    destruct (String.eqb tail "."); try discriminate; apply Hlast.
Qed.

(** [os.makedirs] does not call [sys.exit]. *)
Lemma makedirs_rec_no_exit ok : forall fuel p h c,
  fst (os_py.makedirs_rec fuel p ok h) <> Exit c.
Proof.
  induction fuel as [|fuel IH]; intros p h c; [discriminate|].
  rewrite makedirs_rec_eq. destruct (makedirs_cut p) as [head tail].
  assert (Hlast : forall h, fst (makedirs_last p ok h) <> Exit c).
  { intros h1. unfold makedirs_last. destruct (mkdir h1 p); [discriminate|].
    destruct (_ || _); discriminate. }
  destruct (_ && _); [|apply Hlast].
  pose proof (IH head h) as IH'.
  destruct (os_py.makedirs_rec fuel head ok h) as [[[]|c'|[[]| | |]] h1]; simpl in *;
    try discriminate; try (now exfalso; apply (IH' c'));
    destruct (String.eqb tail "."); try discriminate; apply Hlast.
Qed.

Lemma makedirs_no_exit p ok h c : fst (os_py.makedirs p ok h) <> Exit c.
Proof. apply makedirs_rec_no_exit. Qed.

(** [os.makedirs] never runs out of fuel. *)
Lemma makedirs_total p ok h :
  fst (os_py.makedirs p ok h) <> Raise RecursionError.
Proof. apply makedirs_rec_fuel. lia. Qed.

(** *** Shapes of the paths *)

Lemma startswith_refl s : startswith s s = true.
Proof. induction s as [|c s IH]; simpl; [reflexivity|]. now rewrite Ascii.eqb_refl. Qed.

Lemma startswith_append s t : startswith (s ++ t) s = true.
Proof. induction s as [|c s IH]; simpl; [reflexivity|]. now rewrite Ascii.eqb_refl. Qed.

Lemma noslash_startswith t : noslash t = true -> startswith t "/" = false.
Proof.
  destruct t as [|c t]; simpl; [reflexivity|].
  intros H. apply andb_true_iff in H as [H _]. apply negb_true_iff in H.
  unfold slash in H. cbn [startswith]. now rewrite H.
Qed.

Lemma basename_noslash p : noslash (posixpath.basename p) = true.
Proof.
  unfold posixpath.basename. destruct (posixpath.split p) as [head tail] eqn:E.
  destruct (split_spec _ _ _ E) as [(Hn & _ & ->)|(a & k & Hr & _ & _)].
  - now apply rcut_none.
  - now destruct (rcut_spec _ _ _ Hr).
Qed.

Lemma join_under a b :
  startswith b "/" = false -> startswith (posixpath.join a b) a = true.
Proof.
  intros Hb. unfold posixpath.join. rewrite Hb.
  destruct (_ || _); apply startswith_append.
Qed.

Lemma bind_target_eq L name :
  bind_target L name =
  if startswith name "/" then name else root_mount L ++ name.
Proof. destruct L; reflexivity. Qed.

Lemma container_path_under L h name host is_dir :
  startswith (container_path L h name host is_dir) (bind_target L name) = true.
Proof.
  unfold container_path. destruct is_dir; [apply startswith_refl|].
  apply join_under, noslash_startswith, basename_noslash.
Qed.

Lemma made_dir_plain L h host is_dir : plain (made_dir L h host is_dir).
Proof.
  assert (Hp : plain (host_path_of L h host)) by (destruct L; apply normpath_plain).
  destruct L; cbn [made_dir]; try exact Hp;
    unfold bind_source; destruct is_dir; try exact Hp; now apply dirname_plain.
Qed.

Lemma bind_spec_eq L h name host is_dir ro :
  bind_spec L h name host is_dir ro =
  (bind_source L h host is_dir ++ ":" ++ bind_target L name) ++ ro_suffix L ro.
Proof.
  unfold bind_spec, ro_suffix.
  destruct L; try destruct ro; now rewrite ?append_nil_r.
Qed.

(** C8. The bind-path resolver is idempotent: when a call returns a
    bind string and a container path, the same call on the host as the
    first call left it returns the same bind string and container path,
    and does not fail on the directory the first call made; it changes
    nothing but the trace. *)
Theorem create_bind_idempotent (L : launcher_id) (h h1 : host)
        (mount_point_name host_path : string) (is_dir read_only : bool)
        (r : string * string) :
  create_bind L mount_point_name host_path is_dir read_only h = (Return r, h1) ->
  create_bind L mount_point_name host_path is_dir read_only h1 =
  (Return r, with_event h1 (EvCreateBind mount_point_name host_path is_dir)).
Proof.
  rewrite !create_bind_eq. cbv zeta.
  set (e := EvCreateBind mount_point_name host_path is_dir).
  destruct (makes_dir L mount_point_name) eqn:Hm.
  - destruct (os_py.makedirs _ _ (with_event h e)) as [[[]|c|x] h'] eqn:Hx;
      try discriminate.
    intros H; injection H as <- ->.
    pose proof (makedirs_rec_frame _ _ _ _ _ _ Hx) as Hf.
    assert (Hsame : forall p d, made_dir L h1 p d = made_dir L h p d
                                /\ bind_spec L h1 mount_point_name p d read_only
                                   = bind_spec L h mount_point_name p d read_only
                                /\ container_path L h1 mount_point_name p d
                                   = container_path L h mount_point_name p d).
    { intros p d. rewrite Hf. destruct L; repeat split; reflexivity. }
    destruct (Hsame host_path is_dir) as (-> & -> & ->).
    rewrite (makedirs_twice _ _ _ (made_dir_plain L h host_path is_dir) Hx e).
    reflexivity.
  - destruct (checks_source L && negb (exists_ h (bind_source L h host_path is_dir)))
      eqn:Hc; [discriminate|].
    intros H; injection H as <- <-.
    change (bind_source L (with_event h e) host_path is_dir)
      with (bind_source L h host_path is_dir).
    change (exists_ (with_event h e) ?p) with (exists_ h p).
    rewrite Hc. reflexivity.
Qed.

(** C10. For a file bind ([is_dir] false) of a mount the resolver does
    not make, only the parent directory of the file is looked for: when
    the parent exists and the file does not, the resolver returns
    without error, with the parent as the bind source and a container
    path that names the missing file. *)
Theorem file_bind_checks_parent_only (L : launcher_id) (h : host)
        (mount_point_name host_path : string) (read_only : bool) :
  let hp := host_path_of L h host_path in
  let target := posixpath.join (root_mount L) mount_point_name in
  makes_dir L mount_point_name = false ->
  exists_ h (posixpath.dirname hp) = true ->
  exists_ h hp = false ->
  create_bind L mount_point_name host_path false read_only h =
  (Return ((posixpath.dirname hp ++ ":" ++ target) ++ ro_suffix L read_only,
           posixpath.join target (posixpath.basename hp)),
   with_event h (EvCreateBind mount_point_name host_path false)).
Proof.
  intros hp target Hm Hparent _.
  rewrite create_bind_eq. cbv zeta. rewrite Hm, bind_spec_eq.
  unfold bind_source. fold hp. rewrite Hparent, andb_false_r. reflexivity.
Qed.

(** ** Comparing floats *)

Lemma SFcompare_lt_gt a b :
  SpecFloat.SFcompare a b = Some Lt -> SpecFloat.SFcompare b a = Some Gt.
Proof.
  destruct a as [s1|s1| |s1 m1 e1], b as [s2|s2| |s2 m2 e2]; simpl;
    try discriminate;
    try (destruct s1; try destruct s2; simpl; congruence).
  assert (Hm : Pos.compare_cont Eq m2 m1 = CompOpp (Pos.compare_cont Eq m1 m2))
    by (symmetry; apply (Pos.compare_cont_antisym m1 m2 Eq)).
  rewrite (Z.compare_antisym e1 e2), Hm.
  destruct s1, s2; simpl; try congruence;
    destruct (e1 ?= e2)%Z; simpl; try congruence;
    destruct (Pos.compare_cont Eq m1 m2); simpl; congruence.
Qed.

(** A float above another is not below or equal to it; a NaN is
    neither. *)
Lemma ltb_not_leb (x y : float) :
  PrimFloat.ltb x y = true -> PrimFloat.leb y x = false.
Proof.
  rewrite FloatAxioms.ltb_spec, FloatAxioms.leb_spec.
  unfold SpecFloat.SFltb, SpecFloat.SFleb.
  destruct (SpecFloat.SFcompare (FloatOps.Prim2SF x) (FloatOps.Prim2SF y))
    as [[]|] eqn:E; try discriminate.
  intros _. now rewrite (SFcompare_lt_gt _ _ E).
Qed.

(** ** Argument lists *)

Lemma count_tok_app t l1 l2 :
  count_tok t (l1 ++ l2)%list = (count_tok t l1 + count_tok t l2)%nat.
Proof. unfold count_tok. rewrite filter_app, length_app. reflexivity. Qed.

Lemma count_tok_one t x :
  count_tok t [x] = if String.eqb t x then 1%nat else 0%nat.
Proof. unfold count_tok. simpl. destruct (String.eqb t x); reflexivity. Qed.

Lemma emits_app n l1 l2 :
  emits n (l1 ++ l2)%list = emits n l1 || emits n l2.
Proof. unfold emits. apply existsb_app. Qed.

Lemma emits_one n x :
  emits n [x] = startswith x ("--" ++ n ++ "=").
Proof. unfold emits. simpl. apply orb_false_r. Qed.

Lemma emits_ite n (b : bool) x y :
  emits n [if b then x else y] =
  if b then startswith x ("--" ++ n ++ "=") else startswith y ("--" ++ n ++ "=").
Proof. destruct b; apply emits_one. Qed.

Lemma if_same {A} (b : bool) (x : A) : (if b then x else x) = x.
Proof. destruct b; reflexivity. Qed.

Lemma count_tok_if t (c : bool) x :
  count_tok t (if c then [x] else []) = if c && String.eqb t x then 1%nat else 0%nat.
Proof. destruct c; [apply count_tok_one|reflexivity]. Qed.

Lemma emits_if n (c : bool) x :
  emits n (if c then [x] else []) = c && startswith x ("--" ++ n ++ "=").
Proof. destruct c; [apply emits_one|reflexivity]. Qed.

Lemma count_tok_ite t (b : bool) x y :
  count_tok t [if b then x else y] =
  if b then (if String.eqb t x then 1 else 0)%nat else (if String.eqb t y then 1 else 0)%nat.
Proof. destruct b; apply count_tok_one. Qed.

Arguments str_int : simpl never.

Ltac tokens :=
  repeat rewrite count_tok_app; repeat rewrite emits_app;
  repeat rewrite count_tok_ite; repeat rewrite emits_ite;
  repeat rewrite count_tok_if; repeat rewrite emits_if;
  repeat rewrite count_tok_one; repeat rewrite emits_one;
  cbn [startswith String.eqb String.append Ascii.eqb Bool.eqb andb orb negb];
  rewrite ?if_same, ?andb_false_r, ?andb_true_r, ?orb_false_r.

Lemma boltz_toggles (sf : float -> string) (F : Boltz.flags) :
  Forall (fun t => Spec.exactly_one (Boltz.flag_args sf F) (toggle_value t F)
                     (enabled_token t) (disabled_token t)) Boltz.toggles.
Proof.
  unfold Boltz.toggles, Spec.exactly_one, Boltz.flag_args, Boltz.opt.
  repeat (apply Forall_cons || apply Forall_nil);
    cbn [toggle_value enabled_token disabled_token]; split.
  all: destruct (Boltz.seed F), (Boltz.use_msa_server F); tokens.
  all: destruct (Boltz.write_full_pae F), (Boltz.write_full_pde F), (Boltz.override F),
    (Boltz.enable_potentials F); reflexivity.
Qed.

Lemma af3_toggles (F : AlphaFold3.flags) :
  Forall (fun t => Spec.exactly_one (AlphaFold3.flag_args F) (toggle_value t F)
                     (enabled_token t) (disabled_token t)) AlphaFold3.toggles.
Proof.
  unfold AlphaFold3.toggles, Spec.exactly_one, AlphaFold3.flag_args.
  repeat (apply Forall_cons || apply Forall_nil);
    cbn [toggle_value enabled_token disabled_token]; split.
  all: destruct (AlphaFold3.num_seeds F);
    destruct (AlphaFold3.run_data_pipeline F), (AlphaFold3.run_inference F),
      (AlphaFold3.save_embeddings F), (AlphaFold3.force_output_dir F);
    reflexivity.
Qed.

Lemma chai_switches (F : Chai.flags) :
  Forall (fun s => count_tok (switch_token s) (Chai.flag_args F) =
                   if Bool.eqb (switch_value s F) (switch_default s) then 0%nat else 1%nat)
         Chai.switches.
Proof.
  unfold Chai.switches, Chai.flag_args, Chai.opt, Chai.tok.
  repeat (apply Forall_cons || apply Forall_nil);
    cbn [switch_value switch_default switch_token].
  all: destruct (Chai.seed F), (Chai.device F); tokens.
  all: destruct (Chai.use_esm_embeddings F), (Chai.use_msa_server F),
      (Chai.use_templates_server F), (Chai.low_memory F); reflexivity.
Qed.

(** ** The image check *)

Lemma filter_snoc {A} (f : A -> bool) l x :
  filter f (l ++ [x])%list = (filter f l ++ (if f x then [x] else []))%list.
Proof. rewrite filter_app. reflexivity. Qed.

Ltac trace_unchanged :=
  unfold bind_calls, executions; simpl;
  rewrite ?filter_snoc; simpl; rewrite ?app_nil_r; auto.

Lemma image_path_fallback (flag : option string) (env_path : string) :
  truthy_opt flag = false ->
  match flag with
  | Some p => if truthy p then p else env_path
  | None => env_path
  end = env_path.
Proof. destruct flag; simpl; intros H; [rewrite H|]; reflexivity. Qed.

(** C7. When the image-path flag is unset, the image-path variable is
    not in the environment and the path written in the script does not
    exist, every launcher ends with status 1; the resolver has not been
    called, the container has not been started and the files are as
    they were. *)
Theorem image_missing_exits (str_float : float -> string) (L : launcher_id)
        (F : flags_of L) (argv : list string) (h : host) :
  truthy_opt (image_flag L F) = false ->
  assoc (image_variable L) (environ h) = None ->
  exists_ h (image_fallback L) = false ->
  exit_status (fst (launcher str_float L F argv h)) = 1%Z
  /\ bind_calls (snd (launcher str_float L F argv h)) = bind_calls h
  /\ executions (snd (launcher str_float L F argv h)) = executions h
  /\ files (snd (launcher str_float L F argv h)) = files h.
Proof.
  intros Hflag Henv Hfile.
  destruct L; simpl in *.
  - unfold Boltz.launcher, import_spython, bind, get.
    destruct (spython h); simpl; [|trace_unchanged].
    unfold app_run. destruct (Boltz.input_data F); simpl; [|auto].
    unfold try_except, Boltz.main.
    destruct (1 <? length argv)%nat; simpl; [auto|].
    unfold bind, get.
    rewrite (image_path_fallback _ _ Hflag).
    unfold Boltz._BOLTZ_SIF_PATH. rewrite Henv, Hfile. simpl.
    trace_unchanged.
  - unfold Chai.launcher, import_spython, bind, get.
    destruct (spython h); simpl; [|trace_unchanged].
    unfold app_run. destruct (Chai.fasta_file F); simpl; [|auto].
    unfold try_except, Chai.main.
    destruct (1 <? length argv)%nat; simpl; [auto|].
    unfold bind, get.
    rewrite (image_path_fallback _ _ Hflag).
    unfold Chai._CHAI_SIF_PATH. rewrite Henv, Hfile. simpl.
    trace_unchanged.
  - unfold AlphaFold3.launcher, import_spython, bind, get.
    destruct (spython h); simpl; [|trace_unchanged].
    unfold AlphaFold3._ALPHAFOLD3_SIF_PATH. rewrite Henv, Hfile. simpl.
    trace_unchanged.
Qed.

(** ** The host path, a missing source, the output directory *)

(** *** The normal form of the host path *)

Lemma startswith_app_l s t p :
  startswith s p = true -> startswith (s ++ t) p = true.
Proof.
  revert s; induction p as [|c p IH]; intros s; simpl; [reflexivity|].
  destruct s as [|d s]; simpl; [discriminate|].
  intros H. apply andb_true_iff in H as [-> H]. simpl. now apply IH.
Qed.

Lemma normpath_abs x :
  startswith x "/" = true -> startswith (posixpath.normpath x) "/" = true.
Proof.
  intros Hx. unfold posixpath.normpath, posixpath.initial_slashes.
  destruct x as [|c x]; [discriminate|]. cbn [truthy negb]. rewrite Hx.
  destruct (_ && _); reflexivity.
Qed.

Lemma abspath_abs cwd p :
  startswith cwd "/" = true -> startswith (posixpath.abspath cwd p) "/" = true.
Proof.
  intros Hc. unfold posixpath.abspath, posixpath.isabs. apply normpath_abs.
  destruct (startswith p "/") eqn:Hp; [exact Hp|].
  unfold posixpath.join. rewrite Hp.
  destruct (_ || _); now apply startswith_app_l.
Qed.

(** C6, as amended. Before it computes the bind source and the
    container path, the resolver brings the host path to an absolute,
    lexically normalised form: whenever [_create_bind] returns, the
    bind source and the container path it returns are computed from
    [os.path.normpath] of the path, joined to the working directory when
    relative (in Boltz after [expanduser]); no component of that form is
    a dot; it is absolute when the working directory is; and it does
    not depend on the file system: on any other files, the same call
    returns the same pair when it returns, so that symbolic links are
    not expanded. *)
Theorem host_path_normal_form (L : launcher_id) (h : host)
        (mount_point_name host_path : string) (is_dir read_only : bool)
        (spec path : string) :
  fst (create_bind L mount_point_name host_path is_dir read_only h)
  = Return (spec, path) ->
  let target := posixpath.join (root_mount L) mount_point_name in
  exists hp,
    hp = posixpath.normpath
           (let p := match L with
                     | LBoltz => os_py.expanduser h host_path
                     | LChai | LAlphaFold3 => host_path
                     end in
            if posixpath.isabs p then p else posixpath.join (cwd h) p)
    /\ plain hp
    /\ (posixpath.isabs (cwd h) = true -> posixpath.isabs hp = true)
    /\ spec = ((if is_dir then hp else posixpath.dirname hp) ++ ":" ++ target)
              ++ ro_suffix L read_only
    /\ path = (if is_dir then target
               else posixpath.join target (posixpath.basename hp))
    /\ forall (m : fs) r,
         fst (create_bind L mount_point_name host_path is_dir read_only
                (with_files h m)) = Return r ->
         r = (spec, path).
Proof.
  intros Hr target. apply create_bind_returned in Hr.
  exists (host_path_of L h host_path).
  split; [destruct L; reflexivity|].
  split; [destruct L; apply normpath_plain|].
  split; [intros Hc; destruct L; now apply abspath_abs|].
  rewrite bind_spec_eq in Hr. injection Hr as -> ->.
  split; [reflexivity|]. split; [reflexivity|].
  intros m r Hm. apply create_bind_returned in Hm. rewrite Hm, bind_spec_eq.
  destruct L; reflexivity.
Qed.

Lemma host_path_normal_form_witness :
  fst (create_bind LBoltz "input_data" "~/../user/./input.yaml" false true
         Sample.host0)
  = Return ("/home/user:/mnt_launcher/input_data:ro",
            "/mnt_launcher/input_data/input.yaml")
  /\ exists hp,
       hp = "/home/user/input.yaml"
       /\ "/home/user:/mnt_launcher/input_data:ro"
          = (posixpath.dirname hp ++ ":" ++ "/mnt_launcher/input_data") ++ ":ro"
       /\ forall (m : fs) r,
            fst (create_bind LBoltz "input_data" "~/../user/./input.yaml" false
                   true (with_files Sample.host0 m)) = Return r ->
            r = ("/home/user:/mnt_launcher/input_data:ro",
                 "/mnt_launcher/input_data/input.yaml").
Proof.
  split; [reflexivity|].
  destruct (host_path_normal_form LBoltz Sample.host0 "input_data"
              "~/../user/./input.yaml" false true _ _ eq_refl)
    as (hp & Hhp & _ & _ & Hs & _ & Hm).
  exists hp. split; [exact Hhp|]. split; [exact Hs|exact Hm].
Defined.

(** C6, the counterexample: [/link] is a symbolic link to [/data]; the
    host path of [/link/protein.fasta] stays under [/link] in the three
    launchers, while its symlink-expanded form is
    [/data/protein.fasta]. *)
Lemma host_path_keeps_symlinks :
  SpecLinks.realpath Sample.host0 "/link/protein.fasta" = Some "/data/protein.fasta"
  /\ host_path_of LBoltz Sample.host0 "/link/protein.fasta" = "/link/protein.fasta"
  /\ SpecLinks.symlink_expanded Sample.host0
       (host_path_of LBoltz Sample.host0 "/link/protein.fasta") = false
  /\ fst (create_bind LBoltz "input_data" "/link/protein.fasta" false true Sample.host0)
     = Return ("/link:/mnt_launcher/input_data:ro",
               "/mnt_launcher/input_data/protein.fasta")
  /\ fst (create_bind LChai "fasta" "/link/protein.fasta" false false Sample.host0)
     = Return ("/link:/mnt/fasta", "/mnt/fasta/protein.fasta")
  /\ fst (create_bind LAlphaFold3 "json_input" "/link/fold_input.json" false false
                      Sample.host0)
     = Return ("/link:/mnt/json_input", "/mnt/json_input/fold_input.json").
Proof. repeat split; vm_compute; reflexivity. Qed.

(** *** A missing source *)

(** Where the resolver looks for the source, a source that is missing
    ends the run with status 1, whatever was to follow. *)
Lemma create_bind_missing_source_fatal (L : launcher_id) (h : host)
      (mount_point_name host_path : string) (is_dir read_only : bool)
      (B : Type) (rest : string * string -> M B) :
  checks_source L = true ->
  makes_dir L mount_point_name = false ->
  exists_ h (bind_source L h host_path is_dir) = false ->
  (r <- create_bind L mount_point_name host_path is_dir read_only ;; rest r) h =
  (Exit 1,
   with_event (with_event h (EvCreateBind mount_point_name host_path is_dir))
              (missing_source_error (bind_source L h host_path is_dir)
                                    mount_point_name)).
Proof.
  intros Hc Hm He. unfold bind. rewrite create_bind_eq. cbv zeta.
  now rewrite Hm, Hc, He.
Qed.

(** C1. The model directory [/nonexistent/models] does not exist and
    [models] is not a mount the resolver makes. The resolvers of Boltz
    and Chai Lab end the run with status 1; the resolver of AlphaFold 3
    returns a bind for the missing path, and the launcher goes on to
    start the container with that bind. *)
Theorem alphafold3_bind_missing_source :
  let h := Sample.host0 in
  let F := Sample.alphafold3_flags in
  AlphaFold3.model_dir F = Some "/nonexistent/models"
  /\ exists_ h "/nonexistent/models" = false
  /\ AlphaFold3.makes_dir "models" = false
  /\ fst (Boltz._create_bind "models" "/nonexistent/models" true false h) = Exit 1
  /\ fst (Chai._create_bind "models" "/nonexistent/models" true h) = Exit 1
  /\ AlphaFold3._create_bind "models" "/nonexistent/models" true h =
     (Return ("/nonexistent/models:/mnt/models", "/mnt/models"),
      with_event h (EvCreateBind "models" "/nonexistent/models" true))
  /\ fst (AlphaFold3.launcher F ["run_alphafold3_launcher.py"] h) = Return tt
  /\ executions (snd (AlphaFold3.launcher F ["run_alphafold3_launcher.py"] h)) =
     [EvExecute "/images/tool.sif"
        ["python"; "/app/run_alphafold.py";
         "--json_path=/mnt/json_input/fold_input.json";
         "--output_dir=/mnt/output"; "--model_dir=/mnt/models";
         "--db_dir=/mnt/db_0"; "--run_data_pipeline=true";
         "--run_inference=true"; "--conformer_max_iterations=10000";
         "--jackhmmer_n_cpu=8"; "--nhmmer_n_cpu=8";
         "--max_template_date=2021-09-30"; "--num_recycles=10";
         "--num_diffusion_samples=5";
         "--flash_attention_implementation=triton";
         "--save_embeddings=false"; "--force_output_dir=false";
         "--logtostderr"]
        ["--bind";
         "/data:/mnt/json_input,/out:/mnt/output,/nonexistent/models:/mnt/models,/db:/mnt/db_0,/tmp:/mnt/tmp";
         "--env"; "NVIDIA_VISIBLE_DEVICES=all"]
        true].
Proof. repeat split; vm_compute; reflexivity. Qed.

(** *** The output directory of Chai Lab *)





(** ** The commands a run starts *)

Section StartsOnly.

Local Open Scope list_scope.

Variable good : list string -> Prop.

Lemma commands_app a b : commands (a ++ b) = commands a ++ commands b.
Proof.
  induction a as [|e a IH]; [reflexivity|].
  destruct e; simpl; rewrite ?IH; reflexivity.
Qed.

Lemma starts_only_ret {A} (post : A -> Prop) a :
  post a -> starts_only good post (ret a).
Proof.
  intros Hp h. split; [|exact Hp].
  exists []. simpl. now rewrite app_nil_r.
Qed.

Lemma starts_only_stop {A} (post : A -> Prop) (m : M A) :
  (forall h, snd (m h) = h /\ match fst (m h) with Return _ => False | _ => True end) ->
  starts_only good post m.
Proof.
  intros H h. destruct (H h) as [Hs Ho]. split.
  - exists []. rewrite Hs, app_nil_r. now split.
  - destruct (fst (m h)); [contradiction|exact I|exact I].
Qed.

Lemma starts_only_exit {A} (post : A -> Prop) c : starts_only good post (sys_exit c).
Proof. apply starts_only_stop. intros h. now split. Qed.

Lemma starts_only_raise {A} (post : A -> Prop) e : starts_only good post (raise e).
Proof. apply starts_only_stop. intros h. now split. Qed.

Lemma starts_only_get : starts_only good (fun _ => True) get.
Proof. intros h. split; [|exact I]. exists []. simpl. now rewrite app_nil_r. Qed.

Lemma starts_only_emit e :
  Forall good (commands [e]) -> starts_only good (fun _ => True) (emit e).
Proof. intros He h. split; [|exact I]. exists [e]. now split. Qed.

Lemma starts_only_weaken {A} (post post' : A -> Prop) m :
  (forall a, post a -> post' a) ->
  starts_only good post m -> starts_only good post' m.
Proof.
  intros Hw Hm h. destruct (Hm h) as [He Hp]. split; [exact He|].
  destruct (fst (m h)); auto.
Qed.

Lemma starts_only_bind {A B} (mid : A -> Prop) (post : B -> Prop) m (k : A -> M B) :
  starts_only good mid m ->
  (forall a, mid a -> starts_only good post (k a)) ->
  starts_only good post (bind m k).
Proof.
  intros Hm Hk h. unfold bind. destruct (Hm h) as [(evs & Ht & Hg) Hp].
  destruct (m h) as [[a|c|e] h1]; simpl in *.
  - destruct (Hk a Hp h1) as [(evs' & Ht' & Hg') Hp']. split; [|exact Hp'].
    exists (evs ++ evs'). rewrite Ht', Ht, app_assoc, commands_app.
    split; [reflexivity|]. apply Forall_app. now split.
  - split; [|exact I]. now exists evs.
  - split; [|exact I]. now exists evs.
Qed.

Lemma starts_only_try {A} (post : A -> Prop) body handler :
  starts_only good post body ->
  (forall e k, handler e = Some k -> starts_only good post k) ->
  starts_only good post (try_except body handler).
Proof.
  intros Hb Hh h. unfold try_except. destruct (Hb h) as [(evs & Ht & Hg) Hp].
  destruct (body h) as [[a|c|e] h1]; simpl in *.
  - split; [now exists evs|exact Hp].
  - split; [now exists evs|exact I].
  - destruct (handler e) as [k|] eqn:Ek.
    + destruct (Hh e k Ek h1) as [(evs' & Ht' & Hg') Hp']. split; [|exact Hp'].
      exists (evs ++ evs'). rewrite Ht', Ht, app_assoc, commands_app.
      split; [reflexivity|]. apply Forall_app. now split.
    + split; [now exists evs|exact I].
Qed.

(** A step that leaves the trace as it is. *)
Lemma starts_only_silent {A} (m : M A) :
  (forall h, trace (snd (m h)) = trace h) ->
  starts_only good (fun _ => True) m.
Proof.
  intros H h. split.
  - exists []. rewrite H, app_nil_r. now split.
  - now destruct (fst (m h)).
Qed.

Lemma starts_only_makedirs p ok :
  starts_only good (fun _ => True) (os_py.makedirs p ok).
Proof.
  apply starts_only_silent. intros h.
  destruct (os_py.makedirs p ok h) as [o h'] eqn:E.
  apply makedirs_rec_frame in E. simpl. now rewrite E.
Qed.

Lemma starts_only_syscall {A} (r : res A) :
  starts_only good (fun _ => True) (syscall r).
Proof. destruct r; [now apply starts_only_ret|apply starts_only_raise]. Qed.

Lemma starts_only_set_files m : starts_only good (fun _ => True) (set_files m).
Proof. apply starts_only_silent. reflexivity. Qed.

(** The resolver starts nothing, and the container path it returns is
    under the bind target. *)
Lemma starts_only_create_bind L name host is_dir ro :
  starts_only good
    (fun r => startswith (snd r) (bind_target L name) = true)
    (create_bind L name host is_dir ro).
Proof.
  intros h. rewrite create_bind_eq. cbv zeta.
  pose proof (container_path_under L h name host is_dir) as Hu.
  destruct (makes_dir L name).
  - destruct (os_py.makedirs _ _ _) as [o h1] eqn:E.
    apply makedirs_rec_frame in E.
    assert (Ht : exists evs, trace h1 = trace h ++ evs /\ Forall good (commands evs)).
    { exists [EvCreateBind name host is_dir]. rewrite E. now split. }
    destruct o as [[]|c|e]; simpl; split; auto.
  - destruct (_ && _); simpl; split; auto.
    + exists [EvCreateBind name host is_dir; missing_source_error
               (bind_source L h host is_dir) name].
      rewrite <- app_assoc. now split.
    + exists [EvCreateBind name host is_dir]. now split.
Qed.

(** Starting the container with a good command. *)
Lemma starts_only_execute image command nv options :
  good command ->
  starts_only good (fun _ => True)
              (Client.execute_and_print image command nv options).
Proof.
  intros Hc. unfold Client.execute_and_print.
  eapply starts_only_bind; [apply starts_only_emit; simpl; now constructor|].
  intros _ _. eapply starts_only_bind; [apply starts_only_get|].
  intros h _. eapply starts_only_bind; [apply starts_only_set_files|].
  intros _ _. eapply starts_only_bind with (mid := fun _ => True).
  - induction (container_lines h) as [|l r IH]; [now apply starts_only_ret|].
    eapply starts_only_bind; [apply starts_only_emit; constructor|].
    intros _ _. exact IH.
  - intros _ _. destruct (container_fails h);
      [apply starts_only_raise|now apply starts_only_ret].
Qed.

(** What [starts_only] says of the commands of a run. *)
Lemma starts_only_commands {A} (post : A -> Prop) (m : M A) h :
  starts_only good post m -> Forall good (commands_run h (snd (m h))).
Proof.
  intros Hm. destruct (Hm h) as [(evs & Ht & Hg) _].
  unfold commands_run. rewrite Ht, skipn_app, skipn_all, Nat.sub_diag. exact Hg.
Qed.

End StartsOnly.

Lemma startswith_trans s p q :
  startswith s p = true -> startswith p q = true -> startswith s q = true.
Proof.
  revert s p; induction q as [|c q IH]; intros s p; simpl; [reflexivity|].
  destruct p as [|d p]; [discriminate|]. simpl.
  destruct s as [|e s]; [discriminate|].
  intros H1 H2. apply andb_true_iff in H1 as [E1 H1]. apply andb_true_iff in H2 as [E2 H2].
  apply Ascii.eqb_eq in E1, E2. subst. rewrite Ascii.eqb_refl. simpl. eauto.
Qed.

(** A container path is a path argument. *)
Lemma container_path_arg L name p :
  startswith name "/" = false ->
  startswith p (bind_target L name) = true -> path_arg L p = true.
Proof.
  intros Hn Hp. unfold path_arg, path_prefixes. cbn [existsb].
  rewrite (startswith_trans _ _ "/" Hp); [reflexivity|].
  rewrite bind_target_eq, Hn. destruct L; reflexivity.
Qed.


Ltac quiet_step L :=
  first
    [ apply starts_only_get
    | apply starts_only_emit; simpl; constructor
    | apply starts_only_makedirs
    | apply starts_only_exit
    | apply starts_only_raise
    | apply (starts_only_create_bind _ L _ _ _ false)
    | apply starts_only_ret; exact I ].

Ltac steps L :=
  repeat first
    [ quiet_step L
    | eapply starts_only_bind; [solve [quiet_step L]|]; intros ].

Section Commands.

Variable str_float : float -> string.

Lemma starts_only_import good :
  starts_only good (fun _ => True) import_spython.
Proof.
  unfold import_spython. eapply starts_only_bind; [apply starts_only_get|].
  intros h _. destruct (spython h); [now apply starts_only_ret|].
  steps LBoltz.
Qed.

Lemma starts_only_app_run good required main :
  starts_only good (fun _ => True) main ->
  starts_only good (fun _ => True) (app_run required main).
Proof.
  intros Hm. unfold app_run. destruct required; [|apply starts_only_exit].
  apply starts_only_try; [exact Hm|].
  intros e k. destruct e; try discriminate. intros H; injection H as <-.
  apply starts_only_exit.
Qed.

Lemma starts_only_load good image :
  starts_only good (fun _ => True) (Client.load image).
Proof.
  unfold Client.load. steps LBoltz.
  destruct (image_loads _ image); steps LBoltz.
Qed.

Lemma boltz_main_commands F argv :
  starts_only (command_shape str_float LBoltz F) (fun _ => True)
              (Boltz.main str_float F argv).
Proof.
  set (good := command_shape str_float LBoltz F).
  unfold Boltz.main.
  destruct (1 <? length argv)%nat; [apply starts_only_raise|].
  eapply starts_only_bind; [apply starts_only_get|]. intros h _.
  set (sif := match Boltz.sif_path F with
              | Some p => if truthy p then p else Boltz._BOLTZ_SIF_PATH h
              | None => Boltz._BOLTZ_SIF_PATH h end).
  eapply starts_only_bind with (mid := fun _ => True).
  { destruct (negb (exists_ h sif)); steps LBoltz. }
  intros _ _.
  eapply starts_only_bind with (mid := fun _ => True).
  { apply starts_only_try; [apply starts_only_load|].
    intros e k H; injection H as <-. steps LBoltz. }
  intros _ _.
  destruct (Boltz.input_data F) as [input|]; [|apply starts_only_raise].
  destruct (negb (truthy input)); [apply starts_only_raise|].
  eapply starts_only_bind; [apply starts_only_get|]. intros h1 _.
  eapply starts_only_bind; [apply (starts_only_create_bind _ LBoltz)|].
  intros [spec_in cin] Hin.
  eapply starts_only_bind; [apply starts_only_makedirs|]. intros _ _.
  eapply starts_only_bind; [apply (starts_only_create_bind _ LBoltz)|].
  intros [spec_out cout] Hout.
  eapply starts_only_bind; [apply starts_only_makedirs|]. intros _ _.
  eapply starts_only_bind; [apply (starts_only_create_bind _ LBoltz)|].
  intros [spec_cache ccache] Hcache.
  eapply starts_only_bind with
    (mid := fun r => exists pre,
                snd r = app ["--out_dir=" ++ cout; "--cache=" ++ ccache] pre
                /\ Forall (fun t => path_arg LBoltz t = true) pre).
  { destruct (truthy_opt (Boltz.checkpoint F)).
    - eapply starts_only_bind; [apply starts_only_get|]. intros h2 _.
      destruct (negb (isfile h2 _)); [steps LBoltz|].
      eapply starts_only_bind; [apply (starts_only_create_bind _ LBoltz)|].
      intros [spec_ck cck] Hck. apply starts_only_ret.
      exists ["--checkpoint=" ++ cck]. split; [reflexivity|].
      repeat constructor.
    - apply starts_only_ret. exists []. split; [reflexivity|constructor]. }
  intros [binds args] (pre & Hargs & Hpre). simpl in Hargs. subst args.
  eapply starts_only_bind; [apply starts_only_get|]. intros h3 _.
  eapply starts_only_bind; [apply (starts_only_create_bind _ LBoltz)|].
  intros [spec_tmp ctmp] Htmp.
  apply starts_only_try.
  - apply starts_only_execute.
    exists (app ["boltz"; "predict"; cin]
                (app ["--out_dir=" ++ cout; "--cache=" ++ ccache] pre)).
    split; [now rewrite <- !app_assoc|].
    repeat (apply Forall_cons || apply Forall_app || split); try reflexivity;
      try exact Hpre.
    eapply (container_path_arg LBoltz "input_data"); [reflexivity|exact Hin].
  - intros e k H; injection H as <-. steps LBoltz.
Qed.

Lemma chai_choose_output_dir good F :
  starts_only good (fun _ => True) (Chai.choose_output_dir F).
Proof.
  unfold Chai.choose_output_dir.
  eapply starts_only_bind; [apply starts_only_get|]. intros h _.
  eapply starts_only_bind with (mid := fun _ => True).
  { destruct (exists_ h _); [|now apply starts_only_ret].
    eapply starts_only_bind; [apply starts_only_syscall|].
    intros names _. now apply starts_only_ret. }
  intros nonempty _. destruct (nonempty && _); steps LChai.
Qed.

Lemma chai_bind_optional good path mount name is_dir acc :
  Forall (fun t => path_arg LChai t = true) (snd acc) ->
  path_arg LChai ("--" ++ name ++ "=") = true ->
  (forall p, path_arg LChai ("--" ++ name ++ "=") = true ->
             path_arg LChai ("--" ++ name ++ "=" ++ p) = true) ->
  starts_only good (fun r => Forall (fun t => path_arg LChai t = true) (snd r))
              (Chai.bind_optional path mount name is_dir acc).
Proof.
  intros Hacc Hn Hp. unfold Chai.bind_optional. destruct acc as [binds args].
  destruct path as [p|]; [|now apply starts_only_ret].
  destruct (truthy p); [|now apply starts_only_ret].
  eapply starts_only_bind; [apply (starts_only_create_bind _ LChai _ _ _ false)|].
  intros [spec cp] _. apply starts_only_ret. simpl in *.
  unfold append. apply Forall_app. split; [exact Hacc|].
  constructor; [now apply Hp|constructor].
Qed.

Lemma chai_main_commands F argv :
  starts_only (command_shape str_float LChai F) (fun _ => True) (Chai.main F argv).
Proof.
  unfold Chai.main.
  destruct (1 <? length argv)%nat; [apply starts_only_raise|].
  eapply starts_only_bind; [apply starts_only_get|]. intros h _.
  set (sif := match Chai.sif_path F with
              | Some p => if truthy p then p else Chai._CHAI_SIF_PATH h
              | None => Chai._CHAI_SIF_PATH h end).
  eapply starts_only_bind with (mid := fun _ => True).
  { destruct (negb (exists_ h sif)); steps LChai. }
  intros _ _.
  eapply starts_only_bind with (mid := fun _ => True).
  { apply starts_only_try; [apply starts_only_load|].
    intros e k H; injection H as <-. steps LChai. }
  intros _ _.
  destruct (negb (truthy_opt (Chai.fasta_file F))); [apply starts_only_raise|].
  destruct (negb (truthy (Chai.output_dir F))); [apply starts_only_raise|].
  eapply starts_only_bind; [apply (starts_only_create_bind _ LChai _ _ _ false)|].
  intros [spec_in cin] Hin.
  eapply starts_only_bind; [apply chai_choose_output_dir|]. intros actual _.
  eapply starts_only_bind; [apply starts_only_makedirs|]. intros _ _.
  eapply starts_only_bind; [apply (starts_only_create_bind _ LChai _ _ _ false)|].
  intros [spec_out cout] Hout.
  eapply starts_only_bind;
    [apply chai_bind_optional; [constructor|reflexivity|intros; reflexivity]|].
  intros acc1 H1.
  eapply starts_only_bind;
    [apply chai_bind_optional; [exact H1|reflexivity|intros; reflexivity]|].
  intros acc2 H2.
  eapply starts_only_bind;
    [apply chai_bind_optional; [exact H2|reflexivity|intros; reflexivity]|].
  intros [binds args] H3. simpl in H3.
  eapply starts_only_bind; [apply starts_only_get|]. intros h3 _.
  eapply starts_only_bind; [apply (starts_only_create_bind _ LChai _ _ _ false)|].
  intros [spec_tmp ctmp] Htmp.
  apply starts_only_try.
  - apply starts_only_execute.
    exists (app ["chai-lab"; "fold"; cin; cout] args).
    split; [now rewrite <- !app_assoc|].
    repeat (apply Forall_cons || apply Forall_app || split); try reflexivity;
      try exact H3.
    + eapply (container_path_arg LChai "fasta"); [reflexivity|exact Hin].
    + eapply (container_path_arg LChai "output"); [reflexivity|exact Hout].
  - intros e k H; injection H as <-. steps LChai.
Qed.

Lemma alphafold3_bind_db_dirs good : forall dbs i acc,
  Forall (fun t => path_arg LAlphaFold3 t = true) (snd acc) ->
  starts_only good (fun r => Forall (fun t => path_arg LAlphaFold3 t = true) (snd r))
              (AlphaFold3.bind_db_dirs i dbs acc).
Proof.
  induction dbs as [|db dbs IH]; intros i [binds args] Hacc; simpl.
  - now apply starts_only_ret.
  - eapply starts_only_bind; [apply (starts_only_create_bind _ LAlphaFold3 _ _ _ false)|].
    intros [spec cp] _. apply IH. simpl in *. unfold append.
    apply Forall_app. split; [exact Hacc|]. now repeat constructor.
Qed.

Lemma alphafold3_main_commands F argv :
  starts_only (command_shape str_float LAlphaFold3 F) (fun _ => True)
              (AlphaFold3.main F argv).
Proof.
  unfold AlphaFold3.main.
  destruct (1 <? length argv)%nat; [apply starts_only_raise|].
  destruct (_ && _); [apply starts_only_raise|].
  eapply starts_only_bind with (mid := fun _ => True).
  { destruct (_ && _); steps LAlphaFold3. }
  intros _ _.
  destruct (negb (truthy_opt (AlphaFold3.model_dir F))); [apply starts_only_raise|].
  destruct (AlphaFold3.db_dir F) as [[|db dbs]|]; try apply starts_only_raise.
  eapply starts_only_bind with
    (mid := fun r => Forall (fun t => path_arg LAlphaFold3 t = true) (snd r)).
  { destruct (truthy_opt (AlphaFold3.input_dir F)).
    - eapply starts_only_bind; [apply (starts_only_create_bind _ LAlphaFold3 _ _ _ false)|].
      intros [spec cp] _. apply starts_only_ret. now repeat constructor.
    - destruct (truthy_opt (AlphaFold3.json_path F)).
      + eapply starts_only_bind; [apply (starts_only_create_bind _ LAlphaFold3 _ _ _ false)|].
        intros [spec cp] _. apply starts_only_ret. now repeat constructor.
      + apply starts_only_ret. constructor. }
  intros [binds args] H0. simpl in H0.
  eapply starts_only_bind; [apply (starts_only_create_bind _ LAlphaFold3 _ _ _ false)|].
  intros [spec_out cout] _.
  eapply starts_only_bind; [apply (starts_only_create_bind _ LAlphaFold3 _ _ _ false)|].
  intros [spec_m cm] _.
  eapply starts_only_bind.
  { apply alphafold3_bind_db_dirs. simpl. unfold append.
    repeat (apply Forall_app; split); try exact H0; now repeat constructor. }
  intros [binds' args'] H1. simpl in H1.
  eapply starts_only_bind; [apply starts_only_get|]. intros h3 _.
  eapply starts_only_bind; [apply (starts_only_create_bind _ LAlphaFold3 _ _ _ false)|].
  intros [spec_tmp ctmp] _.
  apply starts_only_try.
  - apply starts_only_execute.
    exists (app ["python"; "/app/run_alphafold.py"] args').
    split; [now rewrite <- !app_assoc|].
    repeat (apply Forall_cons || apply Forall_app || split); try reflexivity;
      exact H1.
  - intros e k H; injection H as <-.
    eapply starts_only_bind; [apply starts_only_emit; constructor|]. intros _ _.
    eapply starts_only_bind with (mid := fun _ => True); [|intros; apply starts_only_exit].
    apply starts_only_try.
    + eapply starts_only_bind; [apply starts_only_get|]. intros h4 _.
      destruct (_ && _); [|now apply starts_only_ret].
      eapply starts_only_bind; [apply starts_only_syscall|]. intros names _.
      destruct names; [|now apply starts_only_ret].
      eapply starts_only_bind; [apply starts_only_syscall|]. intros m _.
      apply starts_only_set_files.
    + intros e' k'. destruct e'; try discriminate. intros H; injection H as <-.
      apply starts_only_emit. constructor.
Qed.

(** Every command a launcher starts is made of path arguments followed
    by the tokens of its flags. *)
Lemma launcher_commands (L : launcher_id) (F : flags_of L) argv :
  starts_only (command_shape str_float L F) (fun _ => True)
              (launcher str_float L F argv).
Proof.
  destruct L; cbn [launcher].
  - unfold Boltz.launcher.
    eapply starts_only_bind; [apply starts_only_import|]. intros _ _.
    apply starts_only_app_run, boltz_main_commands.
  - unfold Chai.launcher.
    eapply starts_only_bind; [apply starts_only_import|]. intros _ _.
    apply starts_only_app_run, chai_main_commands.
  - unfold AlphaFold3.launcher.
    eapply starts_only_bind; [apply starts_only_import|]. intros _ _.
    eapply starts_only_bind; [apply starts_only_get|]. intros h _.
    eapply starts_only_bind with (mid := fun _ => True).
    { destruct (negb (exists_ h _)); steps LAlphaFold3. }
    intros _ _.
    eapply starts_only_bind with (mid := fun _ => True).
    { apply starts_only_try; [apply starts_only_load|].
      intros e k H; injection H as <-. steps LAlphaFold3. }
    intros _ _. apply starts_only_app_run, alphafold3_main_commands.
Qed.

End Commands.

(** ** The claims about the command *)

(** *** From the tokens of the flags to the whole command *)

(** Two prefixes of one string: one is a prefix of the other. *)
Lemma startswith_both t : forall p q,
  startswith t p = true -> startswith t q = true ->
  startswith p q = true \/ startswith q p = true.
Proof.
  induction t as [|c t IH]; intros [|d p] [|e q]; simpl; auto; try discriminate.
  intros H1 H2. apply andb_true_iff in H1 as [E1 H1]. apply andb_true_iff in H2 as [E2 H2].
  apply Ascii.eqb_eq in E1, E2. subst. rewrite Ascii.eqb_refl. simpl. now apply IH.
Qed.

Lemma startswith_eqb t q : String.eqb t q = true -> startswith t q = true.
Proof. intros H. apply String.eqb_eq in H. subst. apply startswith_refl. Qed.

Lemma apart_path_arg L q t :
  apart L q = true -> path_arg L t = true -> startswith t q = false.
Proof.
  unfold apart, path_arg. intros Ha Hp.
  apply andb_true_iff in Ha as [Ha1 Ha2].
  rewrite forallb_forall in Ha1, Ha2.
  destruct (startswith t q) eqn:E; [exfalso|reflexivity].
  apply orb_true_iff in Hp as [Hp|Hp]; apply existsb_exists in Hp as (x & Hin & Hx).
  - specialize (Ha1 x Hin). apply andb_true_iff in Ha1 as [A1 A2].
    apply negb_true_iff in A1, A2.
    destruct (startswith_both _ _ _ Hx E); congruence.
  - specialize (Ha2 x Hin). apply negb_true_iff in Ha2.
    apply String.eqb_eq in Hx. subst x. congruence.
Qed.

Lemma count_tok_path_args L tok pre :
  Forall (fun t => path_arg L t = true) pre -> path_arg L tok = false ->
  count_tok tok pre = 0%nat.
Proof.
  intros Hpre Htok. induction Hpre as [|t pre Ht _ IH]; [reflexivity|].
  unfold count_tok in *. simpl. destruct (String.eqb tok t) eqn:E; [|exact IH].
  apply String.eqb_eq in E. congruence.
Qed.

Lemma emits_path_args L n pre :
  Forall (fun t => path_arg L t = true) pre -> apart L ("--" ++ n ++ "=") = true ->
  emits n pre = false.
Proof.
  intros Hpre Ha. induction Hpre as [|t pre Ht _ IH]; [reflexivity|].
  unfold emits in *. cbn [existsb]. rewrite IH, orb_false_r.
  now apply (apart_path_arg L).
Qed.

Section Lift.

Variable str_float : float -> string.

Lemma command_count L (F : flags_of L) command tok :
  command_shape str_float L F command -> path_arg L tok = false ->
  count_tok tok command = count_tok tok (flag_args str_float L F).
Proof.
  intros (pre & -> & Hpre) Htok.
  now rewrite count_tok_app, (count_tok_path_args L tok pre Hpre Htok).
Qed.

Lemma command_emits L (F : flags_of L) command n :
  command_shape str_float L F command -> apart L ("--" ++ n ++ "=") = true ->
  emits n command = emits n (flag_args str_float L F).
Proof.
  intros (pre & -> & Hpre) Ha.
  now rewrite emits_app, (emits_path_args L n pre Hpre Ha).
Qed.

(** The commands of a run have the shape of the launcher. *)
Lemma run_commands L (F : flags_of L) argv h :
  Forall (command_shape str_float L F)
         (commands_run h (snd (launcher str_float L F argv h))).
Proof. eapply starts_only_commands, launcher_commands. Qed.

End Lift.

Lemma every_command_intro (str_float : float -> string) (L : launcher_id)
      (F : flags_of L) argv h (holds : list string -> Prop) :
  (forall command, command_shape str_float L F command -> holds command) ->
  every_command str_float L F argv h holds.
Proof.
  intros H. split.
  - apply H. exists []. now split.
  - eapply Forall_impl; [exact H|apply run_commands].
Qed.

(** C2, as amended. In the Boltz and AlphaFold 3 launchers the list of
    flag tokens, and every command the launcher starts, holds for every
    boolean flag of the command exactly one of its two tokens: the
    enabled one when the flag is true, the disabled one when it is
    false. In the Chai Lab launcher a boolean flag has one token, which
    occurs once when the flag is not at the default of the tool and not
    at all when it is. *)
Theorem boolean_flag_tokens (str_float : float -> string) (argv : list string)
        (h : host) :
  (forall F : Boltz.flags,
      every_command str_float LBoltz F argv h
        (fun command =>
           Forall (fun t => Spec.exactly_one command (toggle_value t F)
                              (enabled_token t) (disabled_token t))
                  Boltz.toggles))
  /\ (forall F : AlphaFold3.flags,
      every_command str_float LAlphaFold3 F argv h
        (fun command =>
           Forall (fun t => Spec.exactly_one command (toggle_value t F)
                              (enabled_token t) (disabled_token t))
                  AlphaFold3.toggles))
  /\ (forall F : Chai.flags,
      every_command str_float LChai F argv h
        (fun command =>
           Forall (fun s => count_tok (switch_token s) command =
                            if Bool.eqb (switch_value s F) (switch_default s)
                            then 0%nat else 1%nat)
                  Chai.switches)).
Proof.
  split; [|split]; intros F; apply every_command_intro; intros command Hs.
  - pose proof (boltz_toggles str_float F) as Ht.
    rewrite Forall_forall in *. intros t Hin. specialize (Ht t Hin).
    unfold Spec.exactly_one in *.
    rewrite !(command_count str_float LBoltz F command _ Hs); [exact Ht| |];
      (repeat (destruct Hin as [<-|Hin]; [reflexivity|])); destruct Hin.
  - pose proof (af3_toggles F) as Ht.
    rewrite Forall_forall in *. intros t Hin. specialize (Ht t Hin).
    unfold Spec.exactly_one in *.
    rewrite !(command_count str_float LAlphaFold3 F command _ Hs); [exact Ht| |];
      (repeat (destruct Hin as [<-|Hin]; [reflexivity|])); destruct Hin.
  - pose proof (chai_switches F) as Ht.
    rewrite Forall_forall in *. intros t Hin. specialize (Ht t Hin).
    rewrite (command_count str_float LChai F command _ Hs); [exact Ht|];
      (repeat (destruct Hin as [<-|Hin]; [reflexivity|])); destruct Hin.
Qed.

(** C2, the counterexample: with the boolean flags of Chai Lab at their
    defaults the list of flag tokens is empty and the command started is
    made of the two words and the two container paths, so that no pair
    of tokens has exactly one member among the flag tokens. *)
Lemma chai_defaults_emit_no_token :
  let F := Sample.chai_plain_flags in
  Chai.use_msa_server F = false
  /\ Chai.flag_args F = []
  /\ commands_run Sample.host0
       (snd (Chai.launcher F ["run_chailab_launcher.py"] Sample.host0))
     = [["chai-lab"; "fold"; "/mnt/fasta/protein.fasta"; "/mnt/output"]]
  /\ ~ (exists enabled disabled : string,
          Spec.exactly_one (Chai.flag_args F) (Chai.use_msa_server F)
                           enabled disabled).
Proof.
  cbv zeta. split; [reflexivity|]. split; [reflexivity|].
  split; [vm_compute; reflexivity|].
  intros (enabled & disabled & H1 & H2).
  change (Chai.flag_args Sample.chai_plain_flags) with (@nil string) in *.
  discriminate H2.
Qed.

(** C3, as amended. In the Boltz launcher, when [use_msa_server] is
    disabled neither the MSA server URL nor the MSA pairing strategy is
    in the flag tokens or in a command the launcher starts, whatever
    their values; the AlphaFold 3 launcher has neither flag; the Chai
    Lab launcher writes [--msa-server-url] exactly when the URL differs
    from its default, whatever [use_msa_server] is, and has no pairing
    strategy. *)
Theorem msa_flags_when_server_disabled (str_float : float -> string)
        (argv : list string) (h : host) :
  (forall F : Boltz.flags,
      Boltz.use_msa_server F = false ->
      every_command str_float LBoltz F argv h
        (fun command => emits "msa_server_url" command = false
                        /\ emits "msa_pairing_strategy" command = false))
  /\ (forall F : AlphaFold3.flags,
      every_command str_float LAlphaFold3 F argv h
        (fun command => emits "msa_server_url" command = false
                        /\ emits "msa_pairing_strategy" command = false))
  /\ (forall F : Chai.flags,
      every_command str_float LChai F argv h
        (fun command =>
           emits "msa-server-url" command =
             negb (String.eqb (Chai.msa_server_url F) "https://api.colabfold.com")
           /\ emits "msa-pairing-strategy" command = false)).
Proof.
  split; [|split].
  - intros F Hoff. apply every_command_intro. intros command Hs.
    rewrite !(command_emits str_float LBoltz F command _ Hs) by reflexivity.
    cbn [flag_args]. unfold Boltz.flag_args, Boltz.opt. rewrite Hoff.
    destruct (Boltz.seed F); split; tokens; reflexivity.
  - intros F. apply every_command_intro. intros command Hs.
    rewrite !(command_emits str_float LAlphaFold3 F command _ Hs) by reflexivity.
    cbn [flag_args]. unfold AlphaFold3.flag_args.
    destruct (AlphaFold3.num_seeds F); split; reflexivity.
  - intros F. apply every_command_intro. intros command Hs.
    rewrite !(command_emits str_float LChai F command _ Hs) by reflexivity.
    cbn [flag_args]. unfold Chai.flag_args, Chai.opt, Chai.tok.
    destruct (Chai.seed F), (Chai.device F); split; tokens; reflexivity.
Qed.

Lemma msa_flags_when_server_disabled_witness :
  Boltz.use_msa_server Sample.boltz_flags = false
  /\ Boltz.msa_server_url Sample.boltz_flags = "http://localhost:8080"
  /\ every_command Sample.str_float LBoltz Sample.boltz_flags
       ["run_boltz_launcher.py"] Sample.host0
       (fun command => emits "msa_server_url" command = false
                       /\ emits "msa_pairing_strategy" command = false).
Proof.
  split; [reflexivity|]. split; [reflexivity|].
  apply (proj1 (msa_flags_when_server_disabled Sample.str_float
                  ["run_boltz_launcher.py"] Sample.host0) Sample.boltz_flags).
  reflexivity.
Defined.

(** C3, the counterexample: Chai Lab with [use_msa_server] disabled
    and a URL that is not the default one starts a command with
    [--msa-server-url]. *)
Lemma chai_emits_url_with_server_disabled :
  Chai.use_msa_server Sample.chai_flags = false
  /\ In "--msa-server-url=http://localhost:8080" (Chai.flag_args Sample.chai_flags)
  /\ commands_run Sample.host0
       (snd (Chai.launcher Sample.chai_flags ["run_chailab_launcher.py"]
                           Sample.host0)) =
     [["chai-lab"; "fold"; "/mnt/fasta/protein.fasta"; "/mnt/output";
       "--msa-server-url=http://localhost:8080"]].
Proof.
  split; [reflexivity|]. split; [left; reflexivity|]. vm_compute. reflexivity.
Qed.

(** *** Scalar flags *)

Section Named.

Local Open Scope list_scope.

Lemma named_app n l1 l2 :
  Spec.named n (l1 ++ l2) = Spec.named n l1 ++ Spec.named n l2.
Proof. apply filter_app. Qed.

Lemma named_one n x :
  Spec.named n [x] = if startswith x ("--" ++ n ++ "=") then [x] else [].
Proof. reflexivity. Qed.

Lemma named_ite n (b : bool) x y :
  Spec.named n [if b then x else y] =
  if b then Spec.named n [x] else Spec.named n [y].
Proof. now destruct b. Qed.

Lemma named_if n (c : bool) (l : list string) :
  Spec.named n (if c then l else []) = if c then Spec.named n l else [].
Proof. now destruct c. Qed.

Lemma named_path_args L n pre :
  Forall (fun t => path_arg L t = true) pre -> apart L ("--" ++ n ++ "=") = true ->
  Spec.named n pre = [].
Proof.
  intros Hpre Ha. induction Hpre as [|t pre Ht _ IH]; [reflexivity|].
  unfold Spec.named in *. cbn [filter].
  now rewrite (apart_path_arg L _ _ Ha Ht).
Qed.

Lemma command_named (str_float : float -> string) L (F : flags_of L) command n :
  command_shape str_float L F command -> apart L ("--" ++ n ++ "=") = true ->
  Spec.named n command = Spec.named n (flag_args str_float L F).
Proof.
  intros (pre & -> & Hpre) Ha.
  now rewrite named_app, (named_path_args L n pre Hpre Ha).
Qed.

Lemma if_nil {A} (c : bool) (l : list A) : (if c then l else l) = l.
Proof. now destruct c. Qed.

End Named.

Ltac names :=
  repeat rewrite named_app; repeat rewrite named_ite; repeat rewrite named_if;
  repeat rewrite named_one;
  cbn [startswith String.eqb String.append Ascii.eqb Bool.eqb andb orb negb];
  rewrite ?if_nil; cbn [app]; rewrite ?app_nil_r.

Lemma held_back_if (str_float : float -> string) {F} (s : scalar F) (D f : F)
      (c : bool) args :
  Spec.named (scalar_name s) args
  = (if c then [Spec.token str_float s f] else []) ->
  (c = true -> scalar_gate s f = true /\ Spec.differs s D f = true) ->
  Spec.held_back str_float s D f args.
Proof.
  intros Hn Hc. unfold Spec.held_back. rewrite Hn.
  destruct c; [right|now left].
  split; [reflexivity|now apply Hc].
Qed.

Ltac boltz_names F :=
  unfold Boltz.flag_args, Boltz.opt; cbn [scalar_name];
  destruct (Boltz.seed F), (Boltz.use_msa_server F); names; reflexivity.

Ltac differs_exact :=
  unfold Spec.differs;
  cbn [scalar_value scalar_gate Spec.same_value Boltz.default_flags
       Boltz.devices Boltz.accelerator Boltz.recycling_steps Boltz.sampling_steps
       Boltz.diffusion_samples Boltz.step_scale Boltz.output_format
       Boltz.num_workers Boltz.seed Boltz.msa_server_url
       Boltz.msa_pairing_strategy Boltz.always
       Chai.default_flags Chai.always Chai.msa_server_url
       Chai.recycle_msa_subsample Chai.num_trunk_recycles
       Chai.num_diffn_timesteps Chai.num_diffn_samples Chai.num_trunk_samples
       Chai.seed Chai.device];
  intros Hc; split; [reflexivity|try exact Hc].

Lemma boltz_scalars (sf : float -> string) (h : host) (F : Boltz.flags) :
  Forall (fun s => Spec.held_back sf s (Boltz.default_flags h) F
                     (Boltz.flag_args sf F))
         Boltz.scalars.
Proof.
  unfold Boltz.scalars.
  repeat (apply Forall_cons || apply Forall_nil).
  - eapply (held_back_if sf _ _ _ (negb (Boltz.devices F =? 1)%Z));
      [boltz_names F|differs_exact].
  - eapply (held_back_if sf _ _ _
              (match Boltz.accelerator F with Boltz.gpu => false | _ => true end));
      [boltz_names F|differs_exact].
    now destruct (Boltz.accelerator F).
  - eapply (held_back_if sf _ _ _ (negb (Boltz.recycling_steps F =? 3)%Z));
      [boltz_names F|differs_exact].
  - eapply (held_back_if sf _ _ _ (negb (Boltz.sampling_steps F =? 200)%Z));
      [boltz_names F|differs_exact].
  - eapply (held_back_if sf _ _ _ (negb (Boltz.diffusion_samples F =? 1)%Z));
      [boltz_names F|differs_exact].
  - eapply (held_back_if sf _ _ _
              (PrimFloat.ltb 1e-6
                 (PrimFloat.abs (PrimFloat.sub (Boltz.step_scale F) 1.638))));
      [boltz_names F|differs_exact].
    now rewrite (ltb_not_leb _ _ Hc).
  - eapply (held_back_if sf _ _ _
              (match Boltz.output_format F with Boltz.mmcif => false | _ => true end));
      [boltz_names F|differs_exact].
    now destruct (Boltz.output_format F).
  - eapply (held_back_if sf _ _ _ (negb (Boltz.num_workers F =? 2)%Z));
      [boltz_names F|differs_exact].
  - eapply (held_back_if sf _ _ _
              (match Boltz.seed F with Some _ => true | None => false end)).
    + unfold Boltz.flag_args, Boltz.opt, Spec.token. cbn [scalar_name scalar_value].
      destruct (Boltz.seed F), (Boltz.use_msa_server F); names; reflexivity.
    + differs_exact. now destruct (Boltz.seed F).
  - eapply (held_back_if sf _ _ _
              (Boltz.use_msa_server F
               && negb (String.eqb (Boltz.msa_server_url F)
                                   "https://api.colabfold.com"))).
    + unfold Boltz.flag_args, Boltz.opt. cbn [scalar_name].
      destruct (Boltz.seed F), (Boltz.use_msa_server F); names; reflexivity.
    + unfold Spec.differs.
      cbn [scalar_value scalar_gate Spec.same_value Boltz.default_flags
           Boltz.msa_server_url].
      intros Hc. now apply andb_true_iff in Hc.
  - eapply (held_back_if sf _ _ _
              (Boltz.use_msa_server F
               && match Boltz.msa_pairing_strategy F with
                  | Boltz.greedy => false
                  | _ => true
                  end)).
    + unfold Boltz.flag_args, Boltz.opt. cbn [scalar_name].
      destruct (Boltz.seed F), (Boltz.use_msa_server F); names; reflexivity.
    + unfold Spec.differs.
      cbn [scalar_value scalar_gate Spec.same_value Boltz.default_flags
           Boltz.msa_pairing_strategy].
      intros Hc. apply andb_true_iff in Hc as [H1 H2]. split; [exact H1|].
      now destruct (Boltz.msa_pairing_strategy F).
Qed.

Ltac chai_names F :=
  unfold Chai.flag_args, Chai.opt, Chai.tok; cbn [scalar_name];
  destruct (Chai.seed F), (Chai.device F); names; reflexivity.

Lemma chai_scalars (sf : float -> string) (h : host) (F : Chai.flags) :
  Forall (fun s => Spec.held_back sf s (Chai.default_flags h) F (Chai.flag_args F))
         Chai.scalars.
Proof.
  unfold Chai.scalars.
  repeat (apply Forall_cons || apply Forall_nil).
  - eapply (held_back_if sf _ _ _
              (negb (String.eqb (Chai.msa_server_url F) "https://api.colabfold.com")));
      [chai_names F|differs_exact].
  - eapply (held_back_if sf _ _ _ (negb (Chai.recycle_msa_subsample F =? 0)%Z));
      [chai_names F|differs_exact].
  - eapply (held_back_if sf _ _ _ (negb (Chai.num_trunk_recycles F =? 3)%Z));
      [chai_names F|differs_exact].
  - eapply (held_back_if sf _ _ _ (negb (Chai.num_diffn_timesteps F =? 200)%Z));
      [chai_names F|differs_exact].
  - eapply (held_back_if sf _ _ _ (negb (Chai.num_diffn_samples F =? 5)%Z));
      [chai_names F|differs_exact].
  - eapply (held_back_if sf _ _ _ (negb (Chai.num_trunk_samples F =? 1)%Z));
      [chai_names F|differs_exact].
  - eapply (held_back_if sf _ _ _
              (match Chai.seed F with Some _ => true | None => false end)).
    + unfold Chai.flag_args, Chai.opt, Chai.tok, Spec.token.
      cbn [scalar_name scalar_value].
      destruct (Chai.seed F), (Chai.device F); names; reflexivity.
    + differs_exact. now destruct (Chai.seed F).
  - eapply (held_back_if sf _ _ _ (truthy_opt (Chai.device F))).
    + unfold Chai.flag_args, Chai.opt, Chai.tok, Spec.token.
      cbn [scalar_name scalar_value].
      destruct (Chai.seed F), (Chai.device F) as [d|]; names;
        try reflexivity; cbn [truthy_opt]; destruct (truthy d); reflexivity.
    + unfold Spec.differs.
      cbn [scalar_value scalar_gate Spec.same_value Chai.default_flags Chai.device].
      intros Hc. split; [exact Hc|]. now destruct (Chai.device F).
Qed.

Lemma af3_scalars (sf : float -> string) (F : AlphaFold3.flags) :
  Forall (fun s => Spec.passed_on sf s F (AlphaFold3.flag_args F))
         AlphaFold3.scalars.
Proof.
  unfold AlphaFold3.scalars, AlphaFold3.flag_args, Spec.passed_on, Spec.token.
  repeat (apply Forall_cons || apply Forall_nil);
    cbn [scalar_name scalar_value Spec.render];
    destruct (AlphaFold3.num_seeds F); reflexivity.
Qed.

Lemma af3_num_seeds (F : AlphaFold3.flags) :
  Spec.named "num_seeds" (AlphaFold3.flag_args F) =
  match AlphaFold3.num_seeds F with
  | Some n => ["--num_seeds=" ++ str_int n]
  | None => []
  end.
Proof.
  unfold AlphaFold3.flag_args. destruct (AlphaFold3.num_seeds F); reflexivity.
Qed.

(** C4, as amended. In the Boltz and Chai Lab launchers a scalar flag
    is held back at its default, in the flag tokens and in every command
    started: a token [--name=...] is there only when the launcher looks
    at the flag (the MSA flags of Boltz only with [use_msa_server],
    [device] only when not empty) and its value differs from its default,
    by exact equality for integers, enums and strings and by more than
    1e-6 for the float; it is then the only such token and it is
    [--name=value] with the value of the flag. In the AlphaFold 3
    launcher every scalar flag is passed on as [--name=value] whatever
    its value, and [num_seeds] when it is set. *)
Theorem scalar_flag_suppression (str_float : float -> string)
        (argv : list string) (h : host) :
  (forall F : Boltz.flags,
      every_command str_float LBoltz F argv h
        (fun command =>
           Forall (fun s => Spec.held_back str_float s (Boltz.default_flags h) F
                              command)
                  Boltz.scalars))
  /\ (forall F : Chai.flags,
      every_command str_float LChai F argv h
        (fun command =>
           Forall (fun s => Spec.held_back str_float s (Chai.default_flags h) F
                              command)
                  Chai.scalars))
  /\ (forall F : AlphaFold3.flags,
      every_command str_float LAlphaFold3 F argv h
        (fun command =>
           Forall (fun s => Spec.passed_on str_float s F command)
                  AlphaFold3.scalars
           /\ Spec.named "num_seeds" command =
              match AlphaFold3.num_seeds F with
              | Some n => ["--num_seeds=" ++ str_int n]
              | None => []
              end)).
Proof.
  split; [|split]; intros F; apply every_command_intro; intros command Hs.
  - pose proof (boltz_scalars str_float h F) as Ht.
    rewrite Forall_forall in *. intros s Hin. specialize (Ht s Hin).
    unfold Spec.held_back in *.
    rewrite (command_named str_float LBoltz F command _ Hs); [exact Ht|].
    (repeat (destruct Hin as [<-|Hin]; [reflexivity|])); destruct Hin.
  - pose proof (chai_scalars str_float h F) as Ht.
    rewrite Forall_forall in *. intros s Hin. specialize (Ht s Hin).
    unfold Spec.held_back in *.
    rewrite (command_named str_float LChai F command _ Hs); [exact Ht|].
    (repeat (destruct Hin as [<-|Hin]; [reflexivity|])); destruct Hin.
  - split.
    + pose proof (af3_scalars str_float F) as Ht.
      rewrite Forall_forall in *. intros s Hin. specialize (Ht s Hin).
      unfold Spec.passed_on in *.
      rewrite (command_named str_float LAlphaFold3 F command _ Hs); [exact Ht|].
      (repeat (destruct Hin as [<-|Hin]; [reflexivity|])); destruct Hin.
    + rewrite (command_named str_float LAlphaFold3 F command _ Hs) by reflexivity.
      apply af3_num_seeds.
Qed.

(** C4, the counterexample: with every scalar flag of AlphaFold 3 at
    its default, the command started holds each of them, for one
    [--num_recycles=10]. *)
Lemma alphafold3_emits_defaults :
  let D := AlphaFold3.default_flags Sample.host0 in
  let F := Sample.alphafold3_flags in
  exists command,
    commands_run Sample.host0
      (snd (AlphaFold3.launcher F ["run_alphafold3_launcher.py"] Sample.host0))
    = [command]
    /\ In "--num_recycles=10" command
    /\ Forall (fun s => Spec.differs s D F = false
                        /\ emits (scalar_name s) command = true)
              AlphaFold3.scalars.
Proof.
  cbv zeta. eexists. split; [vm_compute; reflexivity|].
  split; [simpl; tauto|]. repeat constructor.
Qed.



Lemma image_missing_exits_witness :
  truthy_opt (image_flag LBoltz Sample.boltz_flags) = false
  /\ assoc (image_variable LBoltz) (environ Sample.bare) = None
  /\ exists_ Sample.bare (image_fallback LBoltz) = false
  /\ exit_status (fst (launcher Sample.str_float LBoltz Sample.boltz_flags
                                ["run_boltz_launcher.py"] Sample.bare)) = 1%Z
  /\ bind_calls (snd (launcher Sample.str_float LBoltz Sample.boltz_flags
                               ["run_boltz_launcher.py"] Sample.bare)) = [].
Proof.
  split; [reflexivity|]. split; [reflexivity|]. split; [reflexivity|].
  destruct (image_missing_exits Sample.str_float LBoltz Sample.boltz_flags
              ["run_boltz_launcher.py"] Sample.bare eq_refl eq_refl eq_refl)
    as (H1 & H2 & _).
  split; [exact H1|exact H2].
Defined.

Lemma create_bind_idempotent_witness :
  exists_ Sample.host0 "/out" = false
  /\ fst (create_bind LBoltz "output" "/out" true false Sample.host0)
     = Return ("/out:/mnt_launcher/output", "/mnt_launcher/output")
  /\ fst (create_bind LBoltz "output" "/out" true false
            (snd (create_bind LBoltz "output" "/out" true false Sample.host0)))
     = Return ("/out:/mnt_launcher/output", "/mnt_launcher/output").
Proof.
  split; [reflexivity|]. split; [reflexivity|].
  rewrite (create_bind_idempotent LBoltz Sample.host0
             (snd (create_bind LBoltz "output" "/out" true false Sample.host0))
             "output" "/out" true false
             ("/out:/mnt_launcher/output", "/mnt_launcher/output") eq_refl).
  reflexivity.
Defined.

Lemma file_bind_checks_parent_only_witness :
  makes_dir LChai "fasta" = false
  /\ exists_ Sample.host0 "/data" = true
  /\ exists_ Sample.host0 "/data/missing.fasta" = false
  /\ fst (create_bind LChai "fasta" "/data/missing.fasta" false false Sample.host0)
     = Return ("/data:/mnt/fasta", "/mnt/fasta/missing.fasta").
Proof.
  split; [reflexivity|]. split; [reflexivity|]. split; [reflexivity|].
  rewrite (file_bind_checks_parent_only LChai Sample.host0 "fasta"
             "/data/missing.fasta" false eq_refl eq_refl eq_refl).
  reflexivity.
Defined.

(** The tolerance on [step_scale]: a value within 1e-6 of 1.638 is not
    written, a value further away is; a NaN is not within 1e-6 of the
    default and is not written either. *)
Example boltz_step_scale_tolerance :
  let F (x : float) :=
    {| Boltz.sif_path := None; Boltz.input_data := Some "/data/protein.fasta";
       Boltz.out_dir := "/out"; Boltz.boltz_cache_dir := "/home/user/.boltz";
       Boltz.checkpoint := None; Boltz.use_gpu := true;
       Boltz.gpu_devices := "all"; Boltz.devices := 1;
       Boltz.accelerator := Boltz.gpu; Boltz.recycling_steps := 3;
       Boltz.sampling_steps := 200; Boltz.diffusion_samples := 1;
       Boltz.step_scale := x; Boltz.write_full_pae := false;
       Boltz.write_full_pde := false; Boltz.output_format := Boltz.mmcif;
       Boltz.num_workers := 2; Boltz.override := false; Boltz.seed := None;
       Boltz.use_msa_server := false;
       Boltz.msa_server_url := "https://api.colabfold.com";
       Boltz.msa_pairing_strategy := Boltz.greedy;
       Boltz.enable_potentials := true |} in
  emits "step_scale" (Boltz.flag_args Sample.str_float (F 1.638%float)) = false
  /\ emits "step_scale" (Boltz.flag_args Sample.str_float (F 1.6380005%float)) = false
  /\ emits "step_scale" (Boltz.flag_args Sample.str_float (F 1.63%float)) = true
  /\ emits "step_scale" (Boltz.flag_args Sample.str_float (F nan)) = false
  /\ Spec.same_value (VFloat 1.6380005%float) (VFloat 1.638%float) = true
  /\ Spec.same_value (VFloat nan) (VFloat 1.638%float) = false.
Proof. repeat split; vm_compute; reflexivity. Qed.

(** The first scenario of the specification. *)
Example boltz_scenario :
  fst (create_bind LBoltz "input_data" "/data/protein.fasta" false true Sample.host0)
  = Return ("/data:/mnt_launcher/input_data:ro",
            "/mnt_launcher/input_data/protein.fasta")
  /\ isdir (snd (Boltz.launcher Sample.str_float Sample.boltz_flags
                   ["run_boltz_launcher.py"] Sample.host0)) "/out" = true
  /\ exists cmd opts nv,
       executions (snd (Boltz.launcher Sample.str_float Sample.boltz_flags
                          ["run_boltz_launcher.py"] Sample.host0))
       = [EvExecute "/images/tool.sif" cmd opts nv]
       /\ In "--out_dir=/mnt_launcher/output" cmd.
Proof.
  split; [reflexivity|]. split; [reflexivity|].
  eexists _, _, _. split; [vm_compute; reflexivity|].
  simpl. tauto.
Qed.

(** ** More on the bind-path resolver *)

Lemma grows_refl m : grows m m.
Proof. intros x k H. exact H. Qed.

Lemma grows_trans m1 m2 m3 : grows m1 m2 -> grows m2 m3 -> grows m1 m3.
Proof. intros H1 H2 x k H. apply H2, H1, H. Qed.

(** What exists still exists, as the same kind of thing, when the file
    system grows. *)
Lemma stat_grows h h' p r :
  grows (files h) (files h') -> cwd h' = cwd h ->
  stat h p = Ok r -> stat h' p = Ok r.
Proof.
  intros Hg Hc. unfold stat, from_root. rewrite Hc.
  destruct (truthy p); [|discriminate].
  destruct (walk MAXSYMLINKS (files h) [] _) as [[l q]|] eqn:Hw; [|discriminate].
  rewrite (walk_mono _ _ Hg _ _ _ _ Hw).
  destruct (kind_at (files h) q) eqn:Hk; [|discriminate].
  now rewrite (Hg _ _ Hk).
Qed.

Lemma exists_grows h h' p :
  grows (files h) (files h') -> cwd h' = cwd h ->
  exists_ h p = true -> exists_ h' p = true.
Proof.
  intros Hg Hc. unfold exists_. destruct (stat h p) eqn:E; [|discriminate].
  now rewrite (stat_grows _ _ _ _ Hg Hc E).
Qed.

Lemma isdir_grows h h' p :
  grows (files h) (files h') -> cwd h' = cwd h ->
  isdir h p = true -> isdir h' p = true.
Proof.
  intros Hg Hc. unfold isdir. destruct (stat h p) eqn:E; [|discriminate].
  now rewrite (stat_grows _ _ _ _ Hg Hc E).
Qed.

Lemma isfile_grows h h' p :
  grows (files h) (files h') -> cwd h' = cwd h ->
  isfile h p = true -> isfile h' p = true.
Proof.
  intros Hg Hc. unfold isfile. destruct (stat h p) eqn:E; [|discriminate].
  now rewrite (stat_grows _ _ _ _ Hg Hc E).
Qed.

(** [os.makedirs] only adds entries, whatever its outcome. *)
Lemma makedirs_last_grows p ok h :
  grows (files h) (files (snd (makedirs_last p ok h))).
Proof.
  unfold makedirs_last, mkdir.
  destruct (parent_and_name h p) as [[q b]|e].
  - destruct (kind_at (files h) (q ++ [b])%list) eqn:Hk.
    + destruct (_ || _); apply grows_refl.
    + simpl. intros x k Hx. now apply kind_at_cons.
  - destruct (_ || _); apply grows_refl.
Qed.

Lemma makedirs_rec_grows ok : forall fuel p h,
  grows (files h) (files (snd (os_py.makedirs_rec fuel p ok h))).
Proof.
  induction fuel as [|fuel IH]; intros p h; [apply grows_refl|].
  rewrite makedirs_rec_eq. destruct (makedirs_cut p) as [head tail].
  destruct (_ && _); [|apply makedirs_last_grows].
  pose proof (IH head h) as H1.
  destruct (os_py.makedirs_rec fuel head ok h) as [[[]|c|[[]| | |]] h1];
    simpl in *; try exact H1;
    (destruct (String.eqb tail "."); [exact H1|]);
    (eapply grows_trans; [exact H1|apply makedirs_last_grows]).
Qed.

Lemma makedirs_grows p ok h :
  grows (files h) (files (snd (os_py.makedirs p ok h))).
Proof. apply makedirs_rec_grows. Qed.

(** X1. When [_create_bind] returns for a mount whose host directory it
    makes ([output], [boltz_cache], [tmp]), that directory is there
    afterwards: in Boltz the host path itself, in Chai and AlphaFold 3 the
    source of the mount. *)
Theorem create_bind_makes_directory (L : launcher_id) (h h' : host)
        (mount_point_name host_path : string) (is_dir read_only : bool)
        (r : string * string) :
  makes_dir L mount_point_name = true ->
  create_bind L mount_point_name host_path is_dir read_only h = (Return r, h') ->
  isdir h' (match L with
            | LBoltz => host_path_of L h host_path
            | LChai | LAlphaFold3 => bind_source L h host_path is_dir
            end) = true.
Proof.
  intros Hm. rewrite create_bind_eq. cbv zeta. rewrite Hm.
  destruct (os_py.makedirs _ _ _) as [[[]|c|e] h1] eqn:E; try discriminate.
  intros H; injection H as _ <-.
  apply (makedirs_rec_isdir _ _ _ _ (made_dir_plain L h host_path is_dir)) in E.
  destruct L; exact E.
Qed.

Lemma create_bind_makes_directory_witness :
  makes_dir LChai "output" = true
  /\ isdir Sample.host0 "/out/run1" = false
  /\ isdir (snd (create_bind LChai "output" "/out/run1" true false Sample.host0))
           "/out/run1" = true.
Proof.
  split; [reflexivity|]. split; [reflexivity|].
  apply (create_bind_makes_directory LChai Sample.host0 _ "output" "/out/run1"
           true false ("/out/run1:/mnt/output", "/mnt/output")); reflexivity.
Defined.

(** X2. Whatever its outcome, [_create_bind] removes and changes no
    entry of the file system, changes no file at all for a mount whose
    directory it does not make, and leaves the working directory, the
    environment and the rest of the host as they were: only files and
    trace can differ. *)
Theorem create_bind_keeps_files (L : launcher_id) (h : host)
        (mount_point_name host_path : string) (is_dir read_only : bool) :
  let h' := snd (create_bind L mount_point_name host_path is_dir read_only h) in
  grows (files h) (files h')
  /\ (makes_dir L mount_point_name = false -> files h' = files h)
  /\ rebase h h' = h'.
Proof.
  cbv zeta. rewrite create_bind_eq. cbv zeta.
  destruct (makes_dir L mount_point_name).
  - pose proof (makedirs_grows (made_dir L h host_path is_dir) true
                  (with_event h (EvCreateBind mount_point_name host_path is_dir)))
      as Hg.
    destruct (os_py.makedirs _ _ _) as [o h1] eqn:E.
    pose proof (makedirs_rec_frame _ _ _ _ _ _ E) as Hf.
    assert (Hr : rebase h h1 = h1) by (rewrite Hf; reflexivity).
    destruct o as [[]|c|e]; simpl in *; repeat split; auto; discriminate.
  - destruct (_ && _); simpl; repeat split; try apply grows_refl;
      destruct h; reflexivity.
Qed.

Lemma create_bind_keeps_files_witness :
  makes_dir LBoltz "input_data" = false
  /\ files (snd (create_bind LBoltz "input_data" "/data/protein.fasta" false true
                             Sample.host0)) = files Sample.host0.
Proof.
  split; [reflexivity|].
  apply (create_bind_keeps_files LBoltz Sample.host0 "input_data"
           "/data/protein.fasta" false true).
  reflexivity.
Defined.

(** *** Absolute paths *)

Lemma dirname_abs p :
  startswith p "/" = true -> startswith (posixpath.dirname p) "/" = true.
Proof.
  intros Hp. unfold posixpath.dirname.
  destruct (posixpath.split p) as [head tail] eqn:E. simpl.
  destruct (split_spec _ _ _ E) as [(Hn & _ & ->)|(a & k & Hr & Hak & Hh)].
  - apply rcut_none, noslash_startswith in Hn. congruence.
  - destruct (rcut_spec _ _ _ Hr) as [Hpe _].
    assert (Heq : p = head ++ (slashes k ++ tail)).
    { rewrite Hpe.
      change (a ++ String slash tail) with (a ++ (String slash "" ++ tail)).
      now rewrite <- append_assoc', Hak, append_assoc'. }
    rewrite Heq in Hp. now rewrite (startswith_app _ _ _ Hh) in Hp.
Qed.

Lemma bind_target_abs L name : startswith (bind_target L name) "/" = true.
Proof.
  rewrite bind_target_eq. destruct (startswith name "/") eqn:E; [exact E|].
  destruct L; reflexivity.
Qed.

(** X3. On a host whose working directory is absolute, whatever the
    host path given, relative or not, when [_create_bind] returns, the
    bind it returns is a source and a target that are both absolute, and
    the path handed to the tool is absolute and lies under the
    target. *)
Theorem bind_paths_absolute (L : launcher_id) (h : host)
        (mount_point_name host_path : string) (is_dir read_only : bool)
        (spec path : string) :
  posixpath.isabs (cwd h) = true ->
  fst (create_bind L mount_point_name host_path is_dir read_only h)
  = Return (spec, path) ->
  exists source target,
    spec = (source ++ ":" ++ target) ++ ro_suffix L read_only
    /\ posixpath.isabs source = true
    /\ posixpath.isabs target = true
    /\ posixpath.isabs path = true
    /\ startswith path target = true.
Proof.
  intros Hc Hr. apply create_bind_returned in Hr.
  rewrite bind_spec_eq in Hr. injection Hr as -> ->.
  assert (Hp : startswith (host_path_of L h host_path) "/" = true)
    by (destruct L; now apply abspath_abs).
  exists (bind_source L h host_path is_dir), (bind_target L mount_point_name).
  split; [reflexivity|]. split; [|split; [|split]].
  - unfold bind_source. destruct is_dir; [exact Hp|now apply dirname_abs].
  - apply bind_target_abs.
  - eapply startswith_trans; [apply container_path_under|apply bind_target_abs].
  - apply container_path_under.
Qed.

Lemma bind_paths_absolute_witness :
  posixpath.isabs (cwd Sample.host0) = true
  /\ fst (create_bind LChai "fasta" "inputs/../protein.fasta" false false
            Sample.host0)
     = Return ("/home/user:/mnt/fasta", "/mnt/fasta/protein.fasta")
  /\ exists source target,
       "/home/user:/mnt/fasta" = (source ++ ":" ++ target) ++ ""
       /\ posixpath.isabs source = true
       /\ posixpath.isabs target = true
       /\ posixpath.isabs "/mnt/fasta/protein.fasta" = true
       /\ startswith "/mnt/fasta/protein.fasta" target = true.
Proof.
  split; [reflexivity|]. split; [reflexivity|].
  exact (bind_paths_absolute LChai Sample.host0 "fasta"
           "inputs/../protein.fasta" false false _ _ eq_refl eq_refl).
Defined.

(** *** The directory and the base name of a normalised path *)

Lemma norm_comps_clean rooted x :
  clean_comps (posixpath.norm_comps rooted [] (split_slash x)).
Proof.
  apply Forall_forall. intros c Hin.
  apply norm_comps_in in Hin as [[]|(Hin & Hne & _)]. split.
  - eapply Forall_forall in Hin; [exact Hin|apply split_slash_pieces].
  - destruct c; [congruence|reflexivity].
Qed.

Lemma rcut_app_noslash X c :
  noslash c = true -> rcut (X ++ String slash c) = Some (X, c).
Proof.
  intros Hc.
  assert (Hn : rcut c = None).
  { induction c as [|d c IH]; [reflexivity|]. simpl in *.
    apply andb_true_iff in Hc as [Hd Hc]. apply negb_true_iff in Hd.
    now rewrite (IH Hc), Hd. }
  induction X as [|d X IH]; simpl.
  - rewrite Hn. reflexivity.
  - now rewrite IH.
Qed.

Lemma endswith_slash_app a b :
  truthy b = true -> endswith_slash (a ++ b) = endswith_slash b.
Proof.
  intros Hb. induction a as [|c a IH]; [reflexivity|].
  simpl. rewrite IH. destruct (a ++ b) eqn:E; [|reflexivity].
  destruct a, b; discriminate.
Qed.

Lemma noslash_endswith c : noslash c = true -> endswith_slash c = false.
Proof.
  induction c as [|d c IH]; [reflexivity|]. simpl.
  intros H. apply andb_true_iff in H as [Hd Hc]. apply negb_true_iff in Hd.
  destruct c; [exact Hd|now apply IH].
Qed.

Lemma join_slash_truthy cs :
  clean_comps cs -> cs <> [] -> truthy (join_slash cs) = true.
Proof.
  intros Hc Hne. destruct cs as [|c [|d r]]; [congruence| |];
    inversion Hc as [|? ? [_ Ht] _]; subst; simpl; destruct c; try discriminate;
    reflexivity.
Qed.

Lemma join_slash_endswith cs :
  clean_comps cs -> cs <> [] -> endswith_slash (join_slash cs) = false.
Proof.
  induction cs as [|c [|d r] IH]; intros Hc Hne; [congruence| |].
  - inversion Hc as [|? ? [Hn _] _]; subst. now apply noslash_endswith.
  - inversion Hc as [|? ? _ Hc']; subst.
    change (join_slash (c :: d :: r)) with (c ++ String slash (join_slash (d :: r))).
    pose proof (join_slash_truthy (d :: r) Hc' ltac:(discriminate)) as Ht.
    rewrite endswith_slash_app by reflexivity.
    change (String slash (join_slash (d :: r))) with ("/" ++ join_slash (d :: r)).
    rewrite endswith_slash_app by exact Ht.
    apply IH; [exact Hc'|discriminate].
Qed.

Lemma join_slash_not_all_slashes ini cs :
  clean_comps cs -> cs <> [] -> forall t, all_slashes (ini ++ join_slash cs ++ t) = false.
Proof.
  intros Hc Hne t.
  assert (Hj : forall u, all_slashes (join_slash cs ++ u) = false).
  { intros u. destruct cs as [|c r]; [congruence|].
    inversion Hc as [|? ? [Hn Ht] _]; subst.
    destruct c as [|a c]; [discriminate|]. simpl in Hn.
    apply andb_true_iff in Hn as [Ha _]. apply negb_true_iff in Ha.
    destruct r; simpl; now rewrite Ha. }
  induction ini as [|a ini IH]; simpl; [apply Hj|].
  rewrite IH. apply andb_false_r.
Qed.

Lemma rstrip_slash_id X :
  endswith_slash X = false -> rstrip_slash X = X.
Proof.
  induction X as [|c X IH]; [reflexivity|]. simpl.
  destruct X as [|d X'].
  - simpl. now intros ->.
  - intros H. rewrite (IH H). reflexivity.
Qed.

Lemma rstrip_slash_snoc X :
  endswith_slash X = false -> truthy X = true ->
  rstrip_slash (X ++ "/") = X.
Proof.
  induction X as [|c X IH]; [discriminate|]. intros He _.
  destruct X as [|d X'].
  - simpl in *. now rewrite He.
  - change (rstrip_slash ((String c (String d X')) ++ "/"))
      with (match rstrip_slash (String d X' ++ "/") with
            | "" => if Ascii.eqb c slash then "" else String c ""
            | r' => String c r'
            end).
    rewrite IH by (auto; exact He). reflexivity.
Qed.

Lemma join_slash_snoc cs c :
  cs <> [] -> join_slash (cs ++ [c])%list = join_slash cs ++ String slash c.
Proof.
  induction cs as [|d [|e r] IH]; intros Hne; [congruence|reflexivity|].
  change (join_slash ((d :: e :: r) ++ [c])%list)
    with (d ++ String slash (join_slash ((e :: r) ++ [c])%list)).
  rewrite IH by discriminate.
  change (join_slash (d :: e :: r)) with (d ++ String slash (join_slash (e :: r))).
  now rewrite append_assoc'.
Qed.

(** Splitting a path [X/c] whose head [X] is tidy. *)
Lemma join_split_tidy X c :
  noslash c = true ->
  (X = "" \/ X = "/" \/
   (truthy X = true /\ endswith_slash X = false /\ all_slashes (X ++ "/") = false)) ->
  posixpath.join (posixpath.dirname (X ++ String slash c))
                 (posixpath.basename (X ++ String slash c))
  = X ++ String slash c.
Proof.
  intros Hc HX. unfold posixpath.dirname, posixpath.basename, posixpath.split.
  rewrite (rcut_app_noslash X c Hc). cbn [fst snd].
  unfold posixpath.join. rewrite (noslash_startswith _ Hc).
  destruct HX as [->|[->|(Ht & He & Ha)]]; try reflexivity.
  rewrite Ha, (rstrip_slash_snoc X He Ht), He.
  destruct X; [discriminate|reflexivity].
Qed.

Lemma normpath_join_split x :
  let p := posixpath.normpath x in
  posixpath.join (posixpath.dirname p) (posixpath.basename p) = p.
Proof.
  cbv zeta. unfold posixpath.normpath.
  destruct (truthy x); [|reflexivity]. cbn [negb].
  set (ini := posixpath.initial_slashes x).
  pose proof (norm_comps_clean (truthy ini) x) as Hc.
  set (cs := posixpath.norm_comps (truthy ini) [] (split_slash x)) in *.
  assert (Hini : ini = "" \/ ini = "/" \/ ini = "//").
  { unfold ini, posixpath.initial_slashes.
    destruct (startswith x "/"); [|auto]. destruct (_ && _); auto. }
  destruct (rev cs) as [|c rcs] eqn:Er.
  - assert (cs = []) by (rewrite <- (rev_involutive cs), Er; reflexivity).
    rewrite H. destruct Hini as [->|[->| ->]]; reflexivity.
  - assert (Hcs : cs = (rev rcs ++ [c])%list)
      by (rewrite <- (rev_involutive cs), Er; reflexivity).
    rewrite Hcs in *. clear Hcs Er.
    apply Forall_app in Hc as [Hc1 Hc2]. inversion Hc2 as [|? ? [Hn Ht] _]; subst.
    destruct (rev rcs) as [|d r] eqn:Ed.
    + cbn [app join_slash].
      assert (Htr : truthy (ini ++ c) = true)
        by (destruct ini; [exact Ht|reflexivity]).
      rewrite Htr.
      destruct Hini as [->|[->| ->]].
      * cbn [String.append]. unfold posixpath.dirname, posixpath.basename, posixpath.split.
        assert (Hr : rcut c = None).
        { clear -Hn. induction c as [|a c IH]; [reflexivity|]. simpl in *.
          apply andb_true_iff in Hn as [Ha Hn]. apply negb_true_iff in Ha.
          now rewrite (IH Hn), Ha. }
        rewrite Hr. cbn [fst snd]. unfold posixpath.join.
        now rewrite (noslash_startswith _ Hn).
      * apply (join_split_tidy "" c Hn). auto.
      * apply (join_split_tidy "/" c Hn). auto.
    + rewrite <- Ed in *. assert (Hne : rev rcs <> []) by (rewrite Ed; discriminate).
      rewrite (join_slash_snoc _ c Hne), <- append_assoc'.
      set (X := ini ++ join_slash (rev rcs)).
      assert (HtX : truthy X = true).
      { unfold X. pose proof (join_slash_truthy _ Hc1 Hne).
        destruct ini; [assumption|reflexivity]. }
      assert (Htr : truthy (X ++ String slash c) = true)
        by (destruct X; [discriminate|reflexivity]).
      rewrite Htr. apply (join_split_tidy X c Hn). right. right.
      split; [exact HtX|]. split.
      * unfold X. rewrite endswith_slash_app by now apply join_slash_truthy.
        now apply join_slash_endswith.
      * unfold X. rewrite append_assoc'. now apply join_slash_not_all_slashes.
Qed.

(** X4. For a file, source and base name are a split of the host path:
    when [_create_bind] returns for a file, the bind it returns has a
    source which, joined with a base name, gives the normalised host
    path back; the path handed to the tool is the target of the mount
    joined with the same base name; and the base name contains no
    separator, so that the file is found directly under the target. *)
Theorem file_bind_round_trip (L : launcher_id) (h : host)
        (mount_point_name host_path : string) (read_only : bool)
        (spec path : string) :
  fst (create_bind L mount_point_name host_path false read_only h)
  = Return (spec, path) ->
  let target := posixpath.join (root_mount L) mount_point_name in
  exists source base,
    spec = (source ++ ":" ++ target) ++ ro_suffix L read_only
    /\ posixpath.join source base = host_path_of L h host_path
    /\ path = posixpath.join target base
    /\ noslash base = true.
Proof.
  intros Hr target. apply create_bind_returned in Hr.
  rewrite bind_spec_eq in Hr. injection Hr as -> ->.
  exists (bind_source L h host_path false),
         (posixpath.basename (host_path_of L h host_path)).
  split; [reflexivity|]. split; [|split].
  - unfold bind_source. destruct L; apply normpath_join_split.
  - reflexivity.
  - apply basename_noslash.
Qed.

Lemma file_bind_round_trip_witness :
  fst (create_bind LAlphaFold3 "json_input" "/data/./fold_input.json" false false
         Sample.host0)
  = Return ("/data:/mnt/json_input", "/mnt/json_input/fold_input.json")
  /\ exists source base,
       "/data:/mnt/json_input" = (source ++ ":" ++ "/mnt/json_input") ++ ""
       /\ posixpath.join source base = "/data/fold_input.json"
       /\ "/mnt/json_input/fold_input.json"
          = posixpath.join "/mnt/json_input" base
       /\ noslash base = true.
Proof.
  split; [reflexivity|].
  exact (file_bind_round_trip LAlphaFold3 Sample.host0 "json_input"
           "/data/./fold_input.json" false _ _ eq_refl).
Defined.

(** *** The parent directory and the base name of the host path *)

Lemma endswith_slash_rstrip x : endswith_slash (rstrip_slash x) = false.
Proof.
  induction x as [|c x IH]; [reflexivity|]. simpl.
  destruct (rstrip_slash x) as [|d r] eqn:E.
  - destruct (Ascii.eqb c slash) eqn:Ec; [reflexivity|]. simpl. exact Ec.
  - simpl in *. exact IH.
Qed.

Lemma dirname_no_trailing p :
  endswith_slash (posixpath.dirname p) = true ->
  all_slashes (posixpath.dirname p) = true.
Proof.
  unfold posixpath.dirname, posixpath.split.
  destruct (rcut p) as [[a t]|]; cbn [fst]; [|discriminate].
  destruct (all_slashes (a ++ "/")) eqn:E; [intros _; exact E|].
  now rewrite endswith_slash_rstrip.
Qed.

Lemma all_slashes_rcut p :
  all_slashes p = true -> truthy p = true ->
  exists a, rcut p = Some (a, "") /\ a ++ "/" = p.
Proof.
  induction p as [|c p IH]; [discriminate|]. simpl. intros H _.
  apply andb_true_iff in H as [Hc Hp]. apply Ascii.eqb_eq in Hc. subst c.
  destruct p as [|d p'].
  - exists "". split; reflexivity.
  - destruct (IH Hp eq_refl) as (a & -> & Ha).
    exists (String slash a). split; [reflexivity|]. simpl. now rewrite Ha.
Qed.

Lemma all_slashes_split p :
  all_slashes p = true ->
  posixpath.dirname p = p /\ posixpath.basename p = "".
Proof.
  intros H. unfold posixpath.dirname, posixpath.basename, posixpath.split.
  destruct p as [|c p']; [split; reflexivity|].
  destruct (all_slashes_rcut _ H eq_refl) as (a & -> & Ha).
  cbn [fst snd]. rewrite Ha, H. split; reflexivity.
Qed.

Lemma basename_truthy p :
  truthy p = true -> endswith_slash p = false ->
  truthy (posixpath.basename p) = true.
Proof.
  intros Ht He. unfold posixpath.basename, posixpath.split.
  destruct (rcut p) as [[a t]|] eqn:E; cbn [snd]; [|exact Ht].
  destruct (rcut_spec _ _ _ E) as [-> _].
  destruct t; [|reflexivity].
  rewrite endswith_slash_app in He by reflexivity. discriminate.
Qed.

Lemma normpath_tail x :
  let p := posixpath.normpath x in
  all_slashes p = true \/ (truthy p = true /\ endswith_slash p = false).
Proof.
  cbv zeta. unfold posixpath.normpath.
  destruct (truthy x); [|right; split; reflexivity]. cbn [negb].
  set (ini := posixpath.initial_slashes x).
  pose proof (norm_comps_clean (truthy ini) x) as Hc.
  set (cs := posixpath.norm_comps (truthy ini) [] (split_slash x)) in *.
  assert (Hini : ini = "" \/ ini = "/" \/ ini = "//").
  { unfold ini, posixpath.initial_slashes.
    destruct (startswith x "/"); [|auto]. destruct (_ && _); auto. }
  destruct cs as [|c cs'] eqn:Ecs.
  - destruct Hini as [->|[->| ->]]; simpl; auto.
  - assert (Hne : c :: cs' <> []) by discriminate.
    pose proof (join_slash_truthy _ Hc Hne) as Ht.
    pose proof (join_slash_endswith _ Hc Hne) as He.
    assert (Htr : truthy (ini ++ join_slash (c :: cs')) = true).
    { destruct ini; [exact Ht|reflexivity]. }
    rewrite Htr. right. split; [exact Htr|].
    now rewrite endswith_slash_app.
Qed.

Lemma join_child a b :
  noslash b = true -> posixpath.join a b = SpecBind.child a b.
Proof.
  intros Hb. unfold posixpath.join, SpecBind.child.
  rewrite (noslash_startswith _ Hb).
  destruct (_ || _); [reflexivity|]. now rewrite append_assoc'.
Qed.

(** What the resolver does with the normalised host path [hp]. *)
Lemma resolver_mounts (L : launcher_id) (h : host) (name p : string) (d : bool) :
  SpecBind.mounted_from (host_path_of L h p) d (bind_source L h p d)
    (bind_target L name) (container_path L h name p d).
Proof.
  unfold SpecBind.mounted_from, bind_source, container_path.
  destruct d; [split; reflexivity|].
  set (hp := host_path_of L h p).
  assert (Hn : exists x, hp = posixpath.normpath x)
    by (unfold hp; destruct L; eexists; reflexivity).
  destruct Hn as (x & Hx).
  destruct (all_slashes hp) eqn:Ha.
  - destruct (all_slashes_split _ Ha) as [-> ->].
    split; [reflexivity|]. now apply join_child.
  - exists (posixpath.basename hp).
    pose proof (basename_noslash hp) as Hb.
    destruct (normpath_tail x) as [H|[Ht He]]; rewrite <- Hx in *; [congruence|].
    split; [now apply basename_truthy|]. split; [exact Hb|].
    split; [|split; [apply dirname_no_trailing|now apply join_child]].
    rewrite <- (join_child _ _ Hb). rewrite Hx.
    symmetry. apply normpath_join_split.
Qed.

(** C5, as amended. For every host path and every mount-point name
    that does not start with a separator (so every name the launchers
    use), when the bind-path resolver returns, the container path lies
    under the bind target, which is the mount root of the launcher
    followed by the mount-point name. For a directory the bind source is
    the normalised host path and the container path is the target. For a
    file the bind source is its parent directory: the normalised host
    path is the source, a separator unless the source is a root, and a
    base name that is not empty and holds no separator; the source ends
    with no separator unless it is a root; and the container path is the
    target, a separator and the same base name. (For a root given as a
    file the source is that root and the container path is the target
    and a separator.) The resolver returns in every case but two: the
    source of a mount it does not make is missing (status 1, Boltz and
    Chai Lab), or [os.makedirs] fails on a mount it makes. *)
Theorem create_bind_returns (L : launcher_id) (h : host)
        (mount_point_name host_path : string) (is_dir read_only : bool) :
  startswith mount_point_name "/" = false ->
  let hp := host_path_of L h host_path in
  let target := root_mount L ++ mount_point_name in
  match fst (create_bind L mount_point_name host_path is_dir read_only h) with
  | Return (spec, inside) =>
      startswith inside target = true
      /\ exists source,
           spec = (source ++ ":" ++ target) ++ ro_suffix L read_only
           /\ SpecBind.mounted_from hp is_dir source target inside
  | Exit code =>
      code = 1%Z /\ makes_dir L mount_point_name = false
      /\ checks_source L = true
      /\ exists source inside,
           SpecBind.mounted_from hp is_dir source target inside
           /\ exists_ h source = false
  | Raise e => makes_dir L mount_point_name = true /\ e <> RecursionError
  end.
Proof.
  intros Hname hp target.
  assert (Ht : bind_target L mount_point_name = target)
    by (rewrite bind_target_eq, Hname; reflexivity).
  pose proof (resolver_mounts L h mount_point_name host_path is_dir) as Hm.
  pose proof (container_path_under L h mount_point_name host_path is_dir) as Hu.
  rewrite Ht in Hm, Hu. fold hp in Hm.
  rewrite create_bind_eq. cbv zeta.
  rewrite bind_spec_eq, Ht.
  destruct (makes_dir L mount_point_name) eqn:Hmk.
  - pose proof (makedirs_total (made_dir L h host_path is_dir) true
                  (with_event h (EvCreateBind mount_point_name host_path is_dir)))
      as Hfuel.
    destruct (os_py.makedirs _ _ _) as [[[]|c|e] h1] eqn:Hx; simpl in *.
    + split; [exact Hu|]. eexists. split; [reflexivity|exact Hm].
    + exfalso.
      apply (makedirs_no_exit (made_dir L h host_path is_dir) true
               (with_event h (EvCreateBind mount_point_name host_path is_dir)) c).
      now rewrite Hx.
    + split; [reflexivity|]. congruence.
  - destruct (checks_source L) eqn:Hc; simpl.
    + destruct (exists_ h (bind_source L h host_path is_dir)) eqn:He; simpl.
      * split; [exact Hu|]. eexists. split; [reflexivity|exact Hm].
      * repeat split; eauto.
    + split; [exact Hu|]. eexists. split; [reflexivity|exact Hm].
Qed.

Lemma create_bind_returns_witness :
  startswith "fasta" "/" = false
  /\ fst (create_bind LChai "fasta" "inputs/../protein.fasta" false false Sample.host0)
     = Return ("/home/user:/mnt/fasta", "/mnt/fasta/protein.fasta")
  /\ startswith "/mnt/fasta/protein.fasta" "/mnt/fasta" = true
  /\ exists source,
       "/home/user:/mnt/fasta" = (source ++ ":" ++ "/mnt/fasta") ++ ""
       /\ SpecBind.mounted_from "/home/user/protein.fasta" false
            source "/mnt/fasta" "/mnt/fasta/protein.fasta".
Proof.
  split; [reflexivity|]. split; [reflexivity|].
  exact (create_bind_returns LChai Sample.host0 "fasta"
           "inputs/../protein.fasta" false false eq_refl).
Defined.

(** C5, the counterexample: a mount-point name that starts with a
    separator replaces the mount root in [os.path.join]; the bind target
    and the container path are then outside the mount root of the
    launcher. *)
Lemma create_bind_absolute_name :
  fst (create_bind LChai "/scratch" "/data" true false Sample.host0)
  = Return ("/data:/scratch", "/scratch")
  /\ startswith "/scratch" (root_mount LChai) = false
  /\ fst (create_bind LBoltz "/scratch" "/data/protein.fasta" false true
            Sample.host0)
     = Return ("/data:/scratch:ro", "/scratch/protein.fasta")
  /\ startswith "/scratch/protein.fasta" (root_mount LBoltz) = false.
Proof. repeat split; vm_compute; reflexivity. Qed.

(** ** The setup of a run *)

Section Setup.

Local Open Scope list_scope.

Variable L : launcher_id.
Variable h0 : host.

(** What does not change in a run. *)
Lemma rebase_fields h :
  rebase h0 h = h ->
  cwd h = cwd h0 /\ environ h = environ h0 /\ pw_self h = pw_self h0
  /\ pw_dirs h = pw_dirs h0 /\ now h = now h0
  /\ image_loads h = image_loads h0
  /\ container_lines h = container_lines h0
  /\ container_fails h = container_fails h0.
Proof. intros <-. simpl. repeat split. Qed.

Lemma rebase_refl : rebase h0 h0 = h0.
Proof. destruct h0; reflexivity. Qed.

Lemma rebase_event h e : rebase h0 h = h -> rebase h0 (with_event h e) = with_event h e.
Proof. intros H. rewrite <- H at 2. reflexivity. Qed.

Lemma rebase_files h m : rebase h0 h = h -> rebase h0 (with_files h m) = with_files h m.
Proof. intros H. rewrite <- H at 2. reflexivity. Qed.

Lemma bind_spec_env h name p d ro :
  rebase h0 h = h -> bind_spec L h name p d ro = bind_spec L h0 name p d ro.
Proof. intros <-. destruct L; reflexivity. Qed.

Lemma container_path_env h name p d :
  rebase h0 h = h -> container_path L h name p d = container_path L h0 name p d.
Proof. intros <-. destruct L; reflexivity. Qed.

Lemma bind_source_env h p d :
  rebase h0 h = h -> bind_source L h p d = bind_source L h0 p d.
Proof. intros <-. destruct L; reflexivity. Qed.

Lemma made_dir_env h p d :
  rebase h0 h = h -> made_dir L h p d = made_dir L h0 p d.
Proof. intros <-. destruct L; reflexivity. Qed.

Lemma setup_commands evs : Forall setup_event evs -> commands evs = [].
Proof.
  induction 1 as [|e evs He _ IH]; [reflexivity|].
  destruct e; simpl in *; try contradiction; exact IH.
Qed.

Lemma going_start b : going L b h0 h0.
Proof.
  split; [apply rebase_refl|]. split; [apply grows_refl|]. split; [reflexivity|].
  exists []. rewrite app_nil_r. repeat split; constructor.
Qed.

Lemma going_after b h : going L b h0 h -> after h0 h.
Proof.
  intros (He & Hg & _ & evs & Ht & Hs & _).
  split; [exact He|]. split; [exact Hg|].
  exists evs. split; [exact Ht|now apply setup_commands].
Qed.

Lemma going_any b h : going L b h0 h -> going L false h0 h.
Proof.
  intros (He & Hg & _ & Hevs). repeat split; try assumption. discriminate.
Qed.

Lemma after_event h e :
  after h0 h -> is_execute e = false -> after h0 (with_event h e).
Proof.
  intros (He & Hg & evs & Ht & Hc) Hx.
  split; [now apply rebase_event|]. split; [exact Hg|].
  exists (evs ++ [e]). simpl. rewrite Ht, app_assoc. split; [reflexivity|].
  rewrite commands_app, Hc. destruct e; try reflexivity; discriminate.
Qed.

Lemma after_files h h' :
  after h0 h -> h' = with_files h (files h') -> grows (files h) (files h') ->
  after h0 h'.
Proof.
  intros (He & Hg & evs & Ht & Hc) Hf Hg'.
  split; [rewrite Hf; now apply rebase_files|].
  split; [eapply grows_trans; eassumption|].
  exists evs. rewrite Hf. simpl. now split.
Qed.

Lemma settled_grows h h' e :
  grows (files h) (files h') -> cwd h' = cwd h ->
  settled L h0 h e -> settled L h0 h' e.
Proof.
  intros Hg Hc. destruct e; simpl; auto.
  - destruct (makes_dir L mount_point_name); [now apply isdir_grows|].
    destruct (checks_source L); [now apply exists_grows|auto].
  - intros [H1 H2]. split; [now apply (exists_grows h)|exact H2].
Qed.

Lemma going_event b h e :
  going L b h0 h -> setup_event e -> settled L h0 h e ->
  going L b h0 (with_event h e).
Proof.
  intros (He & Hg & Hf & evs & Ht & Hs & Hd) Hse Hsd.
  split; [now apply rebase_event|]. split; [exact Hg|]. split; [exact Hf|].
  exists (evs ++ [e]). simpl. rewrite Ht, app_assoc. split; [reflexivity|].
  split; apply Forall_app; split; try assumption; repeat constructor; assumption.
Qed.

Lemma going_files b h h' :
  going L b h0 h -> h' = with_files h (files h') -> grows (files h) (files h') ->
  going L false h0 h'.
Proof.
  intros (He & Hg & _ & evs & Ht & Hs & Hd) Hf Hg'.
  split; [rewrite Hf; now apply rebase_files|].
  split; [eapply grows_trans; eassumption|].
  split; [discriminate|].
  exists evs. split; [rewrite Hf; exact Ht|]. split; [exact Hs|].
  eapply Forall_impl; [|exact Hd].
  intros e. apply settled_grows; [exact Hg'|]. rewrite Hf. reflexivity.
Qed.

(** *** Computations that fail *)

Lemma fails_exit {A} : fails (A:=A) h0 (sys_exit 1).
Proof. intros h Ha. split; [exact Ha|split; [reflexivity|discriminate]]. Qed.

Lemma fails_raise {A} e : fails (A:=A) h0 (raise e).
Proof. intros h Ha. split; [exact Ha|split; [reflexivity|discriminate]]. Qed.

Lemma fails_emit {A} e (m : M A) :
  is_execute e = false -> fails h0 m -> fails h0 (emit e ;;; m).
Proof.
  intros Hx Hm h Ha. unfold bind, emit.
  apply Hm. now apply after_event.
Qed.

Lemma stepped_fails {A} b' (post : A -> Prop) (m : M A) h :
  fails h0 m -> after h0 h -> stepped L h0 b' post (m h).
Proof.
  intros Hm Ha. destruct (Hm h Ha) as (H1 & H2 & H3).
  split; [exact H1|].
  destruct (fst (m h)) as [a|c|e]; [now destruct (H3 a)|exact H2|exact H2].
Qed.

Lemma reached_fails F plan (m : M unit) h :
  fails h0 m -> after h0 h -> reached L F h0 plan (m h).
Proof.
  intros Hm Ha. destruct (Hm h Ha) as (H1 & H2 & H3).
  left. split; [exact H1|split; [exact H2|apply H3]].
Qed.

(** *** Steps *)

Lemma stepped_ret {A} b (post : A -> Prop) a h :
  going L b h0 h -> post a -> stepped L h0 b post (ret a h).
Proof.
  intros G Hp. split; [now apply (going_after b)|]. simpl. now split.
Qed.

Lemma stepped_any {A} b (post : A -> Prop) r :
  stepped L h0 b post r -> stepped L h0 false post r.
Proof.
  intros [Ha Hr]. split; [exact Ha|].
  destruct (fst r); try exact Hr. destruct Hr as [G Hp].
  split; [now apply (going_any b)|exact Hp].
Qed.

Lemma stepped_impl {A} b (P Q : A -> Prop) r :
  (forall a, P a -> Q a) -> stepped L h0 b P r -> stepped L h0 b Q r.
Proof.
  intros HPQ [Ha Hr]. split; [exact Ha|].
  destruct (fst r); try exact Hr. destruct Hr as [G Hp]. split; auto.
Qed.

Lemma stepped_bind {A B} b1 b2 (P : A -> Prop) (Q : B -> Prop)
      (s : M A) (k : A -> M B) h :
  stepped L h0 b1 P (s h) ->
  (forall a h', going L b1 h0 h' -> P a -> stepped L h0 b2 Q (k a h')) ->
  stepped L h0 b2 Q ((x <- s ;; k x) h).
Proof.
  intros [Ha Hr] Hk. unfold bind.
  destruct (s h) as [[a|c|e] h']; simpl in *.
  - destruct Hr as [G Hp]. now apply Hk.
  - split; assumption.
  - split; assumption.
Qed.

Lemma reached_bind {A} F plan b1 (P : A -> Prop) (s : M A) (k : A -> M unit) h :
  stepped L h0 b1 P (s h) ->
  (forall a h', going L b1 h0 h' -> P a -> reached L F h0 plan (k a h')) ->
  reached L F h0 plan ((x <- s ;; k x) h).
Proof.
  intros [Ha Hr] Hk. unfold bind.
  destruct (s h) as [[a|c|e] h']; simpl in *.
  - destruct Hr as [G Hp]. now apply Hk.
  - left. split; [assumption|split; [assumption|discriminate]].
  - left. split; [assumption|split; [assumption|discriminate]].
Qed.

Lemma stepped_emit b h e :
  going L b h0 h -> setup_event e -> settled L h0 h e ->
  stepped L h0 b (fun _ => True) (emit e h).
Proof.
  intros G He Hs. unfold emit.
  assert (G' := going_event _ _ _ G He Hs).
  split; [now apply (going_after b)|]. simpl. now split.
Qed.

(** [os.makedirs] as a step of the setup. *)
Lemma stepped_makedirs b p h :
  going L b h0 h -> stepped L h0 false (fun _ => True) (os_py.makedirs p true h).
Proof.
  intros G.
  pose proof (makedirs_grows p true h) as Hg.
  pose proof (makedirs_no_exit p true h) as Hx.
  destruct (os_py.makedirs p true h) as [o h'] eqn:E.
  pose proof (makedirs_rec_frame _ _ _ _ _ _ E) as Hf. simpl in *.
  split; [eapply after_files; eauto using going_after|].
  destruct o as [[]|c|e]; simpl.
  - split; [eapply going_files; eauto|exact I].
  - now destruct (Hx c).
  - reflexivity.
Qed.

(** The resolver as a step of the setup. *)
Lemma stepped_create_bind b name p d ro h :
  going L b h0 h ->
  stepped L h0 (b && negb (makes_dir L name))
    (fun r => r = (bind_spec L h0 name p d ro, container_path L h0 name p d))
    (create_bind L name p d ro h).
Proof.
  intros G. assert (He : rebase h0 h = h) by apply G.
  rewrite create_bind_eq. lazy zeta.
  rewrite (bind_spec_env _ _ _ _ _ He), (container_path_env _ _ _ _ He),
    (bind_source_env _ _ _ He), (made_dir_env _ _ _ He).
  assert (Ga : after h0 (with_event h (EvCreateBind name p d))).
  { apply after_event; [now apply (going_after b)|reflexivity]. }
  destruct (makes_dir L name) eqn:Hm.
  - rewrite andb_false_r.
    pose proof (makedirs_grows (made_dir L h0 p d) true
                  (with_event h (EvCreateBind name p d))) as Hg.
    pose proof (makedirs_no_exit (made_dir L h0 p d) true
                  (with_event h (EvCreateBind name p d))) as Hx.
    destruct (os_py.makedirs _ _ _) as [o h'] eqn:E.
    pose proof (makedirs_rec_frame _ _ _ _ _ _ E) as Hf. simpl in Hg, Hx.
    destruct o as [[]|c|e]; simpl.
    + split; [eapply after_files; eauto|]. simpl.
      split; [|reflexivity].
      apply (makedirs_rec_isdir _ _ _ _ (made_dir_plain L h0 p d)) in E.
      destruct G as (_ & Hg0 & _ & evs & Ht & Hs & Hd).
      split; [rewrite Hf; apply rebase_files; now apply rebase_event|].
      split; [eapply grows_trans; eassumption|].
      split; [discriminate|].
      exists (evs ++ [EvCreateBind name p d]).
      split; [rewrite Hf; simpl; rewrite Ht, app_assoc; reflexivity|].
      split; [apply Forall_app; split; [exact Hs|repeat constructor]|].
      apply Forall_app; split.
      * eapply Forall_impl; [|exact Hd].
        intros e. apply settled_grows; [exact Hg|]. rewrite Hf. reflexivity.
      * repeat constructor. simpl. rewrite Hm. exact E.
    + now destruct (Hx c).
    + split; [eapply after_files; eauto|reflexivity].
  - rewrite andb_true_r.
    destruct (checks_source L && negb (exists_ h (bind_source L h0 p d))) eqn:Hc.
    + split; [|reflexivity]. simpl.
      apply after_event; [exact Ga|reflexivity].
    + split; [exact Ga|]. simpl. split; [|reflexivity].
      apply going_event; [exact G|exact I|].
      simpl. rewrite Hm.
      destruct (checks_source L); [|exact I].
      simpl in Hc. now apply negb_false_iff in Hc.
Qed.

(** The check and the load of the image, as a step of the setup. *)
Lemma stepped_load b (sif m1 m2 m3 : string) h :
  going L b h0 h ->
  stepped L h0 b (fun _ => True)
    (((if negb (exists_ h sif) then
         emit (EvPrint m1) ;;; emit (EvPrint m2) ;;; sys_exit 1
       else ret tt) ;;;
      try_except (Client.load sif)
        (fun e => Some (emit (EvPrint m3) ;;; sys_exit 1))) h).
Proof.
  intros G. assert (Ga := going_after _ _ G).
  assert (He : rebase h0 h = h) by apply G.
  destruct (exists_ h sif) eqn:Ex; simpl.
  - unfold bind, try_except, Client.load, bind, emit, get, ret, raise. simpl.
    destruct (image_loads h sif) eqn:Hl; simpl.
    + split; [apply after_event; [exact Ga|reflexivity]|]. simpl.
      split; [|exact I].
      apply going_event; [exact G|exact I|]. simpl. split; [exact Ex|].
      destruct (rebase_fields _ He) as (_ & _ & _ & _ & _ & <- & _). exact Hl.
    + unfold sys_exit. split; [|reflexivity]. simpl.
      repeat (apply after_event; [|reflexivity]). exact Ga.
  - unfold bind, emit, sys_exit. simpl. split; [|reflexivity]. simpl.
    repeat (apply after_event; [|reflexivity]). exact Ga.
Qed.

(** *** The last step *)

Lemma with_events_app h a b : with_events h (a ++ b) = with_events (with_events h a) b.
Proof. apply fold_left_app. Qed.

Lemma with_events_trace h evs : trace (with_events h evs) = trace h ++ evs.
Proof.
  revert h. induction evs as [|e evs IH]; intros h; simpl.
  - now rewrite app_nil_r.
  - unfold with_events in *. simpl. rewrite IH. simpl. now rewrite <- app_assoc.
Qed.

Lemma with_events_files h evs : files (with_events h evs) = files h.
Proof.
  revert h. induction evs as [|e evs IH]; intros h; [reflexivity|].
  unfold with_events in *. simpl. now rewrite IH.
Qed.

Lemma with_events_rebase h evs : rebase h (with_events h evs) = with_events h evs.
Proof.
  revert h. induction evs as [|e evs IH]; intros h; [destruct h; reflexivity|].
  unfold with_events in *. simpl. rewrite <- IH at 2. reflexivity.
Qed.

Lemma print_lines (b : bool) (e : exn) lines : forall g,
  ((fix each (lines : list string) : M unit :=
      match lines with
      | [] => ret tt
      | l :: r => emit (EvPrint l) ;;; each r
      end) lines ;;;
   (if b then raise e else ret tt)) g
  = (if b then Raise e else Return tt, with_events g (map EvPrint lines)).
Proof.
  induction lines as [|l lines IH]; intros g.
  - unfold bind, ret, raise. simpl. destruct b; reflexivity.
  - cbn [map]. unfold with_events in *. cbn [fold_left]. rewrite <- IH.
    unfold bind at 1 3. unfold bind at 1, emit. reflexivity.
Qed.

Lemma execute_and_print_eq image command nv options h :
  Client.execute_and_print image command nv options h
  = (if container_fails h then Raise (Exception "execute") else Return tt,
     after_container h (EvExecute image command options nv)).
Proof.
  unfold Client.execute_and_print, after_container.
  unfold bind at 1, emit. unfold bind at 1, get. unfold bind at 1, set_files.
  cbn [with_event with_files container_lines container_fails container_writes files].
  apply print_lines.
Qed.

Lemma after_container_trace h e :
  trace (after_container h e) = trace h ++ e :: map EvPrint (container_lines h).
Proof.
  unfold after_container. rewrite with_events_trace. simpl.
  now rewrite <- app_assoc.
Qed.

Lemma after_container_files h e :
  files (after_container h e) = container_writes h (files h).
Proof. unfold after_container. now rewrite with_events_files. Qed.

Lemma after_container_rebase h e :
  rebase h (after_container h e) = after_container h e.
Proof.
  unfold after_container.
  rewrite <- (with_events_rebase _ (map EvPrint (container_lines h))) at 2.
  destruct h; reflexivity.
Qed.

Lemma bind_get {B} (k : host -> M B) h : (x <- get ;; k x) h = k h h.
Proof. reflexivity. Qed.

Lemma bind_assoc {A B C} (m : M A) (f : A -> M B) (g : B -> M C) h :
  (y <- (x <- m ;; f x) ;; g y) h = (x <- m ;; y <- f x ;; g y) h.
Proof. unfold bind. destruct (m h) as [[a|c|e] h']; reflexivity. Qed.

Lemma reached_load F plan b (sif m1 m2 m3 : string) (k : M unit) h :
  going L b h0 h ->
  (forall h', going L b h0 h' -> reached L F h0 plan (k h')) ->
  reached L F h0 plan
    (((if negb (exists_ h sif) then
         emit (EvPrint m1) ;;; emit (EvPrint m2) ;;; sys_exit 1
       else ret tt) ;;;
      try_except (Client.load sif)
        (fun e => Some (emit (EvPrint m3) ;;; sys_exit 1)) ;;;
      k) h).
Proof.
  intros G Hk. rewrite <- bind_assoc.
  eapply reached_bind; [apply stepped_load; exact G|].
  intros _ h' G' _. now apply Hk.
Qed.

Lemma isdir_fresh h p : going L true h0 h -> isdir h p = isdir h0 p.
Proof.
  intros (He & _ & Hf & _). specialize (Hf eq_refl).
  destruct (rebase_fields _ He) as (Hc & _).
  unfold isdir, stat, from_root. now rewrite Hf, Hc.
Qed.

Lemma exists_fresh h p : going L true h0 h -> exists_ h p = exists_ h0 p.
Proof.
  intros (He & _ & Hf & _). specialize (Hf eq_refl).
  destruct (rebase_fields _ He) as (Hc & _).
  unfold exists_, stat, from_root. now rewrite Hf, Hc.
Qed.

Lemma listdir_fresh h p : going L true h0 h -> listdir h p = listdir h0 p.
Proof.
  intros (He & _ & Hf & _). specialize (Hf eq_refl).
  destruct (rebase_fields _ He) as (Hc & _).
  unfold listdir, stat, from_root. now rewrite Hf, Hc.
Qed.

End Setup.

Section BoltzRun.

Local Open Scope list_scope.

Variable str_float : float -> string.

Lemma boltz_main_reached (F : Boltz.flags) argv h0 h :
  going LBoltz true h0 h ->
  reached LBoltz F h0 (boltz_start str_float F h0) (Boltz.main str_float F argv h).
Proof.
  intros G. unfold Boltz.main.
  destruct (1 <? length argv)%nat;
    [apply reached_fails; [apply fails_raise|now apply (going_after LBoltz h0 true)]|].
  rewrite bind_get.
  assert (He : rebase h0 h = h) by apply G.
  lazy zeta.
  apply (reached_load LBoltz h0 F _ true); [exact G|]. intros h1 G1.
  destruct (Boltz.input_data F) as [input|] eqn:Ei;
    [|apply reached_fails; [apply fails_raise|now apply (going_after LBoltz h0 true)]].
  destruct (truthy input) eqn:Et; cbn [negb]; lazy iota;
    [|apply reached_fails; [apply fails_raise|now apply (going_after LBoltz h0 true)]].
  rewrite bind_get. rewrite (isdir_fresh _ _ _ _ G1).
  eapply reached_bind;
    [apply (stepped_create_bind LBoltz h0 true "input_data" input _ true); exact G1|].
  clear h1 G1. intros r h1 G1 ->. lazy beta iota.
  eapply reached_bind; [eapply stepped_makedirs; exact G1|].
  clear h1 G1. intros _ h1 G1 _.
  eapply reached_bind;
    [apply (stepped_create_bind LBoltz h0 false "output" _ true false); exact G1|].
  clear h1 G1. intros r h1 G1 ->. lazy beta iota.
  eapply reached_bind; [eapply stepped_makedirs; exact G1|].
  clear h1 G1. intros _ h1 G1 _.
  eapply reached_bind;
    [apply (stepped_create_bind LBoltz h0 false "boltz_cache" _ true false); exact G1|].
  clear h1 G1. intros r h1 G1 ->. lazy beta iota.
  eapply (reached_bind LBoltz h0 F _ false
            (fun r => r =
               (([bind_spec LBoltz h0 "input_data" input (isdir h0 input) true;
                  bind_spec LBoltz h0 "output" (Boltz.out_dir F) true false;
                  bind_spec LBoltz h0 "boltz_cache" (Boltz.boltz_cache_dir F)
                            true false]
                 ++ match given (Boltz.checkpoint F) with
                    | Some c => [bind_spec LBoltz h0 "checkpoint_file" c false true]
                    | None => []
                    end),
                (["--out_dir=/mnt_launcher/output";
                  "--cache=/mnt_launcher/boltz_cache"]
                 ++ match given (Boltz.checkpoint F) with
                    | Some c => [("--checkpoint="
                                  ++ container_path LBoltz h0 "checkpoint_file"
                                                    c false)%string]
                    | None => []
                    end)))).
  { unfold given, truthy_opt.
    destruct (Boltz.checkpoint F) as [c|]; [destruct (truthy c)|];
      try (apply stepped_ret; [exact G1|reflexivity]).
    rewrite bind_get. destruct (isfile h1 c); cbn [negb]; lazy iota.
    - eapply stepped_bind;
        [apply (stepped_create_bind LBoltz h0 false "checkpoint_file" c false true);
         exact G1|].
      intros r h2 G2 ->. apply stepped_ret; [exact G2|reflexivity].
    - apply stepped_fails; [|now apply (going_after LBoltz h0 false)].
      apply fails_emit; [reflexivity|apply fails_exit]. }
  clear h1 G1. intros r h1 G1 ->. lazy beta iota.
  rewrite bind_get.
  eapply reached_bind;
    [apply (stepped_create_bind LBoltz h0 false "tmp" _ true false); exact G1|].
  intros r h2 G2 ->. lazy beta iota.
  right. exists h2. do 4 eexists. split; [exact G2|]. split; [|reflexivity].
  destruct (rebase_fields _ _ He) as (_ & Hv & _).
  destruct (rebase_fields _ _ (proj1 G1)) as (_ & Hv1 & _).
  unfold boltz_start, image_path, given, Boltz._BOLTZ_SIF_PATH, Boltz.tmp_dir_host.
  rewrite Hv, Hv1, Ei.
  destruct (Boltz.sif_path F) as [p|]; [destruct (truthy p)|];
    (destruct (Boltz.checkpoint F) as [c|]; [destruct (truthy c)|]); reflexivity.
Qed.

End BoltzRun.

Section ChaiRun.

Local Open Scope list_scope.

Variable h0 : host.

Lemma stepped_chai_create_bind b name p d h :
  going LChai b h0 h ->
  stepped LChai h0 (b && negb (makes_dir LChai name))
    (fun r => r = (bind_spec LChai h0 name p d false,
                   container_path LChai h0 name p d))
    (Chai._create_bind name p d h).
Proof.
  intros G.
  change (Chai._create_bind name p d h) with (create_bind LChai name p d false h).
  now apply stepped_create_bind.
Qed.

Lemma stepped_choose_output_dir (F : Chai.flags) h :
  going LChai true h0 h ->
  stepped LChai h0 true (fun out => out = chai_output F h0)
          (Chai.choose_output_dir F h).
Proof.
  intros G. assert (He : rebase h0 h = h) by apply G.
  unfold Chai.choose_output_dir, chai_output. rewrite bind_get.
  rewrite (exists_fresh _ _ _ _ G), (listdir_fresh _ _ _ _ G).
  destruct (rebase_fields _ _ He) as (_ & _ & _ & _ & -> & _).
  destruct (exists_ h0 (Chai.output_dir F)).
  - destruct (listdir h0 (Chai.output_dir F)) as [[|n ns]|e].
    + apply stepped_ret; [exact G|reflexivity].
    + destruct (Chai.force_output_dir F).
      * apply stepped_ret; [exact G|reflexivity].
      * unfold bind, syscall, ret. cbn [andb negb].
        eapply (stepped_bind LChai h0 true true (fun _ => True));
          [apply (stepped_emit LChai h0 true); [exact G|exact I|exact I]|].
        intros _ h' G' _. apply stepped_ret; [exact G'|reflexivity].
    + apply stepped_fails; [apply fails_raise|now apply (going_after LChai h0 true)].
  - apply stepped_ret; [exact G|reflexivity].
Qed.

Lemma stepped_bind_optional path mount name d binds args h :
  going LChai false h0 h ->
  stepped LChai h0 false
    (fun r => r = (binds ++ map fst (chai_optional h0 path mount name d),
                   args ++ map snd (chai_optional h0 path mount name d)))
    (Chai.bind_optional path mount name d (binds, args) h).
Proof.
  intros G. unfold Chai.bind_optional, chai_optional, given.
  destruct path as [p|]; [destruct (truthy p)|];
    try (apply stepped_ret; [exact G|simpl; now rewrite !app_nil_r]).
  eapply stepped_bind;
    [apply (stepped_chai_create_bind false mount p d); exact G|].
  intros r h' G' ->. apply stepped_ret; [exact G'|reflexivity].
Qed.

Lemma chai_main_reached (F : Chai.flags) argv h :
  going LChai true h0 h ->
  reached LChai F h0 (chai_start F h0) (Chai.main F argv h).
Proof.
  intros G. unfold Chai.main.
  destruct (1 <? length argv)%nat;
    [apply reached_fails; [apply fails_raise|now apply (going_after LChai h0 true)]|].
  rewrite bind_get.
  assert (He : rebase h0 h = h) by apply G.
  lazy zeta.
  apply (reached_load LChai h0 F _ true); [exact G|]. intros h1 G1.
  destruct (truthy_opt (Chai.fasta_file F)) eqn:Ef; cbn [negb]; lazy iota;
    [|apply reached_fails; [apply fails_raise|now apply (going_after LChai h0 true)]].
  destruct (truthy (Chai.output_dir F)) eqn:Eo; cbn [negb]; lazy iota;
    [|apply reached_fails; [apply fails_raise|now apply (going_after LChai h0 true)]].
  eapply reached_bind;
    [apply (stepped_chai_create_bind true "fasta" _ false); exact G1|].
  clear h1 G1. intros r h1 G1 ->. lazy beta iota.
  eapply reached_bind; [apply stepped_choose_output_dir; exact G1|].
  clear h1 G1. intros out h1 G1 ->.
  eapply reached_bind; [eapply stepped_makedirs; exact G1|].
  clear h1 G1. intros _ h1 G1 _.
  eapply reached_bind;
    [apply (stepped_chai_create_bind false "output" _ true); exact G1|].
  clear h1 G1. intros r h1 G1 ->. lazy beta iota.
  eapply reached_bind; [apply stepped_bind_optional; exact G1|].
  clear h1 G1. intros r h1 G1 ->.
  eapply reached_bind; [apply stepped_bind_optional; exact G1|].
  clear h1 G1. intros r h1 G1 ->.
  eapply reached_bind; [apply stepped_bind_optional; exact G1|].
  clear h1 G1. intros r h1 G1 ->. lazy beta iota.
  rewrite bind_get.
  eapply reached_bind;
    [apply (stepped_chai_create_bind false "tmp" _ true); exact G1|].
  intros r h2 G2 ->. lazy beta iota.
  right. exists h2. do 4 eexists. split; [exact G2|]. split; [|reflexivity].
  destruct (rebase_fields _ _ He) as (_ & Hv & _).
  destruct (rebase_fields _ _ (proj1 G1)) as (_ & Hv1 & _).
  unfold chai_start, image_path, given, Chai._CHAI_SIF_PATH, Chai.tmp_dir.
  rewrite Hv, Hv1. unfold append.
  rewrite !map_app, <- !app_assoc.
  destruct (Chai.sif_path F) as [p|]; [destruct (truthy p)|]; reflexivity.
Qed.

End ChaiRun.

Section AlphaFold3Run.

Local Open Scope list_scope.

Variable h0 : host.

Lemma stepped_af3_create_bind b name p d h :
  going LAlphaFold3 b h0 h ->
  stepped LAlphaFold3 h0 (b && negb (makes_dir LAlphaFold3 name))
    (fun r => r = (bind_spec LAlphaFold3 h0 name p d false,
                   container_path LAlphaFold3 h0 name p d))
    (AlphaFold3._create_bind name p d h).
Proof.
  intros G.
  change (AlphaFold3._create_bind name p d h)
    with (create_bind LAlphaFold3 name p d false h).
  now apply stepped_create_bind.
Qed.

Lemma stepped_bind_db_dirs dbs : forall i binds args b h,
  going LAlphaFold3 b h0 h ->
  stepped LAlphaFold3 h0 false
    (fun r => r = (binds ++ map fst (db_mounts h0 i dbs),
                   args ++ map snd (db_mounts h0 i dbs)))
    (AlphaFold3.bind_db_dirs i dbs (binds, args) h).
Proof.
  induction dbs as [|db dbs IH]; intros i binds args b h G.
  - simpl. rewrite !app_nil_r.
    apply (stepped_any _ _ b). now apply stepped_ret.
  - cbn [AlphaFold3.bind_db_dirs].
    eapply stepped_bind;
      [apply (stepped_af3_create_bind b ("db_" ++ str_int (Z.of_nat i)) db true);
       exact G|].
    intros r h' G' ->.
    eapply stepped_impl; [|eapply IH; exact G'].
    intros r ->. cbn [db_mounts map fst snd]. unfold append.
    rewrite <- !app_assoc. reflexivity.
Qed.

Lemma alphafold3_main_reached (F : AlphaFold3.flags) argv h :
  going LAlphaFold3 true h0 h ->
  reached LAlphaFold3 F h0 (alphafold3_start F h0) (AlphaFold3.main F argv h).
Proof.
  intros G. unfold AlphaFold3.main.
  assert (Ga := going_after _ _ _ _ G).
  destruct (1 <? length argv)%nat;
    [apply reached_fails; [apply fails_raise|exact Ga]|].
  destruct (negb (truthy_opt (AlphaFold3.json_path F))
            && negb (truthy_opt (AlphaFold3.input_dir F))) eqn:Ein;
    [apply reached_fails; [apply fails_raise|exact Ga]|].
  eapply (reached_bind LAlphaFold3 h0 F _ true (fun _ => True)).
  { destruct (truthy_opt (AlphaFold3.json_path F)
              && truthy_opt (AlphaFold3.input_dir F)).
    - apply stepped_emit; [exact G|exact I|exact I].
    - now apply stepped_ret. }
  clear h G Ga. intros _ h G _.
  assert (Ga := going_after _ _ _ _ G).
  destruct (truthy_opt (AlphaFold3.model_dir F)) eqn:Em; cbn [negb]; lazy iota;
    [|apply reached_fails; [apply fails_raise|exact Ga]].
  destruct (AlphaFold3.db_dir F) as [[|db dbs]|] eqn:Ed;
    try (apply reached_fails; [apply fails_raise|exact Ga]).
  eapply (reached_bind LAlphaFold3 h0 F _ true
            (fun r => r =
               (map fst match given (AlphaFold3.input_dir F),
                              given (AlphaFold3.json_path F) with
                        | Some d, _ =>
                            [(bind_spec LAlphaFold3 h0 "input_dir" d true false,
                              "--input_dir=/mnt/input_dir")]
                        | None, Some j =>
                            [(bind_spec LAlphaFold3 h0 "json_input" j false false,
                              ("--json_path="
                               ++ container_path LAlphaFold3 h0 "json_input" j false)%string)]
                        | None, None => []
                        end,
                map snd match given (AlphaFold3.input_dir F),
                              given (AlphaFold3.json_path F) with
                        | Some d, _ =>
                            [(bind_spec LAlphaFold3 h0 "input_dir" d true false,
                              "--input_dir=/mnt/input_dir")]
                        | None, Some j =>
                            [(bind_spec LAlphaFold3 h0 "json_input" j false false,
                              ("--json_path="
                               ++ container_path LAlphaFold3 h0 "json_input" j false)%string)]
                        | None, None => []
                        end))).
  { unfold given, truthy_opt in *.
    destruct (AlphaFold3.input_dir F) as [d|]; [destruct (truthy d)|].
    - eapply stepped_bind;
        [apply (stepped_af3_create_bind true "input_dir" d true); exact G|].
      intros r h' G' ->. apply stepped_ret; [exact G'|reflexivity].
    - destruct (AlphaFold3.json_path F) as [j|]; [destruct (truthy j)|];
        try discriminate.
      eapply stepped_bind;
        [apply (stepped_af3_create_bind true "json_input" j false); exact G|].
      intros r h' G' ->. apply stepped_ret; [exact G'|reflexivity].
    - destruct (AlphaFold3.json_path F) as [j|]; [destruct (truthy j)|];
        try discriminate.
      eapply stepped_bind;
        [apply (stepped_af3_create_bind true "json_input" j false); exact G|].
      intros r h' G' ->. apply stepped_ret; [exact G'|reflexivity]. }
  clear h G Ga. intros r h G ->. lazy beta iota.
  eapply reached_bind;
    [apply (stepped_af3_create_bind true "output" _ true); exact G|].
  clear h G. intros r h G ->. lazy beta iota.
  eapply reached_bind;
    [apply (stepped_af3_create_bind false "models" _ true); exact G|].
  clear h G. intros r h G ->. lazy beta iota.
  eapply reached_bind; [eapply stepped_bind_db_dirs; exact G|].
  clear h G. intros r h G ->. lazy beta iota.
  rewrite bind_get.
  eapply reached_bind;
    [apply (stepped_af3_create_bind false "tmp" _ true); exact G|].
  intros r h2 G2 ->. lazy beta iota.
  right. exists h2. do 4 eexists. split; [exact G2|]. split; [|reflexivity].
  destruct (rebase_fields _ _ (proj1 G)) as (_ & Hv & _).
  unfold alphafold3_start, image_path, AlphaFold3._ALPHAFOLD3_SIF_PATH,
    AlphaFold3.tmp_dir.
  rewrite Hv, Ed. unfold append.
  rewrite <- !app_assoc. reflexivity.
Qed.

End AlphaFold3Run.

(** ** The end of a run *)

Section Failure.

Local Open Scope list_scope.

Lemma rebase_event_self h e : rebase h (with_event h e) = with_event h e.
Proof. destruct h; reflexivity. Qed.

Lemma lookup_filter p d m :
  lookup p (filter (fun e => negb (path_eqb (fst e) d)) m)
  = if path_eqb p d then None else lookup p m.
Proof.
  induction m as [|[q k] m IH]; simpl; [now destruct (path_eqb p d)|].
  destruct (path_eqb q d) eqn:Eq; simpl.
  - rewrite IH. destruct (path_eqb p d) eqn:Ep; [reflexivity|].
    destruct (path_eqb p q) eqn:Epq; [|reflexivity].
    apply path_eqb_eq in Eq, Epq. subst. now rewrite path_eqb_refl in Ep.
  - rewrite IH. destruct (path_eqb p q) eqn:Epq; [|reflexivity].
    destruct (path_eqb p d) eqn:Ep; [|reflexivity].
    apply path_eqb_eq in Ep, Epq. subst. now rewrite path_eqb_refl in Eq.
Qed.

(** What [os.rmdir] removes. *)
Lemma rmdir_removes h p m :
  rmdir h p = Ok m ->
  exists d, kind_at (files h) d = Some KDir /\ children d (files h) = []
            /\ d <> []
            /\ forall x, kind_at m x = if path_eqb x d then None
                                       else kind_at (files h) x.
Proof.
  unfold rmdir. destruct (parent_and_name h p) as [[q b]|e]; [|discriminate].
  cbv zeta. destruct (kind_at (files h) (q ++ [b])) as [[| |t]|] eqn:Ek;
    try discriminate.
  destruct (children (q ++ [b]) (files h)) eqn:Ec; [|discriminate].
  intros H; injection H as <-.
  exists (q ++ [b]). split; [exact Ek|]. split; [exact Ec|].
  split; [now destruct q|].
  intros [|x0 x].
  - simpl. now destruct q.
  - cbn [kind_at]. apply lookup_filter.
Qed.

(** The handler of a failure: it ends the run with status 1, logs, and
    in AlphaFold 3 may remove the default output directory. *)
Lemma failure_handled (L : launcher_id) (F : flags_of L) e :
  exists k, on_failure L F e = Some k /\
  forall h,
    fst (k h) = Exit 1
    /\ rebase h (snd (k h)) = snd (k h)
    /\ (exists evs, trace (snd (k h)) = trace h ++ evs /\ Forall log_event evs)
    /\ (files (snd (k h)) = files h \/ cleaned L F h (files (snd (k h)))).
Proof.
  destruct L.
  1,2: eexists; (split; [reflexivity|]); intros h; simpl;
    (split; [reflexivity|]); (split; [apply rebase_event_self|]);
    (split; [|now left]); eexists; (split; [reflexivity|]); repeat constructor.
  eexists. split; [reflexivity|]. intros h.
  set (default := AlphaFold3.output_dir_default h).
  set (h1 := with_event h (EvLogError "Error executing Singularity command")).
  set (h2 := with_event h1 (EvLogWarning "Could not remove default output directory")).
  assert (R1 : rebase h h1 = h1) by apply rebase_event_self.
  assert (R2 : rebase h h2 = h2) by (destruct h; reflexivity).
  assert (T1 : exists evs, trace h1 = trace h ++ evs /\ Forall log_event evs).
  { eexists. split; [reflexivity|]. repeat constructor. }
  assert (T2 : exists evs, trace h2 = trace h ++ evs /\ Forall log_event evs).
  { exists [EvLogError "Error executing Singularity command";
            EvLogWarning "Could not remove default output directory"].
    split; [simpl; now rewrite <- app_assoc|]. repeat constructor. }
  cbv beta delta [bind try_except get emit sys_exit] iota.
  fold h1.
  change (AlphaFold3.output_dir_default h1) with default.
  change (exists_ h1 default) with (exists_ h default).
  change (listdir h1 default) with (listdir h default).
  change (rmdir h1 default) with (rmdir h default).
  destruct (String.eqb (AlphaFold3.output_dir F) default) eqn:Eo; cbn [andb];
    [|simpl; auto].
  apply String.eqb_eq in Eo.
  destruct (exists_ h default); [|simpl; auto].
  destruct (listdir h default) as [[|n ns]|er] eqn:El; cbn [syscall];
    [|simpl; auto|simpl; fold h2; auto].
  destruct (rmdir h default) as [m|er] eqn:Er; cbn [syscall];
    [|simpl; fold h2; auto].
  simpl. split; [reflexivity|]. split; [now rewrite <- R1|].
  split; [exact T1|]. right. unfold default in *. auto.
Qed.

Lemma cleaned_same L F a b m :
  files a = files b -> cwd a = cwd b -> cleaned L F a m -> cleaned L F b m.
Proof.
  intros Hf Hc. destruct L; simpl; auto.
  unfold AlphaFold3.output_dir_default, listdir, rmdir, parent_and_name, stat,
    from_root.
  now rewrite Hf, Hc.
Qed.

Lemma rebase_trans h1 h2 h3 :
  rebase h1 h2 = h2 -> rebase h2 h3 = h3 -> rebase h1 h3 = h3.
Proof. intros H12 H23. rewrite <- H23, <- H12. reflexivity. Qed.

(** The last step of a run: the container runs and writes, and a failure
    is handled on the files it has left. *)
Lemma finish_run (L : launcher_id) (F : flags_of L) image command options nv h :
  let r := finish L F image command options nv h in
  fst r = (if container_fails h then Exit 1 else Return tt)
  /\ rebase h (snd r) = snd r
  /\ (exists post,
        trace (snd r) = trace h ++ EvExecute image command options nv
                                   :: map EvPrint (container_lines h) ++ post
        /\ Forall log_event post)
  /\ (files (snd r) = container_writes h (files h)
      \/ (container_fails h = true
          /\ cleaned L F (with_files h (container_writes h (files h)))
                     (files (snd r)))).
Proof.
  cbv zeta. unfold finish, try_except. rewrite execute_and_print_eq.
  set (hc := after_container h (EvExecute image command options nv)).
  assert (Hcwd : cwd hc = cwd h)
    by (unfold hc; rewrite <- after_container_rebase; reflexivity).
  destruct (container_fails h).
  - destruct (failure_handled L F (Exception "execute")) as (k & -> & Hk).
    destruct (Hk hc) as (H1 & H2 & (post & Ht & Hp) & H4).
    split; [exact H1|].
    split; [eapply rebase_trans; [apply after_container_rebase|exact H2]|].
    split.
    + exists post. rewrite Ht. unfold hc. rewrite after_container_trace.
      rewrite <- app_assoc. simpl. now split.
    + destruct H4 as [H4|H4].
      * left. rewrite H4. apply after_container_files.
      * right. split; [reflexivity|].
        eapply cleaned_same; [| |exact H4].
        -- unfold hc. now rewrite after_container_files.
        -- exact Hcwd.
  - cbn [fst snd]. split; [reflexivity|]. split; [apply after_container_rebase|].
    split; [|left; apply after_container_files].
    exists []. unfold hc. rewrite after_container_trace.
    rewrite app_nil_r. now split.
Qed.

End Failure.

(** ** Whole runs *)

Section Runs.

Local Open Scope list_scope.

Variable str_float : float -> string.

Lemma stepped_import L h0 b h :
  going L b h0 h -> stepped L h0 b (fun _ => True) (import_spython h).
Proof.
  intros G. unfold import_spython. rewrite bind_get.
  destruct (spython h); [now apply stepped_ret|].
  apply stepped_fails; [|now apply (going_after L h0 b)].
  apply fails_emit; [reflexivity|apply fails_exit].
Qed.

Lemma reached_app_run L F h0 plan required m h :
  after h0 h -> reached L F h0 plan (m h) ->
  reached L F h0 plan (app_run required m h).
Proof.
  intros Ha Hm. unfold app_run.
  destruct required; [|left; split; [exact Ha|split; [reflexivity|discriminate]]].
  unfold try_except.
  destruct Hm as [(Ha' & Hs & Hn)|(h1 & i & c & o & n & G & Hp & Hr)].
  - left. destruct (m h) as [[[]|c|e] h']; simpl in *.
    + discriminate Hs.
    + split; [exact Ha'|split; [exact Hs|discriminate]].
    + destruct e; simpl;
        (split; [exact Ha'|split; [reflexivity|discriminate]]).
  - right. exists h1, i, c, o, n. split; [exact G|]. split; [exact Hp|].
    rewrite Hr.
    destruct (finish_run L F i c o n h1) as (H1 & _).
    destruct (finish L F i c o n h1) as [[a|x|e] h']; try reflexivity.
    simpl in H1. destruct (container_fails h1); discriminate.
Qed.

(** Every launcher ends its setup with status 1 or goes on to start
    the container as planned. *)
Lemma launcher_reached L (F : flags_of L) argv h :
  reached L F h (planned_start str_float L F h) (launcher str_float L F argv h).
Proof.
  assert (G := going_start L h true).
  assert (He : rebase h h = h) by apply G.
  destruct L; cbn [launcher planned_start].
  - unfold Boltz.launcher.
    eapply reached_bind; [apply stepped_import; exact G|].
    intros _ h1 G1 _. apply reached_app_run; [now apply (going_after LBoltz h true)|].
    now apply boltz_main_reached.
  - unfold Chai.launcher.
    eapply reached_bind; [apply stepped_import; exact G|].
    intros _ h1 G1 _. apply reached_app_run; [now apply (going_after LChai h true)|].
    now apply chai_main_reached.
  - unfold AlphaFold3.launcher.
    eapply reached_bind; [apply stepped_import; exact G|].
    intros _ h1 G1 _. rewrite bind_get. lazy zeta.
    apply (reached_load LAlphaFold3 h F _ true); [exact G1|].
    intros h2 G2.
    apply reached_app_run; [now apply (going_after LAlphaFold3 h true)|].
    now apply alphafold3_main_reached.
Qed.

Lemma new_events_app h h' evs :
  trace h' = trace h ++ evs -> new_events h h' = evs.
Proof.
  intros H. unfold new_events. rewrite H.
  rewrite skipn_app, skipn_all, Nat.sub_diag. reflexivity.
Qed.

Lemma commands_executions evs : commands evs = [] -> filter is_execute evs = [].
Proof.
  induction evs as [|e evs IH]; [reflexivity|].
  destruct e; simpl; try exact IH. discriminate.
Qed.

Lemma setup_printed evs : Forall setup_event evs -> printed evs = [].
Proof.
  induction 1 as [|e evs He _ IH]; [reflexivity|].
  destruct e; simpl in *; try contradiction; exact IH.
Qed.

Lemma log_printed evs : Forall log_event evs -> printed evs = [].
Proof.
  induction 1 as [|e evs He _ IH]; [reflexivity|].
  destruct e; simpl in *; try contradiction; exact IH.
Qed.

Lemma log_executions evs : Forall log_event evs -> filter is_execute evs = [].
Proof.
  induction 1 as [|e evs He _ IH]; [reflexivity|].
  destruct e; simpl in *; try contradiction; exact IH.
Qed.

Lemma printed_app a b : printed (a ++ b) = printed a ++ printed b.
Proof.
  induction a as [|e a IH]; [reflexivity|].
  destruct e; simpl; rewrite ?IH; reflexivity.
Qed.

Lemma printed_prints lines : printed (map EvPrint lines) = lines.
Proof. induction lines as [|l lines IH]; simpl; [|rewrite IH]; reflexivity. Qed.

Lemma executions_prints lines : filter is_execute (map EvPrint lines) = [].
Proof. induction lines as [|l lines IH]; simpl; [|rewrite IH]; reflexivity. Qed.

(** A run, in two cases: the setup ends it, or the container is
    started from a host that the setup has left in order. *)
Lemma run_cases L (F : flags_of L) argv h :
  let r := launcher str_float L F argv h in
  (after h (snd r) /\ exit_status (fst r) = 1%Z /\ fst r <> Return tt)
  \/ (exists h1 pre post,
        going L false h h1
        /\ trace h1 = trace h ++ pre
        /\ fst r = (if container_fails h then Exit 1 else Return tt)
        /\ rebase h (snd r) = snd r
        /\ trace (snd r) = trace h ++ pre ++ planned_start str_float L F h
                                    :: map EvPrint (container_lines h) ++ post
        /\ Forall setup_event pre /\ Forall log_event post
        /\ (files (snd r) = container_writes h (files h1)
            \/ (container_fails h = true
                /\ cleaned L F (with_files h (container_writes h (files h1)))
                           (files (snd r))))
        /\ exists image command options nv,
             r = finish L F image command options nv h1).
Proof.
  cbv zeta. destruct (launcher_reached L F argv h)
    as [H|(h1 & i & c & o & n & G & Hp & Hr)]; [now left|].
  right. rewrite Hr, Hp.
  destruct (finish_run L F i c o n h1) as (H1 & H2 & (post & Ht & Hl) & H4).
  destruct G as (He & Hg & Hf & pre & Htr & Hs & Hd).
  destruct (rebase_fields _ _ He) as (Hcwd & _ & _ & _ & _ & _ & Hcl & Hcf).
  assert (Hw : container_writes h1 = container_writes h)
    by (rewrite <- He; reflexivity).
  rewrite Hcl, Hcf, Hw in *.
  exists h1, pre, post.
  split; [repeat split; try assumption; exists pre; repeat split; assumption|].
  split; [exact Htr|]. split; [exact H1|].
  split; [eapply rebase_trans; eassumption|].
  split; [rewrite Ht, Htr, <- app_assoc; reflexivity|].
  split; [exact Hs|]. split; [exact Hl|].
  split; [|exists i, c, o, n; reflexivity].
  destruct H4 as [H4|[H4 H5]]; [now left|]. right. split; [exact H4|].
  eapply cleaned_same; [| |exact H5]; [reflexivity|exact Hcwd].
Qed.

(** X5. A run is single shot. Whatever the flags, the arguments and
    the host, a launcher either starts nothing and ends with status 1,
    or starts the container exactly once, with the image, the command,
    the options and the GPU switch that [planned_start] gives from the
    flags and the host the run starts on; it then prints the lines of
    the container, in order and nothing else, and returns normally
    unless the container fails, in which case it ends with status 1. *)
Theorem run_single_shot (L : launcher_id) (F : flags_of L)
        (argv : list string) (h : host) :
  let r := launcher str_float L F argv h in
  let evs := new_events h (snd r) in
  (filter is_execute evs = [] /\ exit_status (fst r) = 1%Z)
  \/ (filter is_execute evs = [planned_start str_float L F h]
      /\ printed evs = container_lines h
      /\ fst r = (if container_fails h then Exit 1 else Return tt)).
Proof.
  cbv zeta. destruct (run_cases L F argv h)
    as [((_ & _ & evs & Ht & Hc) & Hs & _)
       |(h1 & pre & post & _ & _ & Ho & _ & Ht & Hs & Hl & _)].
  - left. rewrite (new_events_app _ _ _ Ht). split; [|exact Hs].
    now apply commands_executions.
  - right. rewrite (new_events_app _ _ _ Ht). split; [|split; [|exact Ho]].
    + rewrite filter_app. cbn [filter].
      replace (is_execute (planned_start str_float L F h)) with true
        by (destruct L; reflexivity).
      rewrite filter_app, executions_prints, (log_executions _ Hl).
      rewrite (commands_executions _ (setup_commands _ Hs)). reflexivity.
    + rewrite printed_app, (setup_printed _ Hs).
      assert (Hp : forall l, printed (planned_start str_float L F h :: l) = printed l)
        by (intros l; destruct L; reflexivity).
      rewrite Hp, printed_app, printed_prints, (log_printed _ Hl).
      now rewrite app_nil_r.
Qed.


(** X6. When a run starts the container, it does so as the last step
    of [main], [Client.execute] under its handler, on a host that the
    setup has left in order: that host differs from the one the run
    started on only by files added and by events of the setup, the
    image that was loaded exists on it and can be loaded, every
    directory the resolver was to make is a directory on it, and in
    Boltz and Chai the source of every other mount exists on it. What
    the container then writes is not constrained. *)
Theorem setup_settled_at_start (L : launcher_id) (F : flags_of L)
        (argv : list string) (h : host) :
  let r := launcher str_float L F argv h in
  filter is_execute (new_events h (snd r)) <> [] ->
  exists h1 image command options nv,
    r = finish L F image command options nv h1
    /\ rebase h h1 = h1
    /\ grows (files h) (files h1)
    /\ trace h1 = trace h ++ new_events h h1
    /\ Forall setup_event (new_events h h1)
    /\ Forall (settled L h h1) (new_events h h1).
Proof.
  cbv zeta. intros Hx.
  destruct (run_cases L F argv h)
    as [((_ & _ & evs & Ht & Hn) & _ & _)
       |(h1 & pre & post & G & Hpre & _ & _ & _ & Hs & _ & _ & i & c & o & n & Hr)].
  - rewrite (new_events_app _ _ _ Ht) in Hx.
    now rewrite (commands_executions _ Hn) in Hx.
  - exists h1, i, c, o, n. split; [exact Hr|].
    rewrite (new_events_app _ _ _ Hpre).
    destruct G as (He & Hg & _ & pre' & Hpre' & _ & Hd).
    rewrite Hpre in Hpre'. apply app_inv_head in Hpre'. subst pre'.
    repeat split; assumption.
Qed.

(** X7. What a run of Boltz or of Chai, or a run of AlphaFold 3 whose
    container does not fail, does to the files: the launcher itself only
    adds entries, before the container starts; the files the run leaves
    are those, or what the container has made of them when it was
    started. Working directory, environment and the rest of the host
    stay as they were. *)
Theorem run_keeps_files (L : launcher_id) (F : flags_of L)
        (argv : list string) (h : host) :
  let r := launcher str_float L F argv h in
  L <> LAlphaFold3 \/ container_fails h = false ->
  rebase h (snd r) = snd r
  /\ exists m,
       grows (files h) m
       /\ (filter is_execute (new_events h (snd r)) = [] /\ files (snd r) = m
           \/ filter is_execute (new_events h (snd r)) <> []
              /\ files (snd r) = container_writes h m).
Proof.
  cbv zeta. intros Hc.
  destruct (run_cases L F argv h)
    as [((He & Hg & evs & Ht & Hn) & _ & _)
       |(h1 & pre & post & G & Hpre & _ & He & Ht & Hs & Hl & Hf & _)].
  - split; [exact He|]. exists (files (snd (launcher str_float L F argv h))).
    split; [exact Hg|]. left. split; [|reflexivity].
    rewrite (new_events_app _ _ _ Ht). now apply commands_executions.
  - split; [exact He|]. exists (files h1). split; [apply G|]. right. split.
    + rewrite (new_events_app _ _ _ Ht), filter_app.
      intros H. apply app_eq_nil in H. destruct H as [_ H].
      cbn [filter] in H.
      replace (is_execute (planned_start str_float L F h)) with true in H
        by (destruct L; reflexivity).
      discriminate.
    + destruct Hf as [Hf|[Hfail Hcl]]; [exact Hf|].
      destruct Hc as [Hc|Hc]; [|congruence].
      destruct L; contradiction.
Qed.

Lemma children_nil d : forall m n,
  children d m = [] -> kind_at m (d ++ [n]) = None.
Proof.
  intros m n. assert (Hd : d ++ [n] <> []) by now destruct d.
  destruct (d ++ [n]) as [|x0 x] eqn:Ex; [now destruct Hd|]. cbn [kind_at].
  rewrite <- Ex. clear Hd.
  induction m as [|[q k] m IH]; [reflexivity|].
  cbn [children lookup].
  destruct (path_eqb (d ++ [n]) q) eqn:Eq.
  - apply path_eqb_eq in Eq. subst q. rewrite rev_unit, rev_involutive.
    rewrite path_eqb_refl. discriminate.
  - destruct (rev q) as [|n' qd]; [exact IH|].
    destruct (path_eqb (rev qd) d); [discriminate|exact IH].
Qed.

(** X8. What a run of AlphaFold 3 does to the files. The launcher adds
    entries before the container starts. After the container, it
    removes something only when the container has failed and the output
    directory is the default one: the files it leaves are then the
    result of [os.rmdir] on that directory, which [os.listdir] has seen
    empty on the files the container has left; one entry is gone, a
    directory in which the container has left nothing, and every other
    entry is as the container has left it. *)
Theorem alphafold3_run_loses (F : AlphaFold3.flags) (argv : list string) (h : host) :
  let r := AlphaFold3.launcher F argv h in
  let default := AlphaFold3.output_dir_default h in
  exists m,
    grows (files h) m
    /\ (files (snd r) = m
        \/ files (snd r) = container_writes h m
        \/ (container_fails h = true
            /\ AlphaFold3.output_dir F = default
            /\ listdir (with_files h (container_writes h m)) default = Ok []
            /\ rmdir (with_files h (container_writes h m)) default
               = Ok (files (snd r))
            /\ exists d,
                 d <> []
                 /\ kind_at (container_writes h m) d = Some KDir
                 /\ (forall n, kind_at (container_writes h m) (d ++ [n]) = None)
                 /\ forall x, kind_at (files (snd r)) x
                              = if path_eqb x d then None
                                else kind_at (container_writes h m) x)).
Proof.
  cbv zeta.
  destruct (run_cases LAlphaFold3 F argv h)
    as [((He & Hg & _) & _ & _)
       |(h1 & pre & post & G & Hpre & _ & He & Ht & Hs & Hl & Hf & _)].
  - eexists. split; [exact Hg|]. now left.
  - cbn [launcher] in *. exists (files h1). split; [apply G|].
    destruct Hf as [Hf|[Hfail (Ho & Hl' & Hr)]]; [right; now left|].
    right. right. split; [exact Hfail|].
    change (AlphaFold3.output_dir_default
              (with_files h (container_writes h (files h1))))
      with (AlphaFold3.output_dir_default h) in *.
    split; [exact Ho|]. split; [exact Hl'|]. split; [exact Hr|].
    destruct (rmdir_removes _ _ _ Hr) as (d & Hk & Hc & Hd & Hx).
    cbn [files with_files] in *.
    exists d. split; [exact Hd|]. split; [exact Hk|].
    split; [intros n; now apply children_nil|exact Hx].
Qed.

End Runs.

Section Errors.

Local Open Scope list_scope.

Variable str_float : float -> string.

(** X9. With more than one command-line argument, or with a required
    input missing (no input data in Boltz; no FASTA file or an empty
    output directory in Chai; neither JSON path nor input directory, no
    model directory or no database directory in AlphaFold 3), every
    launcher ends with status 1; the resolver has not been called, the
    container has not been started and the files are as they were. *)
Theorem usage_error_exits (L : launcher_id) (F : flags_of L)
        (argv : list string) (h : host) :
  let r := launcher str_float L F argv h in
  (1 <? length argv)%nat || usage_error L F = true ->
  exit_status (fst r) = 1%Z
  /\ bind_calls (snd r) = bind_calls h
  /\ executions (snd r) = executions h
  /\ files (snd r) = files h.
Proof.
  cbv zeta. intros Hu.
  destruct L; cbn [launcher usage_error] in *.
  - unfold Boltz.launcher, import_spython, bind, get.
    destruct (spython h); simpl; [|trace_unchanged].
    unfold app_run. destruct (Boltz.input_data F) as [input|] eqn:Ei; simpl; [|auto].
    unfold try_except, Boltz.main.
    destruct (1 <? length argv)%nat; simpl; [auto|].
    unfold bind, get.
    match goal with |- context [exists_ h ?p] => destruct (exists_ h p) end;
      simpl; [|trace_unchanged].
    unfold Client.load, bind, emit, get, try_except. simpl.
    match goal with |- context [image_loads h ?p] => destruct (image_loads h p) end;
      simpl; [|trace_unchanged].
    simpl in Hu. apply negb_true_iff in Hu.
    rewrite Ei, Hu. simpl. trace_unchanged.
  - unfold Chai.launcher, import_spython, bind, get.
    destruct (spython h); simpl; [|trace_unchanged].
    unfold app_run. destruct (Chai.fasta_file F) as [fasta|] eqn:Ei; simpl; [|auto].
    unfold try_except, Chai.main.
    destruct (1 <? length argv)%nat; simpl; [auto|].
    unfold bind, get.
    match goal with |- context [exists_ h ?p] => destruct (exists_ h p) end;
      simpl; [|trace_unchanged].
    unfold Client.load, bind, emit, get, try_except. simpl.
    match goal with |- context [image_loads h ?p] => destruct (image_loads h p) end;
      simpl; [|trace_unchanged].
    simpl in Hu. rewrite Ei. simpl.
    destruct (truthy fasta); simpl in *; [|trace_unchanged].
    apply negb_true_iff in Hu. rewrite Hu. simpl. trace_unchanged.
  - unfold AlphaFold3.launcher, import_spython, bind, get.
    destruct (spython h); simpl; [|trace_unchanged].
    match goal with |- context [exists_ h ?p] => destruct (exists_ h p) end;
      simpl; [|trace_unchanged].
    unfold Client.load, bind, emit, get, try_except. simpl.
    match goal with |- context [image_loads h ?p] => destruct (image_loads h p) end;
      simpl; [|trace_unchanged].
    unfold app_run.
    destruct (AlphaFold3.model_dir F) as [model|] eqn:Em; [|simpl; trace_unchanged].
    destruct (AlphaFold3.db_dir F) as [dbs|] eqn:Ed; [|simpl; trace_unchanged].
    unfold AlphaFold3.main.
    destruct (1 <? length argv)%nat; simpl; [trace_unchanged|].
    simpl in Hu.
    destruct (negb (truthy_opt (AlphaFold3.json_path F))
              && negb (truthy_opt (AlphaFold3.input_dir F))); simpl in *;
      [trace_unchanged|].
    unfold bind.
    destruct (truthy_opt (AlphaFold3.json_path F)
              && truthy_opt (AlphaFold3.input_dir F)); simpl;
      rewrite Em, Ed; simpl;
      (destruct (truthy model); simpl in *; [|trace_unchanged]);
      (destruct dbs; [trace_unchanged|discriminate]).
Qed.

(** X10. When the image the launcher uses cannot be loaded, every
    launcher ends with status 1; the resolver has not been called, the
    container has not been started and the files are as they were. *)
Theorem image_load_failure_exits (L : launcher_id) (F : flags_of L)
        (argv : list string) (h : host) :
  let r := launcher str_float L F argv h in
  image_loads h (image_path L F h) = false ->
  exit_status (fst r) = 1%Z
  /\ bind_calls (snd r) = bind_calls h
  /\ executions (snd r) = executions h
  /\ files (snd r) = files h.
Proof.
  cbv zeta. intros Hl.
  destruct L; cbn [launcher image_path] in *.
  - unfold Boltz.launcher, import_spython, bind, get.
    destruct (spython h); simpl; [|trace_unchanged].
    unfold app_run. destruct (Boltz.input_data F) as [input|] eqn:Ei; simpl; [|auto].
    unfold try_except, Boltz.main.
    destruct (1 <? length argv)%nat; simpl; [auto|].
    unfold bind, get.
    replace (match Boltz.sif_path F with
             | Some p => if truthy p then p else Boltz._BOLTZ_SIF_PATH h
             | None => Boltz._BOLTZ_SIF_PATH h
             end)
      with (match given (Boltz.sif_path F) with
            | Some p => p
            | None => Boltz._BOLTZ_SIF_PATH h
            end)
      by (unfold given; destruct (Boltz.sif_path F) as [p|];
          [destruct (truthy p)|]; reflexivity).
    match goal with |- context [exists_ h ?p] => destruct (exists_ h p) end;
      simpl; [|trace_unchanged].
    unfold Client.load, bind, emit, get, try_except. simpl.
    rewrite Hl. simpl. trace_unchanged.
  - unfold Chai.launcher, import_spython, bind, get.
    destruct (spython h); simpl; [|trace_unchanged].
    unfold app_run. destruct (Chai.fasta_file F) as [fasta|] eqn:Ei; simpl; [|auto].
    unfold try_except, Chai.main.
    destruct (1 <? length argv)%nat; simpl; [auto|].
    unfold bind, get.
    replace (match Chai.sif_path F with
             | Some p => if truthy p then p else Chai._CHAI_SIF_PATH h
             | None => Chai._CHAI_SIF_PATH h
             end)
      with (match given (Chai.sif_path F) with
            | Some p => p
            | None => Chai._CHAI_SIF_PATH h
            end)
      by (unfold given; destruct (Chai.sif_path F) as [p|];
          [destruct (truthy p)|]; reflexivity).
    match goal with |- context [exists_ h ?p] => destruct (exists_ h p) end;
      simpl; [|trace_unchanged].
    unfold Client.load, bind, emit, get, try_except. simpl.
    rewrite Hl. simpl. trace_unchanged.
  - unfold AlphaFold3.launcher, import_spython, bind, get.
    destruct (spython h); simpl; [|trace_unchanged].
    match goal with |- context [exists_ h ?p] => destruct (exists_ h p) end;
      simpl; [|trace_unchanged].
    unfold Client.load, bind, emit, get, try_except. simpl.
    rewrite Hl. simpl. trace_unchanged.
Qed.

End Errors.

Section Databases.

Local Open Scope list_scope.

Lemma db_mounts_args h dbs : forall i,
  map snd (db_mounts h i dbs)
  = map (fun k => ("--db_dir=/mnt/db_" ++ str_int (Z.of_nat k))%string)
        (seq i (length dbs)).
Proof.
  induction dbs as [|db dbs IH]; intros i; [reflexivity|].
  simpl. now rewrite IH.
Qed.

Lemma db_mounts_binds h dbs : forall i,
  map fst (db_mounts h i dbs)
  = map (fun kp => (bind_source LAlphaFold3 h (snd kp) true ++ ":/mnt/db_"
                    ++ str_int (Z.of_nat (fst kp)))%string)
        (combine (seq i (length dbs)) dbs).
Proof.
  induction dbs as [|db dbs IH]; intros i; [reflexivity|].
  simpl. now rewrite IH.
Qed.

Lemma db_mounts_event h e dbs : forall i,
  db_mounts (with_event h e) i dbs = db_mounts h i dbs.
Proof.
  induction dbs as [|db dbs IH]; intros i; [reflexivity|].
  cbn [db_mounts]. rewrite IH. reflexivity.
Qed.

Lemma bind_db_dirs_eq dbs : forall i binds args h,
  AlphaFold3.bind_db_dirs i dbs (binds, args) h
  = (Return (binds ++ map fst (db_mounts h i dbs),
             args ++ map snd (db_mounts h i dbs)),
     with_events h
       (map (fun kp => EvCreateBind ("db_" ++ str_int (Z.of_nat (fst kp)))
                                    (snd kp) true)
            (combine (seq i (length dbs)) dbs))).
Proof.
  induction dbs as [|db dbs IH]; intros i binds args h.
  - simpl. rewrite !app_nil_r. reflexivity.
  - cbn [AlphaFold3.bind_db_dirs]. unfold bind at 1.
    change (AlphaFold3._create_bind ("db_" ++ str_int (Z.of_nat i)) db true h)
      with (create_bind LAlphaFold3 ("db_" ++ str_int (Z.of_nat i)) db true false h).
    rewrite create_bind_eq. cbv zeta.
    replace (makes_dir LAlphaFold3 ("db_" ++ str_int (Z.of_nat i))) with false
      by reflexivity.
    cbn [checks_source andb]. lazy iota beta.
    rewrite IH, db_mounts_event. unfold append.
    cbn [length seq combine map fst snd db_mounts]. rewrite <- !app_assoc.
    reflexivity.
Qed.

(** X11. The loop of AlphaFold 3 over the database directories always
    returns and touches no file: it calls the resolver once for each
    directory, in order, with the mounts [db_i], [db_(i+1)], ..., adds
    for the k-th one the bind of its absolute path on [/mnt/db_k] and
    the argument [--db_dir=/mnt/db_k], and checks the existence of none
    of them. *)
Theorem bind_db_dirs_returns (dbs : list string) (i : nat)
        (binds command_args : list string) (h : host) :
  let r := AlphaFold3.bind_db_dirs i dbs (binds, command_args) h in
  fst r = Return
            (binds ++ map (fun kp => (os_py.abspath h (snd kp) ++ ":/mnt/db_"
                                      ++ str_int (Z.of_nat (fst kp)))%string)
                          (combine (seq i (length dbs)) dbs),
             command_args
             ++ map (fun k => ("--db_dir=/mnt/db_" ++ str_int (Z.of_nat k))%string)
                    (seq i (length dbs)))
  /\ files (snd r) = files h
  /\ trace (snd r)
     = trace h ++ map (fun kp => EvCreateBind ("db_" ++ str_int (Z.of_nat (fst kp)))
                                              (snd kp) true)
                      (combine (seq i (length dbs)) dbs).
Proof.
  cbv zeta. rewrite bind_db_dirs_eq. cbn [fst snd].
  rewrite db_mounts_args, db_mounts_binds, with_events_files, with_events_trace.
  repeat split.
Qed.

End Databases.

(** ** Samples *)

Section Samples.

Local Open Scope list_scope.

(** The starts planned on the sample host. *)
Example planned_start_boltz :
  planned_start Sample.str_float LBoltz Sample.boltz_flags Sample.host0
  = EvExecute "/images/tool.sif"
      ["boltz"; "predict"; "/mnt_launcher/input_data/protein.fasta";
       "--out_dir=/mnt_launcher/output"; "--cache=/mnt_launcher/boltz_cache";
       "--no-write-full-pae"; "--no-write-full-pde"; "--no-override";
       "--no-use-msa-server"; "--potentials"]
      ["--bind";
       "/data:/mnt_launcher/input_data:ro,/out:/mnt_launcher/output,/home/user/.boltz:/mnt_launcher/boltz_cache,/tmp:/mnt_launcher/tmp";
       "--env"; "NVIDIA_VISIBLE_DEVICES=all";
       "--env"; "BOLTZ_CACHE=/mnt_launcher/boltz_cache";
       "--env"; "TMPDIR=/mnt_launcher/tmp"]
      true.
Proof. vm_compute. reflexivity. Qed.

Example planned_start_chai :
  planned_start Sample.str_float LChai Sample.chai_flags Sample.host0
  = EvExecute "/images/tool.sif"
      ["chai-lab"; "fold"; "/mnt/fasta/protein.fasta"; "/mnt/output";
       "--msa-server-url=http://localhost:8080"]
      ["--bind";
       "/data:/mnt/fasta,/results/run_2025-03-07_09-05-01:/mnt/output,/tmp:/mnt/tmp";
       "--env"; "NVIDIA_VISIBLE_DEVICES=all"; "--env"; "TMPDIR=/mnt/tmp"]
      true.
Proof. vm_compute. reflexivity. Qed.

Example planned_start_alphafold3 :
  planned_start Sample.str_float LAlphaFold3 Sample.alphafold3_flags Sample.host0
  = EvExecute "/images/tool.sif"
      ["python"; "/app/run_alphafold.py";
       "--json_path=/mnt/json_input/fold_input.json";
       "--output_dir=/mnt/output"; "--model_dir=/mnt/models";
       "--db_dir=/mnt/db_0"; "--run_data_pipeline=true";
       "--run_inference=true"; "--conformer_max_iterations=10000";
       "--jackhmmer_n_cpu=8"; "--nhmmer_n_cpu=8";
       "--max_template_date=2021-09-30"; "--num_recycles=10";
       "--num_diffusion_samples=5";
       "--flash_attention_implementation=triton";
       "--save_embeddings=false"; "--force_output_dir=false";
       "--logtostderr"]
      ["--bind";
       "/data:/mnt/json_input,/out:/mnt/output,/nonexistent/models:/mnt/models,/db:/mnt/db_0,/tmp:/mnt/tmp";
       "--env"; "NVIDIA_VISIBLE_DEVICES=all"]
      true.
Proof. vm_compute. reflexivity. Qed.

Lemma setup_settled_at_start_witness :
  filter is_execute
    (new_events Sample.writing
       (snd (launcher Sample.str_float LBoltz Sample.boltz_flags
                      ["run_boltz_launcher.py"] Sample.writing))) <> []
  /\ exists h1 image command options nv,
       launcher Sample.str_float LBoltz Sample.boltz_flags
                ["run_boltz_launcher.py"] Sample.writing
       = finish LBoltz Sample.boltz_flags image command options nv h1
       /\ rebase Sample.writing h1 = h1
       /\ grows (files Sample.writing) (files h1)
       /\ trace h1 = trace Sample.writing ++ new_events Sample.writing h1
       /\ Forall setup_event (new_events Sample.writing h1)
       /\ Forall (settled LBoltz Sample.writing h1)
                 (new_events Sample.writing h1).
Proof.
  split; [vm_compute; discriminate|].
  apply (setup_settled_at_start Sample.str_float LBoltz Sample.boltz_flags
           ["run_boltz_launcher.py"] Sample.writing).
  vm_compute. discriminate.
Defined.

Lemma run_keeps_files_witness :
  LBoltz <> LAlphaFold3
  /\ isfile (snd (launcher Sample.str_float LBoltz Sample.boltz_flags
                          ["run_boltz_launcher.py"] Sample.writing))
            "/out/prediction.cif" = true
  /\ exists m,
       grows (files Sample.writing) m
       /\ files (snd (launcher Sample.str_float LBoltz Sample.boltz_flags
                              ["run_boltz_launcher.py"] Sample.writing))
          = container_writes Sample.writing m.
Proof.
  split; [discriminate|]. split; [vm_compute; reflexivity|].
  destruct (run_keeps_files Sample.str_float LBoltz Sample.boltz_flags
              ["run_boltz_launcher.py"] Sample.writing)
    as (_ & m & Hg & [[Hn _]|[_ Hf]]).
  - left. discriminate.
  - vm_compute in Hn. discriminate.
  - exists m. split; [exact Hg|exact Hf].
Defined.

Lemma usage_error_exits_witness :
  usage_error LChai Sample.chai_flags = false
  /\ exit_status (fst (launcher Sample.str_float LChai Sample.chai_flags
                                ["run_chailab_launcher.py"; "extra"]
                                Sample.host0)) = 1%Z
  /\ bind_calls (snd (launcher Sample.str_float LChai Sample.chai_flags
                               ["run_chailab_launcher.py"; "extra"]
                               Sample.host0)) = [].
Proof.
  split; [reflexivity|].
  destruct (usage_error_exits Sample.str_float LChai Sample.chai_flags
              ["run_chailab_launcher.py"; "extra"] Sample.host0 eq_refl)
    as (H1 & H2 & _).
  split; [exact H1|exact H2].
Defined.

Lemma image_load_failure_exits_witness :
  exists_ Sample.unloadable (image_path LAlphaFold3 Sample.alphafold3_flags
                                        Sample.unloadable) = true
  /\ image_loads Sample.unloadable
        (image_path LAlphaFold3 Sample.alphafold3_flags Sample.unloadable) = false
  /\ exit_status (fst (launcher Sample.str_float LAlphaFold3 Sample.alphafold3_flags
                                ["run_alphafold3_launcher.py"]
                                Sample.unloadable)) = 1%Z
  /\ bind_calls (snd (launcher Sample.str_float LAlphaFold3 Sample.alphafold3_flags
                               ["run_alphafold3_launcher.py"]
                               Sample.unloadable)) = [].
Proof.
  split; [reflexivity|]. split; [reflexivity|].
  destruct (image_load_failure_exits Sample.str_float LAlphaFold3
              Sample.alphafold3_flags ["run_alphafold3_launcher.py"]
              Sample.unloadable eq_refl)
    as (H1 & H2 & _).
  split; [exact H1|exact H2].
Defined.

(** The cleanup of AlphaFold 3 acts on what the container has left: the
    default output directory, made by the setup, is removed when the
    container fails before it writes, and is kept with the ranking when
    the container fails after it has written one. *)
Example alphafold3_cleanup_after_container :
  let run h := AlphaFold3.launcher Sample.alphafold3_default_output
                 ["run_alphafold3_launcher.py"] h in
  exists_ Sample.crashing "/home/user/alphafold3_output" = false
  /\ fst (run Sample.crashing) = Exit 1
  /\ exists_ (snd (run Sample.crashing)) "/home/user/alphafold3_output" = false
  /\ files (snd (run Sample.crashing)) = files Sample.crashing
  /\ fst (run Sample.crashing_late) = Exit 1
  /\ isdir (snd (run Sample.crashing_late)) "/home/user/alphafold3_output" = true
  /\ isfile (snd (run Sample.crashing_late))
       "/home/user/alphafold3_output/ranking.csv" = true.
Proof. repeat split; vm_compute; reflexivity. Qed.

End Samples.

Section MissingInput.

Local Open Scope list_scope.

Variable str_float : float -> string.

Lemma exists_event h e p : exists_ (with_event h e) p = exists_ h p.
Proof. reflexivity. Qed.

(** X12. In Boltz and in Chai, when the source of the first mount, the
    input of the run (the input data, or its directory when it is a
    file; the directory of the FASTA file), does not exist on the host
    the run starts on, the launcher ends with status 1; the container
    has not been started and the files are as they were: no output
    directory has been made. *)
Theorem missing_input_exits (L : launcher_id) (F : flags_of L)
        (argv : list string) (h : host) (name path : string) (is_dir : bool) :
  let r := launcher str_float L F argv h in
  first_mount L F h = Some (name, path, is_dir) ->
  exists_ h (bind_source L h path is_dir) = false ->
  exit_status (fst r) = 1%Z
  /\ executions (snd r) = executions h
  /\ files (snd r) = files h.
Proof.
  cbv zeta. intros Hm Hx.
  destruct L; cbn [launcher first_mount] in *; [| |discriminate].
  - unfold given in Hm.
    destruct (Boltz.input_data F) as [input|] eqn:Ei; [|discriminate].
    destruct (truthy input) eqn:Et; [|discriminate].
    injection Hm as <- <- <-.
    unfold Boltz.launcher, import_spython, bind, get.
    destruct (spython h); simpl; [|trace_unchanged].
    unfold app_run. rewrite Ei.
    unfold try_except, Boltz.main.
    destruct (1 <? length argv)%nat; simpl; [auto|].
    unfold bind, get.
    match goal with |- context [exists_ h ?p] => destruct (exists_ h p) end;
      simpl; [|trace_unchanged].
    unfold Client.load, bind, emit, get, try_except. simpl.
    match goal with |- context [image_loads h ?p] => destruct (image_loads h p) end;
      simpl; [|trace_unchanged].
    rewrite Ei, Et. cbn [negb]. lazy beta iota.
    match goal with
    | |- context [Boltz._create_bind ?n ?p ?d ?ro ?g] =>
        change (Boltz._create_bind n p d ro g) with (create_bind LBoltz n p d ro g);
        rewrite (create_bind_eq LBoltz n p d ro g)
    end.
    cbv zeta. replace (makes_dir LBoltz "input_data") with false by reflexivity.
    cbn [checks_source andb].
    match goal with
    | |- context [exists_ ?g (bind_source LBoltz ?g ?p ?d)] =>
        change (exists_ g (bind_source LBoltz g p d))
          with (exists_ h (bind_source LBoltz h input (isdir h input)))
    end.
    rewrite Hx. simpl. trace_unchanged.
  - unfold given in Hm.
    destruct (Chai.fasta_file F) as [fasta|] eqn:Ei; [|discriminate].
    destruct (truthy fasta) eqn:Et; [|discriminate].
    injection Hm as <- <- <-.
    unfold Chai.launcher, import_spython, bind, get.
    destruct (spython h); simpl; [|trace_unchanged].
    unfold app_run. rewrite Ei.
    unfold try_except, Chai.main.
    destruct (1 <? length argv)%nat; simpl; [auto|].
    unfold bind, get.
    match goal with |- context [exists_ h ?p] => destruct (exists_ h p) end;
      simpl; [|trace_unchanged].
    unfold Client.load, bind, emit, get, try_except. simpl.
    match goal with |- context [image_loads h ?p] => destruct (image_loads h p) end;
      simpl; [|trace_unchanged].
    rewrite Ei. cbn [truthy_opt]. rewrite Et. cbn [negb]. lazy beta iota.
    destruct (truthy (Chai.output_dir F)); cbn [negb]; lazy beta iota;
      [|simpl; trace_unchanged].
    match goal with
    | |- context [Chai._create_bind ?n ?p ?d ?g] =>
        change (Chai._create_bind n p d g) with (create_bind LChai n p d false g);
        rewrite (create_bind_eq LChai n p d false g)
    end.
    cbv zeta. replace (makes_dir LChai "fasta") with false by reflexivity.
    cbn [checks_source andb].
    match goal with
    | |- context [exists_ ?g (bind_source LChai ?g ?p ?d)] =>
        change (exists_ g (bind_source LChai g p d))
          with (exists_ h (bind_source LChai h fasta false))
    end.
    rewrite Hx. simpl. trace_unchanged.
Qed.

End MissingInput.

Lemma missing_input_exits_witness :
  first_mount LChai Sample.chai_stray_flags Sample.host0
  = Some ("fasta", "/nodata/protein.fasta", false)
  /\ exists_ Sample.host0 "/nodata" = false
  /\ exit_status (fst (launcher Sample.str_float LChai Sample.chai_stray_flags
                                ["run_chailab_launcher.py"] Sample.host0)) = 1%Z
  /\ exists_ (snd (launcher Sample.str_float LChai Sample.chai_stray_flags
                            ["run_chailab_launcher.py"] Sample.host0)) "/out"
     = false.
Proof.
  split; [reflexivity|]. split; [reflexivity|].
  destruct (missing_input_exits Sample.str_float LChai Sample.chai_stray_flags
              ["run_chailab_launcher.py"] Sample.host0
              "fasta" "/nodata/protein.fasta" false eq_refl eq_refl)
    as (H1 & _ & H3).
  split; [exact H1|].
  unfold exists_, stat, from_root. rewrite H3. reflexivity.
Defined.
